(** * Universal reports: the report builder widget and its extension

    A shallow embedding of [static/src/js/report_builder.js]
    (class [ReportBuilderWidget]) and of the extended controller
    (class [ReportBuilderExtended] with its two dialogs).

    Conventions of the embedding.
    - The reactive [this.state] object is the record [State].
    - The four collections [selectedFields], [filters], [groups] and
      [sorts] are JavaScript arrays, that is references: the state holds
      a location and the array's elements live in a store.  Assigning
      [this.state.selectedFields = a] copies the reference, and
      [push]/[splice]/index assignment change the store.  Element objects
      are created by an object literal, a spread or [JSON.parse] at the
      moment they enter an array and are never put into a second array,
      so a store cell holds its elements by value.
    - Asynchronous calls ([orm.create], [rpc]) take their outcome as an
      argument; [Date.now()] is an argument as well.
    - Calls to the outside (notifications, RPC, ORM, dialogs) are
      recorded, in order, in the ghost field [log].
    - [_t] is the framework's translation function; translated texts are
      kept symbolic in [Message].
    - The flag [autoRefresh], [refreshInterval], the refresh timer and
      the texts shown by the refresh, export, template and settings-file
      handlers are kept in the record [Component], which holds the
      [State].
    - Not embedded: the browser side of [exportReport], [saveAsTemplate],
      [exportSettings] and [importSettings] (DOM, download, file input,
      [prompt]; the link, the records and the settings document are
      typed values), the recommendation dialog's own component, and the
      average of the execution times; the properties below do not reach
      them. *)

From stdpp Require Import list strings gmap pretty.

Open Scope string_scope.
Open Scope list_scope.
Open Scope Z_scope.

(** ** JSON values and [JSON.stringify] *)

#[local] Set Warnings "-register-all".

Inductive json :=
| JNull
| JBool (b : bool)
| JNum (z : Z)
| JStr (s : string)
| JArr (l : list json)
| JObj (l : list (string * json)).

(** JavaScript truthiness of a JSON value. *)
Definition truthy (v : json) : bool :=
  match v with
  | JNull => false
  | JBool b => b
  | JNum z => negb (z =? 0)
  | JStr s => negb (String.eqb s "")
  | JArr _ | JObj _ => true
  end.

Definition dquote : Ascii.ascii := Ascii.ascii_of_N 34.
Definition backslash : Ascii.ascii := Ascii.ascii_of_N 92.

Definition hex_digit (n : N) : Ascii.ascii :=
  Ascii.ascii_of_N (if (n <? 10)%N then 48 + n else 87 + n)%N.

(** One character of a quoted JSON string (QuoteJSONString). *)
Definition quote_char (c : Ascii.ascii) : string :=
  let n := Ascii.N_of_ascii c in
  if (n =? 8)%N then "\b"
  else if (n =? 9)%N then "\t"
  else if (n =? 10)%N then "\n"
  else if (n =? 12)%N then "\f"
  else if (n =? 13)%N then "\r"
  else if (n =? 34)%N then String backslash (String c EmptyString)
  else if (n =? 92)%N then "\\"
  else if (n <? 32)%N then
    "\u00" +:+ String (hex_digit (n / 16)) (String (hex_digit (n mod 16)) EmptyString)
  else String c EmptyString.

Fixpoint quote_body (s : string) : string :=
  match s with
  | EmptyString => EmptyString
  | String c s' => quote_char c +:+ quote_body s'
  end.

Definition quote (s : string) : string :=
  String dquote (quote_body s +:+ String dquote EmptyString).

Definition join (sep : string) (l : list string) : string :=
  match l with
  | [] => ""
  | x :: xs => fold_left (fun acc y => acc +:+ sep +:+ y) xs x
  end.

Fixpoint stringify (v : json) : string :=
  match v with
  | JNull => "null"
  | JBool true => "true"
  | JBool false => "false"
  | JNum z => pretty z
  | JStr s => quote s
  | JArr l => "[" +:+ join "," (map stringify l) +:+ "]"
  | JObj l =>
      "{" +:+ join "," (map (fun kv => quote (fst kv) +:+ ":" +:+ stringify (snd kv)) l)
          +:+ "}"
  end.

(** ** Data model *)

(** An entry of [availableModels] (a row of [ir.model]). *)
Record Model := { m_id : Z; m_name : string; m_model : string }.

(** A field descriptor as the server returns it: [{name, string, type}]. *)
Record FieldDesc := { fd_name : string; fd_string : string; fd_type : string }.

Record FieldSpec := {
  name : string;
  label : string;
  type : string;
  visible : bool;
  sequence : Z;
  format_type : string;
  aggregation : string
}.

(** [value] is the text of the filter's input ([''] when created). *)
Record FilterSpec := {
  f_id : Z;
  f_field : string;
  f_field_type : string;
  f_operator : string;
  f_value : string;
  f_active : bool
}.

Record SortSpec := { s_id : Z; s_field : string; s_direction : string }.

Record GroupSpec := { g_id : Z; g_field : string; g_show_totals : bool }.

(** Locations of arrays in the store. *)
Definition loc := nat.

(** The [state] object of a history entry: four array references. *)
Record Snapshot := {
  snap_selectedFields : loc;
  snap_filters : loc;
  snap_groups : loc;
  snap_sorts : loc
}.

Record HistoryEntry := {
  h_action : string;
  h_data : json;
  h_timestamp : Z;
  h_state : Snapshot
}.

(** *** Texts shown to the user

    One constructor per text of the source; the source text is given
    next to it. *)
Inductive Message :=
| MServer (s : string)            (* a text sent by the server *)
| MModelsLoadError                (* "Помилка завантаження моделей" *)
| MModelNotFound                  (* "Модель не знайдена" *)
| MFieldsLoaded                   (* "Поля завантажено успішно" *)
| MFieldsLoadError                (* "Помилка завантаження полів моделі" *)
| MFieldAdded (s : string)        (* "Поле додано: " + field.string *)
| MFieldAlreadyAdded              (* "Поле вже додано до звіту" *)
| MFieldRemoved (s : string)      (* "Поле видалено: " + label *)
| MExecError                      (* "Помилка виконання звіту" *)
| MSelectModel                    (* "Оберіть модель даних" *)
| MAddAField                      (* "Додайте хоча б одне поле до звіту" *)
| MFillFilterValues               (* "Заповніть значення для всіх активних фільтрів" *)
| MFixErrors                      (* "Виправте помилки перед продовженням" *)
| MJoin (l : list Message)        (* errors.join('; ') *)
| MTempReport                     (* "Тимчасовий звіт" *)
| MFilterName (n : Z)             (* "Фільтр " + n *)
| MAdvancedOn                     (* "Розширений режим увімкнено" *)
| MAdvancedOff                    (* "Розширений режим вимкнено" *)
| MFieldDuplicated                (* "Поле продубльовано" *)
| MAllFieldsAdded                 (* "Всі поля вже додані" *)
| MFieldsAdded (n : Z)            (* "Додано полів: " + n *)
| MNoRecommendations              (* "Немає рекомендацій для цієї моделі" *)
| MLoadedFromCache                (* "Завантажено з кешу" *)
| MCacheCleared                   (* "Кеш очищено" *)
| MUndone                         (* "Дію скасовано" *)
| MNothingToUndo                  (* "Немає дій для скасування" *)
| MRedone                         (* "Дію повторено" *)
| MNothingToRedo.                 (* "Немає дій для повторення" *)

Inductive Severity := Success | Danger | Warning | Info.

Record Notification := {
  n_message : option Message;
  n_type : Severity;
  n_sticky : bool
}.

(** What [prepareFilters] sends: [{field, operator, value}]. *)
Record PreparedFilter := {
  pf_field : string;
  pf_operator : string;
  pf_value : string
}.

(** The payload of a [[0, 0, {...}]] tuple of [prepareFields]. *)
Record FieldLine := {
  fl_field_name : string;
  fl_field_label : string;
  fl_field_type : string;
  fl_visible : bool;
  fl_sequence : Z;
  fl_format_type : string;
  fl_aggregation : string
}.

(** The payload of a [[0, 0, {...}]] tuple of [prepareFiltersForSave]. *)
Record FilterLine := {
  ql_name : Message;
  ql_field_name : string;
  ql_operator : string;
  ql_value : string;
  ql_active : bool;
  ql_sequence : Z
}.

(** The record passed to [orm.create("universal.report.builder", ...)]. *)
Record ReportRecord := {
  r_name : Message;
  r_model_id : Z;
  r_field_ids : list FieldLine;
  r_filter_ids : list FilterLine
}.

(** Calls that leave the component, in the order they are made. *)
Inductive Event :=
| EvNotify (n : Notification)
| EvOrmCreate (r : ReportRecord)
| EvRpcGetModelFields (model_name : string)
| EvRpcExecuteReport (report_id : Z) (filters : list PreparedFilter) (limit : option Z)
| EvBulkDialog (candidates : list FieldDesc).

Record ExecutionStats := {
  totalExecutions : Z;
  lastExecutionTime : Z
}.

(** ** The component state

    The fields of [this.state] ([setup] of both classes), followed by the
    store of the four kinds of arrays and the log of outside calls.  The
    timer fields ([autoRefresh], [refreshInterval]), [viewSettings] and
    the floating-point [avgExecutionTime] are not tracked: no function
    below reads them. *)
Record State := {
  selectedModel : option Model;
  availableModels : list Model;
  availableFields : list FieldDesc;
  selectedFields : loc;
  filters : loc;
  groups : loc;
  sorts : loc;
  reportData : json;
  reportCount : Z;
  loading : bool;
  previewMode : bool;
  currentStep : Z;
  errors : list Message;
  advancedMode : bool;
  history : list HistoryEntry;
  historyIndex : Z;
  cachedResults : gmap string json;
  lastCacheKey : option string;
  executionStats : ExecutionStats;
  fieldArrays : list (list FieldSpec);
  filterArrays : list (list FilterSpec);
  groupArrays : list (list GroupSpec);
  sortArrays : list (list SortSpec);
  log : list Event
}.

(** Assignments [this.state.x = v]. *)
Definition set_selectedModel (v : option Model) (s : State) : State :=
  {| selectedModel := v; availableModels := availableModels s; availableFields
     := availableFields s; selectedFields := selectedFields s; filters :=
     filters s; groups := groups s; sorts := sorts s; reportData := reportData
     s; reportCount := reportCount s; loading := loading s; previewMode :=
     previewMode s; currentStep := currentStep s; errors := errors s;
     advancedMode := advancedMode s; history := history s; historyIndex :=
     historyIndex s; cachedResults := cachedResults s; lastCacheKey :=
     lastCacheKey s; executionStats := executionStats s; fieldArrays :=
     fieldArrays s; filterArrays := filterArrays s; groupArrays := groupArrays
     s; sortArrays := sortArrays s; log := log s |}.

Definition set_availableModels (v : list Model) (s : State) : State :=
  {| selectedModel := selectedModel s; availableModels := v; availableFields
     := availableFields s; selectedFields := selectedFields s; filters :=
     filters s; groups := groups s; sorts := sorts s; reportData := reportData
     s; reportCount := reportCount s; loading := loading s; previewMode :=
     previewMode s; currentStep := currentStep s; errors := errors s;
     advancedMode := advancedMode s; history := history s; historyIndex :=
     historyIndex s; cachedResults := cachedResults s; lastCacheKey :=
     lastCacheKey s; executionStats := executionStats s; fieldArrays :=
     fieldArrays s; filterArrays := filterArrays s; groupArrays := groupArrays
     s; sortArrays := sortArrays s; log := log s |}.

Definition set_availableFields (v : list FieldDesc) (s : State) : State :=
  {| selectedModel := selectedModel s; availableModels := availableModels s;
     availableFields := v; selectedFields := selectedFields s; filters :=
     filters s; groups := groups s; sorts := sorts s; reportData := reportData
     s; reportCount := reportCount s; loading := loading s; previewMode :=
     previewMode s; currentStep := currentStep s; errors := errors s;
     advancedMode := advancedMode s; history := history s; historyIndex :=
     historyIndex s; cachedResults := cachedResults s; lastCacheKey :=
     lastCacheKey s; executionStats := executionStats s; fieldArrays :=
     fieldArrays s; filterArrays := filterArrays s; groupArrays := groupArrays
     s; sortArrays := sortArrays s; log := log s |}.

Definition set_selectedFields (v : loc) (s : State) : State :=
  {| selectedModel := selectedModel s; availableModels := availableModels s;
     availableFields := availableFields s; selectedFields := v; filters :=
     filters s; groups := groups s; sorts := sorts s; reportData := reportData
     s; reportCount := reportCount s; loading := loading s; previewMode :=
     previewMode s; currentStep := currentStep s; errors := errors s;
     advancedMode := advancedMode s; history := history s; historyIndex :=
     historyIndex s; cachedResults := cachedResults s; lastCacheKey :=
     lastCacheKey s; executionStats := executionStats s; fieldArrays :=
     fieldArrays s; filterArrays := filterArrays s; groupArrays := groupArrays
     s; sortArrays := sortArrays s; log := log s |}.

Definition set_filters (v : loc) (s : State) : State :=
  {| selectedModel := selectedModel s; availableModels := availableModels s;
     availableFields := availableFields s; selectedFields := selectedFields s;
     filters := v; groups := groups s; sorts := sorts s; reportData :=
     reportData s; reportCount := reportCount s; loading := loading s;
     previewMode := previewMode s; currentStep := currentStep s; errors :=
     errors s; advancedMode := advancedMode s; history := history s;
     historyIndex := historyIndex s; cachedResults := cachedResults s;
     lastCacheKey := lastCacheKey s; executionStats := executionStats s;
     fieldArrays := fieldArrays s; filterArrays := filterArrays s; groupArrays
     := groupArrays s; sortArrays := sortArrays s; log := log s |}.

Definition set_groups (v : loc) (s : State) : State :=
  {| selectedModel := selectedModel s; availableModels := availableModels s;
     availableFields := availableFields s; selectedFields := selectedFields s;
     filters := filters s; groups := v; sorts := sorts s; reportData :=
     reportData s; reportCount := reportCount s; loading := loading s;
     previewMode := previewMode s; currentStep := currentStep s; errors :=
     errors s; advancedMode := advancedMode s; history := history s;
     historyIndex := historyIndex s; cachedResults := cachedResults s;
     lastCacheKey := lastCacheKey s; executionStats := executionStats s;
     fieldArrays := fieldArrays s; filterArrays := filterArrays s; groupArrays
     := groupArrays s; sortArrays := sortArrays s; log := log s |}.

Definition set_sorts (v : loc) (s : State) : State :=
  {| selectedModel := selectedModel s; availableModels := availableModels s;
     availableFields := availableFields s; selectedFields := selectedFields s;
     filters := filters s; groups := groups s; sorts := v; reportData :=
     reportData s; reportCount := reportCount s; loading := loading s;
     previewMode := previewMode s; currentStep := currentStep s; errors :=
     errors s; advancedMode := advancedMode s; history := history s;
     historyIndex := historyIndex s; cachedResults := cachedResults s;
     lastCacheKey := lastCacheKey s; executionStats := executionStats s;
     fieldArrays := fieldArrays s; filterArrays := filterArrays s; groupArrays
     := groupArrays s; sortArrays := sortArrays s; log := log s |}.

Definition set_reportData (v : json) (s : State) : State :=
  {| selectedModel := selectedModel s; availableModels := availableModels s;
     availableFields := availableFields s; selectedFields := selectedFields s;
     filters := filters s; groups := groups s; sorts := sorts s; reportData :=
     v; reportCount := reportCount s; loading := loading s; previewMode :=
     previewMode s; currentStep := currentStep s; errors := errors s;
     advancedMode := advancedMode s; history := history s; historyIndex :=
     historyIndex s; cachedResults := cachedResults s; lastCacheKey :=
     lastCacheKey s; executionStats := executionStats s; fieldArrays :=
     fieldArrays s; filterArrays := filterArrays s; groupArrays := groupArrays
     s; sortArrays := sortArrays s; log := log s |}.

Definition set_reportCount (v : Z) (s : State) : State :=
  {| selectedModel := selectedModel s; availableModels := availableModels s;
     availableFields := availableFields s; selectedFields := selectedFields s;
     filters := filters s; groups := groups s; sorts := sorts s; reportData :=
     reportData s; reportCount := v; loading := loading s; previewMode :=
     previewMode s; currentStep := currentStep s; errors := errors s;
     advancedMode := advancedMode s; history := history s; historyIndex :=
     historyIndex s; cachedResults := cachedResults s; lastCacheKey :=
     lastCacheKey s; executionStats := executionStats s; fieldArrays :=
     fieldArrays s; filterArrays := filterArrays s; groupArrays := groupArrays
     s; sortArrays := sortArrays s; log := log s |}.

Definition set_loading (v : bool) (s : State) : State :=
  {| selectedModel := selectedModel s; availableModels := availableModels s;
     availableFields := availableFields s; selectedFields := selectedFields s;
     filters := filters s; groups := groups s; sorts := sorts s; reportData :=
     reportData s; reportCount := reportCount s; loading := v; previewMode :=
     previewMode s; currentStep := currentStep s; errors := errors s;
     advancedMode := advancedMode s; history := history s; historyIndex :=
     historyIndex s; cachedResults := cachedResults s; lastCacheKey :=
     lastCacheKey s; executionStats := executionStats s; fieldArrays :=
     fieldArrays s; filterArrays := filterArrays s; groupArrays := groupArrays
     s; sortArrays := sortArrays s; log := log s |}.

Definition set_previewMode (v : bool) (s : State) : State :=
  {| selectedModel := selectedModel s; availableModels := availableModels s;
     availableFields := availableFields s; selectedFields := selectedFields s;
     filters := filters s; groups := groups s; sorts := sorts s; reportData :=
     reportData s; reportCount := reportCount s; loading := loading s;
     previewMode := v; currentStep := currentStep s; errors := errors s;
     advancedMode := advancedMode s; history := history s; historyIndex :=
     historyIndex s; cachedResults := cachedResults s; lastCacheKey :=
     lastCacheKey s; executionStats := executionStats s; fieldArrays :=
     fieldArrays s; filterArrays := filterArrays s; groupArrays := groupArrays
     s; sortArrays := sortArrays s; log := log s |}.

Definition set_currentStep (v : Z) (s : State) : State :=
  {| selectedModel := selectedModel s; availableModels := availableModels s;
     availableFields := availableFields s; selectedFields := selectedFields s;
     filters := filters s; groups := groups s; sorts := sorts s; reportData :=
     reportData s; reportCount := reportCount s; loading := loading s;
     previewMode := previewMode s; currentStep := v; errors := errors s;
     advancedMode := advancedMode s; history := history s; historyIndex :=
     historyIndex s; cachedResults := cachedResults s; lastCacheKey :=
     lastCacheKey s; executionStats := executionStats s; fieldArrays :=
     fieldArrays s; filterArrays := filterArrays s; groupArrays := groupArrays
     s; sortArrays := sortArrays s; log := log s |}.

Definition set_errors (v : list Message) (s : State) : State :=
  {| selectedModel := selectedModel s; availableModels := availableModels s;
     availableFields := availableFields s; selectedFields := selectedFields s;
     filters := filters s; groups := groups s; sorts := sorts s; reportData :=
     reportData s; reportCount := reportCount s; loading := loading s;
     previewMode := previewMode s; currentStep := currentStep s; errors := v;
     advancedMode := advancedMode s; history := history s; historyIndex :=
     historyIndex s; cachedResults := cachedResults s; lastCacheKey :=
     lastCacheKey s; executionStats := executionStats s; fieldArrays :=
     fieldArrays s; filterArrays := filterArrays s; groupArrays := groupArrays
     s; sortArrays := sortArrays s; log := log s |}.

Definition set_advancedMode (v : bool) (s : State) : State :=
  {| selectedModel := selectedModel s; availableModels := availableModels s;
     availableFields := availableFields s; selectedFields := selectedFields s;
     filters := filters s; groups := groups s; sorts := sorts s; reportData :=
     reportData s; reportCount := reportCount s; loading := loading s;
     previewMode := previewMode s; currentStep := currentStep s; errors :=
     errors s; advancedMode := v; history := history s; historyIndex :=
     historyIndex s; cachedResults := cachedResults s; lastCacheKey :=
     lastCacheKey s; executionStats := executionStats s; fieldArrays :=
     fieldArrays s; filterArrays := filterArrays s; groupArrays := groupArrays
     s; sortArrays := sortArrays s; log := log s |}.

Definition set_history (v : list HistoryEntry) (s : State) : State :=
  {| selectedModel := selectedModel s; availableModels := availableModels s;
     availableFields := availableFields s; selectedFields := selectedFields s;
     filters := filters s; groups := groups s; sorts := sorts s; reportData :=
     reportData s; reportCount := reportCount s; loading := loading s;
     previewMode := previewMode s; currentStep := currentStep s; errors :=
     errors s; advancedMode := advancedMode s; history := v; historyIndex :=
     historyIndex s; cachedResults := cachedResults s; lastCacheKey :=
     lastCacheKey s; executionStats := executionStats s; fieldArrays :=
     fieldArrays s; filterArrays := filterArrays s; groupArrays := groupArrays
     s; sortArrays := sortArrays s; log := log s |}.

Definition set_historyIndex (v : Z) (s : State) : State :=
  {| selectedModel := selectedModel s; availableModels := availableModels s;
     availableFields := availableFields s; selectedFields := selectedFields s;
     filters := filters s; groups := groups s; sorts := sorts s; reportData :=
     reportData s; reportCount := reportCount s; loading := loading s;
     previewMode := previewMode s; currentStep := currentStep s; errors :=
     errors s; advancedMode := advancedMode s; history := history s;
     historyIndex := v; cachedResults := cachedResults s; lastCacheKey :=
     lastCacheKey s; executionStats := executionStats s; fieldArrays :=
     fieldArrays s; filterArrays := filterArrays s; groupArrays := groupArrays
     s; sortArrays := sortArrays s; log := log s |}.

Definition set_cachedResults (v : gmap string json) (s : State) : State :=
  {| selectedModel := selectedModel s; availableModels := availableModels s;
     availableFields := availableFields s; selectedFields := selectedFields s;
     filters := filters s; groups := groups s; sorts := sorts s; reportData :=
     reportData s; reportCount := reportCount s; loading := loading s;
     previewMode := previewMode s; currentStep := currentStep s; errors :=
     errors s; advancedMode := advancedMode s; history := history s;
     historyIndex := historyIndex s; cachedResults := v; lastCacheKey :=
     lastCacheKey s; executionStats := executionStats s; fieldArrays :=
     fieldArrays s; filterArrays := filterArrays s; groupArrays := groupArrays
     s; sortArrays := sortArrays s; log := log s |}.

Definition set_lastCacheKey (v : option string) (s : State) : State :=
  {| selectedModel := selectedModel s; availableModels := availableModels s;
     availableFields := availableFields s; selectedFields := selectedFields s;
     filters := filters s; groups := groups s; sorts := sorts s; reportData :=
     reportData s; reportCount := reportCount s; loading := loading s;
     previewMode := previewMode s; currentStep := currentStep s; errors :=
     errors s; advancedMode := advancedMode s; history := history s;
     historyIndex := historyIndex s; cachedResults := cachedResults s;
     lastCacheKey := v; executionStats := executionStats s; fieldArrays :=
     fieldArrays s; filterArrays := filterArrays s; groupArrays := groupArrays
     s; sortArrays := sortArrays s; log := log s |}.

Definition set_executionStats (v : ExecutionStats) (s : State) : State :=
  {| selectedModel := selectedModel s; availableModels := availableModels s;
     availableFields := availableFields s; selectedFields := selectedFields s;
     filters := filters s; groups := groups s; sorts := sorts s; reportData :=
     reportData s; reportCount := reportCount s; loading := loading s;
     previewMode := previewMode s; currentStep := currentStep s; errors :=
     errors s; advancedMode := advancedMode s; history := history s;
     historyIndex := historyIndex s; cachedResults := cachedResults s;
     lastCacheKey := lastCacheKey s; executionStats := v; fieldArrays :=
     fieldArrays s; filterArrays := filterArrays s; groupArrays := groupArrays
     s; sortArrays := sortArrays s; log := log s |}.

Definition set_fieldArrays (v : list (list FieldSpec)) (s : State) : State :=
  {| selectedModel := selectedModel s; availableModels := availableModels s;
     availableFields := availableFields s; selectedFields := selectedFields s;
     filters := filters s; groups := groups s; sorts := sorts s; reportData :=
     reportData s; reportCount := reportCount s; loading := loading s;
     previewMode := previewMode s; currentStep := currentStep s; errors :=
     errors s; advancedMode := advancedMode s; history := history s;
     historyIndex := historyIndex s; cachedResults := cachedResults s;
     lastCacheKey := lastCacheKey s; executionStats := executionStats s;
     fieldArrays := v; filterArrays := filterArrays s; groupArrays :=
     groupArrays s; sortArrays := sortArrays s; log := log s |}.

Definition set_filterArrays (v : list (list FilterSpec)) (s : State) : State :=
  {| selectedModel := selectedModel s; availableModels := availableModels s;
     availableFields := availableFields s; selectedFields := selectedFields s;
     filters := filters s; groups := groups s; sorts := sorts s; reportData :=
     reportData s; reportCount := reportCount s; loading := loading s;
     previewMode := previewMode s; currentStep := currentStep s; errors :=
     errors s; advancedMode := advancedMode s; history := history s;
     historyIndex := historyIndex s; cachedResults := cachedResults s;
     lastCacheKey := lastCacheKey s; executionStats := executionStats s;
     fieldArrays := fieldArrays s; filterArrays := v; groupArrays :=
     groupArrays s; sortArrays := sortArrays s; log := log s |}.

Definition set_groupArrays (v : list (list GroupSpec)) (s : State) : State :=
  {| selectedModel := selectedModel s; availableModels := availableModels s;
     availableFields := availableFields s; selectedFields := selectedFields s;
     filters := filters s; groups := groups s; sorts := sorts s; reportData :=
     reportData s; reportCount := reportCount s; loading := loading s;
     previewMode := previewMode s; currentStep := currentStep s; errors :=
     errors s; advancedMode := advancedMode s; history := history s;
     historyIndex := historyIndex s; cachedResults := cachedResults s;
     lastCacheKey := lastCacheKey s; executionStats := executionStats s;
     fieldArrays := fieldArrays s; filterArrays := filterArrays s; groupArrays
     := v; sortArrays := sortArrays s; log := log s |}.

Definition set_sortArrays (v : list (list SortSpec)) (s : State) : State :=
  {| selectedModel := selectedModel s; availableModels := availableModels s;
     availableFields := availableFields s; selectedFields := selectedFields s;
     filters := filters s; groups := groups s; sorts := sorts s; reportData :=
     reportData s; reportCount := reportCount s; loading := loading s;
     previewMode := previewMode s; currentStep := currentStep s; errors :=
     errors s; advancedMode := advancedMode s; history := history s;
     historyIndex := historyIndex s; cachedResults := cachedResults s;
     lastCacheKey := lastCacheKey s; executionStats := executionStats s;
     fieldArrays := fieldArrays s; filterArrays := filterArrays s; groupArrays
     := groupArrays s; sortArrays := v; log := log s |}.

Definition set_log (v : list Event) (s : State) : State :=
  {| selectedModel := selectedModel s; availableModels := availableModels s;
     availableFields := availableFields s; selectedFields := selectedFields s;
     filters := filters s; groups := groups s; sorts := sorts s; reportData :=
     reportData s; reportCount := reportCount s; loading := loading s;
     previewMode := previewMode s; currentStep := currentStep s; errors :=
     errors s; advancedMode := advancedMode s; history := history s;
     historyIndex := historyIndex s; cachedResults := cachedResults s;
     lastCacheKey := lastCacheKey s; executionStats := executionStats s;
     fieldArrays := fieldArrays s; filterArrays := filterArrays s; groupArrays
     := groupArrays s; sortArrays := sortArrays s; log := v |}.

(** ** The store *)

(** A new array with the given elements: its location and the new store. *)
Definition alloc {A} (st : list (list A)) (a : list A) : loc * list (list A) :=
  (length st, st ++ [a]).

(** Contents of the arrays the state refers to. *)
Definition liveFields (s : State) : list FieldSpec := fieldArrays s !!! selectedFields s.
Definition liveFilters (s : State) : list FilterSpec := filterArrays s !!! filters s.
Definition liveGroups (s : State) : list GroupSpec := groupArrays s !!! groups s.
Definition liveSorts (s : State) : list SortSpec := sortArrays s !!! sorts s.

(** In-place change of the array the state refers to. *)
Definition write_selectedFields (a : list FieldSpec) (s : State) : State :=
  set_fieldArrays (<[selectedFields s := a]> (fieldArrays s)) s.
Definition write_filters (a : list FilterSpec) (s : State) : State :=
  set_filterArrays (<[filters s := a]> (filterArrays s)) s.
Definition write_groups (a : list GroupSpec) (s : State) : State :=
  set_groupArrays (<[groups s := a]> (groupArrays s)) s.
Definition write_sorts (a : list SortSpec) (s : State) : State :=
  set_sortArrays (<[sorts s := a]> (sortArrays s)) s.

(** Assignment of a new array literal: [this.state.selectedFields = [...]]. *)
Definition new_selectedFields (a : list FieldSpec) (s : State) : State :=
  let '(l, st) := alloc (fieldArrays s) a in set_selectedFields l (set_fieldArrays st s).
Definition new_filters (a : list FilterSpec) (s : State) : State :=
  let '(l, st) := alloc (filterArrays s) a in set_filters l (set_filterArrays st s).
Definition new_groups (a : list GroupSpec) (s : State) : State :=
  let '(l, st) := alloc (groupArrays s) a in set_groups l (set_groupArrays st s).
Definition new_sorts (a : list SortSpec) (s : State) : State :=
  let '(l, st) := alloc (sortArrays s) a in set_sorts l (set_sortArrays st s).

(** [Array.prototype.findIndex]; [None] stands for [-1]. *)
Fixpoint findIndex {A} (p : A -> bool) (l : list A) : option nat :=
  match l with
  | [] => None
  | x :: l' => if p x then Some 0%nat else S <$> findIndex p l'
  end.

(** ** Notifications *)

(** The second argument of [showError] and the value caught by a
    [catch]: [null], an [Error] object with its message, or a text. *)
Inductive ErrArg :=
| ENull
| EError (m : option Message)
| EText (m : Message).

Definition notify (m : option Message) (t : Severity) (sticky : bool) (s : State) : State :=
  set_log (log s ++ [EvNotify {| n_message := m; n_type := t; n_sticky := sticky |}]) s.

Definition showSuccess (m : option Message) : State -> State := notify m Success false.

Definition showError (title : Message) (error : ErrArg) : State -> State :=
  let message :=
    match error with
    | EError m => m
    | EText m => Some m
    | ENull => Some title
    end in
  notify message Danger true.

(** [new Error(text)]: its message is [text], and the empty text when
    [text] is [undefined]. *)
Definition newError (text : option string) : ErrArg :=
  EError (Some (MServer (default "" text))).

Definition showWarning (m : Message) : State -> State := notify (Some m) Warning false.

Definition showInfo (m : Message) : State -> State := notify (Some m) Info false.

(** ** ReportBuilderWidget *)

Definition initialState : State :=
  {| selectedModel := None; availableModels := []; availableFields := [];
     selectedFields := 0%nat; filters := 0%nat; groups := 0%nat; sorts := 0%nat;
     reportData := JNull; reportCount := 0; loading := false;
     previewMode := false; currentStep := 1; errors := [];
     advancedMode := false; history := []; historyIndex := -1;
     cachedResults := ∅; lastCacheKey := None;
     executionStats := {| totalExecutions := 0; lastExecutionTime := 0 |};
     fieldArrays := [[]]; filterArrays := [[]]; groupArrays := [[]];
     sortArrays := [[]]; log := [] |}.

Definition guessFormatType (fieldType : string) : string :=
  if String.eqb fieldType "char" then "text"
  else if String.eqb fieldType "text" then "text"
  else if String.eqb fieldType "integer" then "number"
  else if String.eqb fieldType "float" then "number"
  else if String.eqb fieldType "monetary" then "currency"
  else if String.eqb fieldType "date" then "date"
  else if String.eqb fieldType "datetime" then "datetime"
  else if String.eqb fieldType "boolean" then "boolean"
  else if String.eqb fieldType "selection" then "selection"
  else "text".

Definition clearReportData (s : State) : State :=
  set_currentStep 1
    (set_reportCount 0
       (set_reportData JNull
          (new_sorts [] (new_groups [] (new_filters [] (new_selectedFields [] s)))))).

Definition clearModelData (s : State) : State :=
  clearReportData (set_availableFields [] (set_selectedModel None s)).

(** The outcome of an awaited call: resolved with a value or rejected. *)
Inductive Outcome (A : Type) :=
| Resolved (a : A)
| Rejected (e : ErrArg).
Arguments Resolved {A} a.
Arguments Rejected {A} e.

Definition loadInitialData (searchRead : Outcome (list Model)) (s : State) : State :=
  let s1 := set_loading true s in
  let s2 :=
    match searchRead with
    | Resolved ms => set_availableModels ms s1
    | Rejected error => showError MModelsLoadError error s1
    end in
  set_loading false s2.

(** The answer of [/universal_reports/get_model_fields]. *)
Record FieldsResult := {
  fr_success : bool;
  fr_fields : list FieldDesc;
  fr_message : option string;
  fr_error : option string
}.

(** [x || d] for a text that may be absent. *)
Definition or_default (x : option string) (d : Message) : Message :=
  match x with
  | Some m => if String.eqb m "" then d else MServer m
  | None => d
  end.

(** [!modelId]: [None] is [null]/[undefined]. *)
Definition falsy_id (modelId : option Z) : bool :=
  match modelId with
  | None => true
  | Some z => z =? 0
  end.

(** [m.id === modelId] *)
Definition is_model (modelId : option Z) (m : Model) : bool :=
  match modelId with
  | Some z => m_id m =? z
  | None => false
  end.

Definition onModelChange (modelId : option Z) (rpc : Outcome FieldsResult)
    (s : State) : State :=
  if falsy_id modelId then clearModelData s
  else
    let s1 := set_errors [] (set_loading true s) in
    let s2 :=
      match find (is_model modelId) (availableModels s1) with
      | None => showError MFieldsLoadError (EError (Some MModelNotFound)) s1
      | Some model =>
          let s3 := set_selectedModel (Some model) s1 in
          let s4 := set_log (log s3 ++ [EvRpcGetModelFields (m_model model)]) s3 in
          match rpc with
          | Rejected error => showError MFieldsLoadError error s4
          | Resolved result =>
              if fr_success result then
                showSuccess (Some (or_default (fr_message result) MFieldsLoaded))
                  (clearReportData (set_availableFields (fr_fields result) s4))
              else
                showError MFieldsLoadError (newError (fr_error result)) s4
          end
      end in
    set_loading false s2.

Definition has_name (n : string) (f : FieldSpec) : bool := String.eqb (name f) n.

Definition addField (field : FieldDesc) (s : State) : State :=
  match find (has_name (fd_name field)) (liveFields s) with
  | None =>
      showSuccess (Some (MFieldAdded (fd_string field)))
        (write_selectedFields
           (liveFields s ++
              [{| name := fd_name field;
                  label := fd_string field;
                  type := fd_type field;
                  visible := true;
                  sequence := Z.of_nat (length (liveFields s)) + 1;
                  format_type := guessFormatType (fd_type field);
                  aggregation := "none" |}]) s)
  | Some _ => showWarning MFieldAlreadyAdded s
  end.

Definition removeField (fieldName : string) (s : State) : State :=
  match findIndex (has_name fieldName) (liveFields s) with
  | Some index =>
      match liveFields s !! index with
      | Some removedField =>
          showInfo (MFieldRemoved (label removedField))
            (write_selectedFields (delete index (liveFields s)) s)
      | None => s
      end
  | None => s
  end.

Definition set_sequence (n : Z) (f : FieldSpec) : FieldSpec :=
  {| name := name f; label := label f; type := type f; visible := visible f;
     sequence := n; format_type := format_type f; aggregation := aggregation f |}.

(** [fields.forEach((field, idx) => { field.sequence = idx + 1; })] *)
Definition renumber (fields : list FieldSpec) : list FieldSpec :=
  imap (fun idx field => set_sequence (Z.of_nat idx + 1) field) fields.

(** [[fields[i], fields[j]] = [fields[j], fields[i]]] for valid indices. *)
Definition swap (i j : nat) (fields : list FieldSpec) : list FieldSpec :=
  match fields !! i, fields !! j with
  | Some a, Some b => <[j := a]> (<[i := b]> fields)
  | _, _ => fields
  end.

Definition moveField (fieldName direction : string) (s : State) : State :=
  let fields := liveFields s in
  match findIndex (has_name fieldName) fields with
  | None => s
  | Some index =>
      let newIndex :=
        if String.eqb direction "up" then Z.of_nat index - 1 else Z.of_nat index + 1 in
      if (0 <=? newIndex) && (newIndex <? Z.of_nat (length fields)) then
        write_selectedFields (renumber (swap index (Z.to_nat newIndex) fields)) s
      else s
  end.

Definition addFilter (now : Z) (s : State) : State :=
  write_filters
    (liveFilters s ++
       [{| f_id := now; f_field := ""; f_field_type := "char"; f_operator := "=";
           f_value := ""; f_active := true |}]) s.

Definition removeFilter (filterId : Z) (s : State) : State :=
  match findIndex (fun f => f_id f =? filterId) (liveFilters s) with
  | Some index => write_filters (delete index (liveFilters s)) s
  | None => s
  end.

(** The property written by [updateFilter] with its new value:
    [filter[property] = value].  A property of the filter is written
    with a value of its type: a number for [id], the text of an input
    for [field], [field_type], [operator] and [value], the state of a
    checkbox for [active].  [UOther] is a property the filter does not
    have; the assignment adds it to the object, where no function of
    the source reads it, and the record does not keep it. *)
Definition own_property (property : string) : bool :=
  existsb (String.eqb property)
    ["id"; "field"; "field_type"; "operator"; "value"; "active"].

Inductive FilterUpdate :=
| UId (v : Z)
| UField (v : string)
| UFieldType (v : string)
| UOperator (v : string)
| UValue (v : string)
| UActive (v : bool)
| UOther (property : string) (v : json) (other : own_property property = false).

Definition assign_filter (u : FilterUpdate) (f : FilterSpec) : FilterSpec :=
  {| f_id := match u with UId v => v | _ => f_id f end;
     f_field := match u with UField v => v | _ => f_field f end;
     f_field_type := match u with UFieldType v => v | _ => f_field_type f end;
     f_operator := match u with UOperator v => v | _ => f_operator f end;
     f_value := match u with UValue v => v | _ => f_value f end;
     f_active := match u with UActive v => v | _ => f_active f end |}.

Definition updateFilter (filterId : Z) (u : FilterUpdate) (s : State) : State :=
  match findIndex (fun f => f_id f =? filterId) (liveFilters s) with
  | Some index =>
      match liveFilters s !! index with
      | Some filter =>
          let filter1 := assign_filter u filter in
          let filter2 :=
            match u with
            | UField value =>
                match find (fun f => String.eqb (fd_name f) value) (availableFields s) with
                | Some field => assign_filter (UFieldType (fd_type field)) filter1
                | None => filter1
                end
            | _ => filter1
            end in
          write_filters (<[index := filter2]> (liveFilters s)) s
      | None => s
      end
  | None => s
  end.

Definition addSort (now : Z) (s : State) : State :=
  write_sorts (liveSorts s ++ [{| s_id := now; s_field := ""; s_direction := "asc" |}]) s.

Definition removeSort (sortId : Z) (s : State) : State :=
  match findIndex (fun x => s_id x =? sortId) (liveSorts s) with
  | Some index => write_sorts (delete index (liveSorts s)) s
  | None => s
  end.

Definition addGroup (now : Z) (s : State) : State :=
  write_groups (liveGroups s ++ [{| g_id := now; g_field := ""; g_show_totals := true |}]) s.

Definition removeGroup (groupId : Z) (s : State) : State :=
  match findIndex (fun g => g_id g =? groupId) (liveGroups s) with
  | Some index => write_groups (delete index (liveGroups s)) s
  | None => s
  end.

(** Truthiness of a text: it is not empty. *)
Definition nonempty (x : string) : bool := negb (String.eqb x "").

(** [f.active && f.field && !f.value && f.operator !== '!='] *)
Definition invalid_filter (f : FilterSpec) : bool :=
  f_active f && nonempty (f_field f) && negb (nonempty (f_value f))
  && negb (String.eqb (f_operator f) "!=").

(** The texts [validateReportSettings] pushes to [state.errors], in order. *)
Definition collectErrors (s : State) : list Message :=
  let errors1 := match selectedModel s with None => [MSelectModel] | Some _ => [] end in
  let errors2 :=
    if (length (liveFields s) =? 0)%nat then errors1 ++ [MAddAField] else errors1 in
  let invalidFilters := List.filter invalid_filter (liveFilters s) in
  if (0 <? length invalidFilters)%nat then errors2 ++ [MFillFilterValues] else errors2.

Definition validateReportSettings (s : State) : bool * State :=
  let s1 := set_errors (collectErrors s) s in
  if (0 <? length (errors s1))%nat
  then (false, showError MFixErrors (EText (MJoin (errors s1))) s1)
  else (true, s1).

Definition prepareFields (s : State) : list FieldLine :=
  imap (fun index field =>
          {| fl_field_name := name field;
             fl_field_label := label field;
             fl_field_type := type field;
             fl_visible := visible field;
             fl_sequence := Z.of_nat index + 1;
             fl_format_type := format_type field;
             fl_aggregation := aggregation field |}) (liveFields s).

Definition prepareFilters (s : State) : list PreparedFilter :=
  map (fun f => {| pf_field := f_field f; pf_operator := f_operator f; pf_value := f_value f |})
    (List.filter (fun f => f_active f && nonempty (f_field f) && nonempty (f_value f))
       (liveFilters s)).

Definition prepareFiltersForSave (s : State) : list FilterLine :=
  imap (fun index f =>
          {| ql_name := MFilterName (Z.of_nat index + 1);
             ql_field_name := f_field f;
             ql_operator := f_operator f;
             ql_value := f_value f;
             ql_active := f_active f;
             ql_sequence := Z.of_nat index + 1 |})
    (List.filter (fun f => nonempty (f_field f)) (liveFilters s)).

(** The engine's text for reading a property of [null]. *)
Definition typeError : ErrArg := EError (Some (MServer "TypeError")).

(** [createTempReport]: the created id, or the thrown value. *)
Definition createTempReport (create : Outcome Z) (s : State) : Outcome Z * State :=
  match selectedModel s with
  | None => (Rejected typeError, s)
  | Some model =>
      let reportData :=
        {| r_name := MTempReport;
           r_model_id := m_id model;
           r_field_ids := prepareFields s;
           r_filter_ids := prepareFiltersForSave s |} in
      (create, set_log (log s ++ [EvOrmCreate reportData]) s)
  end.

(** The answer of [/universal_reports/execute_report]. *)
Record ExecResult := {
  er_success : bool;
  er_data : json;
  er_count : Z;
  er_message : option string;
  er_error : option string
}.

Definition executeReport (create : Outcome Z) (rpc : Outcome ExecResult)
    (s : State) : State :=
  let '(ok, s0) := validateReportSettings s in
  if negb ok then s0
  else
    let s1 := set_errors [] (set_loading true s0) in
    let s2 :=
      match createTempReport create s1 with
      | (Rejected error, s3) => showError MExecError error s3
      | (Resolved reportId, s3) =>
          let s4 :=
            set_log
              (log s3 ++
                 [EvRpcExecuteReport reportId (prepareFilters s3)
                    (if previewMode s3 then Some 100 else None)]) s3 in
          match rpc with
          | Rejected error => showError MExecError error s4
          | Resolved result =>
              if er_success result then
                set_currentStep 4
                  (showSuccess (MServer <$> er_message result)
                     (set_reportCount (er_count result)
                        (set_reportData (er_data result) s4)))
              else showError MExecError (newError (er_error result)) s4
          end
      end in
    set_loading false s2.

(** ** ReportBuilderExtended *)

Definition toggleAdvancedMode (s : State) : State :=
  let s1 := set_advancedMode (negb (advancedMode s)) s in
  showInfo (if advancedMode s1 then MAdvancedOn else MAdvancedOff) s1.

(** [Array.prototype.slice(0, end)]; a negative [end] counts from the end. *)
Definition slice0 {A} (e : Z) (l : list A) : list A :=
  let len := Z.of_nat (length l) in
  take (Z.to_nat (if e <? 0 then Z.max (len + e) 0 else Z.min e len)) l.

(** [JSON.parse(JSON.stringify({selectedFields, filters, groups, sorts}))]:
    four new arrays holding copies of the elements. *)
Definition snapshot (s : State) : Snapshot * State :=
  let '(l1, st1) := alloc (fieldArrays s) (liveFields s) in
  let '(l2, st2) := alloc (filterArrays s) (liveFilters s) in
  let '(l3, st3) := alloc (groupArrays s) (liveGroups s) in
  let '(l4, st4) := alloc (sortArrays s) (liveSorts s) in
  ({| snap_selectedFields := l1; snap_filters := l2; snap_groups := l3; snap_sorts := l4 |},
   set_sortArrays st4 (set_groupArrays st3 (set_filterArrays st2 (set_fieldArrays st1 s)))).

(** The three steps of [addToHistory] after the snapshot is taken. *)

(** [if (historyIndex < history.length - 1) history = history.slice(0, historyIndex + 1)] *)
Definition truncateFuture (s : State) : State :=
  if historyIndex s <? Z.of_nat (length (history s)) - 1
  then set_history (slice0 (historyIndex s + 1) (history s)) s
  else s.

(** [history.push(historyItem); historyIndex = history.length - 1] *)
Definition pushEntry (historyItem : HistoryEntry) (s : State) : State :=
  let s1 := set_history (history s ++ [historyItem]) s in
  set_historyIndex (Z.of_nat (length (history s1)) - 1) s1.

(** [if (history.length > 50) { history.shift(); historyIndex--; }] *)
Definition evict (s : State) : State :=
  if (50 <? length (history s))%nat
  then set_historyIndex (historyIndex s - 1) (set_history (tail (history s)) s)
  else s.

Definition addToHistory (action : string) (data : json) (now : Z) (s : State) : State :=
  let '(copy, s1) := snapshot s in
  let historyItem :=
    {| h_action := action; h_data := data; h_timestamp := now; h_state := copy |} in
  evict (pushEntry historyItem (truncateFuture s1)).

(** [Object.assign(this.state, savedState)]: the four references of the
    snapshot are assigned to the state. *)
Definition restoreState (savedState : Snapshot) (s : State) : State :=
  set_sorts (snap_sorts savedState)
    (set_groups (snap_groups savedState)
       (set_filters (snap_filters savedState)
          (set_selectedFields (snap_selectedFields savedState) s))).

(** How a handler ends: normally, or by an exception nobody catches. *)
Inductive Completion := Normal | Throws.

(** [this.state.history[i]] for a number [i]. *)
Definition entry_at (i : Z) (s : State) : option HistoryEntry :=
  if i <? 0 then None else history s !! Z.to_nat i.

Definition undo (s : State) : Completion * State :=
  if 0 <? historyIndex s then
    let s1 := set_historyIndex (historyIndex s - 1) s in
    match entry_at (historyIndex s1) s1 with
    | Some e => (Normal, showInfo MUndone (restoreState (h_state e) s1))
    | None => (Throws, s1)
    end
  else (Normal, showWarning MNothingToUndo s).

Definition redo (s : State) : Completion * State :=
  if historyIndex s <? Z.of_nat (length (history s)) - 1 then
    let s1 := set_historyIndex (historyIndex s + 1) s in
    match entry_at (historyIndex s1) s1 with
    | Some e => (Normal, showInfo MRedone (restoreState (h_state e) s1))
    | None => (Throws, s1)
    end
  else (Normal, showWarning MNothingToRedo s).

Definition duplicateField (fieldName : string) (now : Z) (s : State) : State :=
  match find (has_name fieldName) (liveFields s) with
  | None => s
  | Some originalField =>
      let duplicatedField :=
        {| name := name originalField;
           label := label originalField +:+ " (копія)";
           type := type originalField;
           visible := visible originalField;
           sequence := Z.of_nat (length (liveFields s)) + 1;
           format_type := format_type originalField;
           aggregation := aggregation originalField |} in
      let s1 := write_selectedFields (liveFields s ++ [duplicatedField]) s in
      let s2 := addToHistory "duplicate_field" (JObj [("field", JStr fieldName)]) now s1 in
      showSuccess (Some MFieldDuplicated) s2
  end.

Definition is_selected (s : State) (n : string) : bool :=
  match find (has_name n) (liveFields s) with Some _ => true | None => false end.

(** [bulkAddFields] up to the opening of the dialog. *)
Definition bulkAddFields (s : State) : State :=
  let available := List.filter (fun af => negb (is_selected s (fd_name af))) (availableFields s) in
  if (length available =? 0)%nat then showWarning MAllFieldsAdded s
  else set_log (log s ++ [EvBulkDialog available]) s.

(** [l.forEach((x, index) => ...)] starting at [index]. *)
Fixpoint forEach_from {A} (f : A -> nat -> State -> State) (l : list A) (index : nat)
    (s : State) : State :=
  match l with
  | [] => s
  | x :: l' => forEach_from f l' (S index) (f x index s)
  end.

Definition forEach {A} (f : A -> nat -> State -> State) (l : list A) : State -> State :=
  forEach_from f l 0%nat.

(** The body of the loop of [onConfirm]. *)
Definition pushChosen (field : FieldDesc) (index : nat) (s : State) : State :=
  write_selectedFields
    (liveFields s ++
       [{| name := fd_name field;
           label := fd_string field;
           type := fd_type field;
           visible := true;
           sequence := Z.of_nat (length (liveFields s)) + Z.of_nat index + 1;
           format_type := guessFormatType (fd_type field);
           aggregation := "none" |}]) s.

(** The [onConfirm] callback given to the bulk selection dialog. *)
Definition bulkAddConfirm (chosen : list FieldDesc) (now : Z) (s : State) : State :=
  let s1 := forEach pushChosen chosen s in
  let count := Z.of_nat (length chosen) in
  let s2 := addToHistory "bulk_add_fields" (JObj [("count", JNum count)]) now s1 in
  showSuccess (Some (MFieldsAdded count)) s2.

Definition commonFields (modelName : string) : list string :=
  if String.eqb modelName "res.partner" then ["name"; "email"; "phone"; "city"; "country_id"]
  else if String.eqb modelName "sale.order"
  then ["name"; "partner_id"; "date_order"; "amount_total"; "state"]
  else if String.eqb modelName "product.product"
  then ["name"; "default_code"; "list_price"; "qty_available"; "categ_id"]
  else if String.eqb modelName "account.move"
  then ["name"; "partner_id"; "invoice_date"; "amount_total"; "state"]
  else if String.eqb modelName "stock.picking"
  then ["name"; "partner_id"; "scheduled_date"; "state"; "location_id"]
  else if String.eqb modelName "hr.employee"
  then ["name"; "job_id"; "department_id"; "work_email"; "work_phone"]
  else [].

Definition getFieldRecommendations (modelName : string) (s : State) : list FieldDesc :=
  let recommendedFieldNames := commonFields modelName in
  List.filter
    (fun field =>
       existsb (String.eqb (fd_name field)) recommendedFieldNames
       && negb (is_selected s (fd_name field)))
    (availableFields s).

(** The [onAccept] callback given to the recommendation dialog. *)
Definition acceptRecommendations (fields : list FieldDesc) (s : State) : State :=
  forEach (fun field _ s' => addField field s') fields s.

(** *** Cached execution *)

Definition json_of_filter (f : PreparedFilter) : json :=
  JObj [("field", JStr (pf_field f)); ("operator", JStr (pf_operator f));
        ("value", JStr (pf_value f))].

Definition json_of_sort (x : SortSpec) : json :=
  JObj [("id", JNum (s_id x)); ("field", JStr (s_field x));
        ("direction", JStr (s_direction x))].

Definition json_of_group (g : GroupSpec) : json :=
  JObj [("id", JNum (g_id g)); ("field", JStr (g_field g));
        ("show_totals", JBool (g_show_totals g))].

(** The object handed to [JSON.stringify]; an [undefined] [model] is
    left out by [JSON.stringify]. *)
Definition cacheKeyObject (s : State) : json :=
  JObj
    (match selectedModel s with
     | Some m => [("model", JStr (m_model m))]
     | None => []
     end ++
     [("fields", JArr (map (fun f => JStr (name f)) (liveFields s)));
      ("filters", JArr (map json_of_filter (prepareFilters s)));
      ("sorts", JArr (map json_of_sort
                        (List.filter (fun x => nonempty (s_field x)) (liveSorts s))));
      ("groups", JArr (map json_of_group
                         (List.filter (fun g => nonempty (g_field g)) (liveGroups s))))]).

Definition generateCacheKey (s : State) : string := stringify (cacheKeyObject s).

Definition updateExecutionStats (executionTime : Z) (s : State) : State :=
  set_executionStats
    {| totalExecutions := totalExecutions (executionStats s) + 1;
       lastExecutionTime := executionTime |} s.

(** [Array.isArray(d) ? d.length : 0] *)
Definition rowCount (d : json) : Z :=
  match d with
  | JArr rows => Z.of_nat (length rows)
  | _ => 0
  end.

Definition executeWithCache (create : Outcome Z) (rpc : Outcome ExecResult)
    (startTime endTime : Z) (s : State) : State :=
  let cacheKey := generateCacheKey s in
  match cachedResults s !! cacheKey with
  | Some cached =>
      showInfo MLoadedFromCache (set_reportCount (rowCount cached) (set_reportData cached s))
  | None =>
      let s1 := executeReport create rpc s in
      let executionTime := endTime - startTime in
      let s2 :=
        if truthy (reportData s1)
        then set_lastCacheKey (Some cacheKey)
               (set_cachedResults (<[cacheKey := reportData s1]> (cachedResults s1)) s1)
        else s1 in
      updateExecutionStats executionTime s2
  end.

Definition clearCache (s : State) : State :=
  showInfo MCacheCleared (set_cachedResults ∅ s).

(** ** BulkFieldSelectionDialog *)

(** The dialog's own state; [props.availableFields] is an argument of
    the functions below. *)
Record BulkDialog := {
  d_selectedFields : list FieldDesc;
  d_searchTerm : string;
  d_selectAll : bool
}.

Definition bulkDialogSetup : BulkDialog :=
  {| d_selectedFields := []; d_searchTerm := ""; d_selectAll := false |}.

(** [s.includes(term)] *)
Fixpoint includes (term s : string) : bool :=
  String.prefix term s ||
  match s with
  | EmptyString => false
  | String _ s' => includes term s'
  end.

(** The getter [filteredFields].  [String.prototype.toLowerCase] maps
    the letters of all scripts; it is an argument here. *)
Definition filteredFields (toLowerCase : string -> string) (available : list FieldDesc)
    (d : BulkDialog) : list FieldDesc :=
  let term := toLowerCase (d_searchTerm d) in
  List.filter
    (fun field =>
       includes term (toLowerCase (fd_string field))
       || includes term (toLowerCase (fd_name field)))
    available.

Definition toggleField (field : FieldDesc) (d : BulkDialog) : BulkDialog :=
  {| d_selectedFields :=
       match findIndex (fun f => String.eqb (fd_name f) (fd_name field)) (d_selectedFields d) with
       | Some index => delete index (d_selectedFields d)
       | None => d_selectedFields d ++ [field]
       end;
     d_searchTerm := d_searchTerm d;
     d_selectAll := d_selectAll d |}.

Definition toggleSelectAll (toLowerCase : string -> string) (available : list FieldDesc)
    (d : BulkDialog) : BulkDialog :=
  {| d_selectedFields :=
       if d_selectAll d then [] else filteredFields toLowerCase available d;
     d_searchTerm := d_searchTerm d;
     d_selectAll := negb (d_selectAll d) |}.


(** ** Further handlers *)

Definition goToStep (step : Z) (s : State) : State := set_currentStep step s.

(** [smartFieldRecommendation]: the recommendations the dialog is opened
    on, if it is opened, and the state. *)
Definition smartFieldRecommendation (s : State) : option (list FieldDesc) * State :=
  match selectedModel s with
  | None => (None, s)
  | Some model =>
      let recommendations := getFieldRecommendations (m_model model) s in
      if (0 <? length recommendations)%nat then (Some recommendations, s)
      else (None, showInfo MNoRecommendations s)
  end.

(** ** Auto refresh and the settings file

    The extended component with what lies outside [this.state]'s
    report settings: the flag [autoRefresh], [refreshInterval] and the
    instance property [refreshTimer].  [intervals] is the part of the
    window's timer table this component fills: the intervals started by
    [setInterval] and not cleared, with their delay; [nextId] is the next
    timer id, a positive integer.  The texts shown by the handlers
    below are kept in [notices], with the type of the notification; an
    error is shown sticky, the others are not.  [seconds] is taken to be
    an integer. *)

Inductive Text :=
| TAutoRefreshOn                  (* "Автооновлення увімкнено" *)
| TAutoRefreshOff                 (* "Автооновлення вимкнено" *)
| TRefreshInterval (seconds : Z)  (* "Інтервал оновлення: " + seconds + " секунд" *)
| TSettingsExported               (* "Налаштування експортовано" *)
| TBadSettingsFile                (* "Неправильний формат файлу налаштувань" *)
| TSettingsImported               (* "Налаштування імпортовано" *)
| TEngine (message : string)      (* the message of an error thrown by the engine *)
| TExecuteFirst                   (* "Спочатку виконайте звіт" *)
| TReportExported (format : string) (* "Звіт експортовано в " + format.toUpperCase() *)
| TExportError                    (* "Помилка експорту" *)
| TTemplateSaved                  (* "Шаблон збережено" *)
| TTemplateError                  (* "Помилка збереження шаблону" *)
| TMessage (m : option Message).  (* the message of a caught error *)

Record Component := {
  state : State;
  autoRefresh : bool;
  refreshInterval : Z;
  refreshTimer : option nat;
  intervals : gmap nat Z;
  nextId : nat;
  notices : list (Severity * Text)
}.

Definition set_state (v : State) (c : Component) : Component :=
  {| state := v; autoRefresh := autoRefresh c; refreshInterval := refreshInterval c;
     refreshTimer := refreshTimer c; intervals := intervals c; nextId := nextId c;
     notices := notices c |}.




Definition notice (t : Severity) (text : Text) (c : Component) : Component :=
  {| state := state c; autoRefresh := autoRefresh c; refreshInterval := refreshInterval c;
     refreshTimer := refreshTimer c; intervals := intervals c; nextId := nextId c;
     notices := notices c ++ [(t, text)] |}.



(** The component after [setup]. *)
Definition initialComponent : Component :=
  {| state := initialState; autoRefresh := false; refreshInterval := 30000;
     refreshTimer := None; intervals := ∅; nextId := 1%nat; notices := [] |}.







(** The callback given to [setInterval], run when the timer fires. *)
Definition refreshTick (create : Outcome Z) (rpc : Outcome ExecResult)
    (startTime endTime : Z) (c : Component) : Component :=
  if truthy (reportData (state c))
  then set_state (executeWithCache create rpc startTime endTime (state c)) c
  else c.

(** *** The settings file

    The document [exportSettings] writes and [importSettings] reads,
    for files of the structure [exportSettings] gives them: [None] is a
    property that is absent or [null]. *)
Record Settings := {
  doc_model : option Model;
  doc_fields : option (list FieldSpec);
  doc_filters : option (list FilterSpec);
  doc_groups : option (list GroupSpec);
  doc_sorts : option (list SortSpec);
  doc_exported_at : string;
  doc_version : string
}.

(** [exportSettings]: the document offered for download, and the
    component.  [exported_at] is [new Date().toISOString()]. *)
Definition exportSettings (exported_at : string) (c : Component) : Settings * Component :=
  let settings :=
    {| doc_model := selectedModel (state c);
       doc_fields := Some (liveFields (state c));
       doc_filters := Some (liveFilters (state c));
       doc_groups := Some (liveGroups (state c));
       doc_sorts := Some (liveSorts (state c));
       doc_exported_at := exported_at;
       doc_version := "1.0" |} in
  (settings, notice Success TSettingsExported c).

(** [JSON.parse(await file.text())]: the document, or the message of
    the error thrown. *)
Inductive Parsed :=
| Document (settings : Settings)
| ParseError (message : string).

Record File := { file_name : string; file_parsed : Parsed }.

(** The [onchange] handler of [importSettings]; [file] is
    [event.target.files[0]], [rpc] the outcome of the request made by
    [onModelChange]. *)
Definition importSettings (file : option File) (rpc : Outcome FieldsResult) (now : Z)
    (c : Component) : Component :=
  match file with
  | None => c
  | Some file =>
      match file_parsed file with
      | ParseError message => notice Danger (TEngine message) c
      | Document settings =>
          match doc_model settings, doc_fields settings with
          | Some model, Some fields =>
              let s1 := onModelChange (Some (m_id model)) rpc (state c) in
              let s2 := new_selectedFields fields s1 in
              let s3 := new_filters (default [] (doc_filters settings)) s2 in
              let s4 := new_groups (default [] (doc_groups settings)) s3 in
              let s5 := new_sorts (default [] (doc_sorts settings)) s4 in
              let s6 :=
                addToHistory "import_settings"
                  (JObj [("filename", JStr (file_name file))]) now s5 in
              notice Success TSettingsImported (set_state s6 c)
          | _, _ => notice Danger TBadSettingsFile c
          end
      end
  end.

(** *** Export of the report and saving as a template

    [exportReport] and [saveAsTemplate] up to the browser: the link
    clicked by [exportReport] is the value [Download], the record given
    to [orm.create] by [saveAsTemplate] the value [TemplateRecord], and
    the answer of [prompt] an argument ([None] is a cancelled prompt). *)

(** The text [showError title error] shows, for the titles of this part. *)
Definition shownText (title : Text) (error : ErrArg) : Text :=
  match error with
  | EError m => TMessage m
  | EText m => TMessage (Some m)
  | ENull => title
  end.

(** [/universal_reports/export/<report>/<format>?filters=<filters>],
    downloaded as [report.<format>]. *)
Record Download := {
  dl_report : Z;
  dl_format : string;
  dl_filters : list PreparedFilter
}.

Definition exportReport (format : string) (create : Outcome Z) (c : Component)
  : option Download * Component :=
  if negb (truthy (reportData (state c))) then (None, notice Warning TExecuteFirst c)
  else
    match createTempReport create (state c) with
    | (Resolved reportId, s1) =>
        (Some {| dl_report := reportId; dl_format := format;
                 dl_filters := prepareFilters s1 |},
         notice Success (TReportExported format) (set_state s1 c))
    | (Rejected error, s1) =>
        (None, notice Danger (shownText TExportError error) (set_state s1 c))
    end.

Record TemplateRecord := {
  tpl_name : string;
  tpl_model_id : Z;
  tpl_is_template : bool;
  tpl_field_ids : list FieldLine;
  tpl_filter_ids : list FilterLine
}.

(** [saveAsTemplate]: the record [orm.create] is called with, if it is
    called, and the component. *)
Definition saveAsTemplate (templateName : option string) (create : Outcome Z)
    (c : Component) : option TemplateRecord * Component :=
  let '(ok, s0) := validateReportSettings (state c) in
  let c0 := set_state s0 c in
  if negb ok then (None, c0)
  else
    match templateName with
    | None => (None, c0)
    | Some templateName =>
        if String.eqb templateName "" then (None, c0)
        else
          match selectedModel s0 with
          | None => (None, notice Danger (shownText TTemplateError typeError) c0)
          | Some model =>
              let reportData :=
                {| tpl_name := templateName;
                   tpl_model_id := m_id model;
                   tpl_is_template := true;
                   tpl_field_ids := prepareFields s0;
                   tpl_filter_ids := prepareFiltersForSave s0 |} in
              match create with
              | Resolved _ => (Some reportData, notice Success TTemplateSaved c0)
              | Rejected error =>
                  (Some reportData, notice Danger (shownText TTemplateError error) c0)
              end
          end
    end.

(** * Vocabulary of the properties *)

(** ** Validation *)

(** The settings the validation rejects. *)
Definition settings_invalid (s : State) : Prop :=
  selectedModel s = None \/
  liveFields s = [] \/
  exists f, In f (liveFilters s) /\ f_active f = true /\ f_field f <> "" /\
            f_value f = "" /\ f_operator f <> "!=".

(** ** Moving a field *)

(** The position the element now at [k] had before the elements at [i]
    and [j] changed places. *)
Definition transpose (i j k : nat) : nat :=
  if decide (k = i) then j else if decide (k = j) then i else k.

(** ** The history log *)

(** The cursor is [-1] (empty log) or the index of an entry. *)
Definition cursor_ok (s : State) : Prop :=
  -1 <= historyIndex s < Z.of_nat (length (history s)).

(** The arguments of one call of [addToHistory]. *)
Record Call := { c_action : string; c_data : json; c_now : Z }.

Definition call_of (e : HistoryEntry) : Call :=
  {| c_action := h_action e; c_data := h_data e; c_now := h_timestamp e |}.

Definition addCall (s : State) (c : Call) : State :=
  addToHistory (c_action c) (c_data c) (c_now c) s.

(** The entry a call appends: its snapshot is the copy made by [snapshot]. *)
Definition entry_of (c : Call) (s : State) : HistoryEntry :=
  {| h_action := c_action c; h_data := c_data c; h_timestamp := c_now c;
     h_state := fst (snapshot s) |}.

(** A change of the state that leaves the log and the cursor alone:
    what the handlers do apart from calling [addToHistory], [undo] and
    [redo]. *)
Definition keeps_log (f : State -> State) : Prop :=
  forall s, history (f s) = history s /\ historyIndex (f s) = historyIndex s.

(** [logged s0 calls s]: [s] is reached from [s0] by the calls of
    [addToHistory] listed in [calls], in that order, with any changes that
    keep the log before, between and after them. *)
Inductive logged (s0 : State) : list Call -> State -> Prop :=
| logged_start : logged s0 [] s0
| logged_change calls s f :
    logged s0 calls s -> keeps_log f -> logged s0 calls (f s)
| logged_call calls s c :
    logged s0 calls s -> logged s0 (calls ++ [c]) (addCall s c).

Definition run (calls : list Call) (s0 : State) : State := fold_left addCall calls s0.

(** ** Undo and redo *)

(** The four references of the state, as a snapshot object. *)
Definition liveRefs (s : State) : Snapshot :=
  {| snap_selectedFields := selectedFields s; snap_filters := filters s;
     snap_groups := groups s; snap_sorts := sorts s |}.

(** The log of history entries and the contents of all arrays are the
    same in both states. *)
Definition same_log_and_store (s s' : State) : Prop :=
  history s' = history s /\
  fieldArrays s' = fieldArrays s /\ filterArrays s' = filterArrays s /\
  groupArrays s' = groupArrays s /\ sortArrays s' = sortArrays s.

(** Everything but the cursor, the four references and the notifications
    is the same in both states. *)
Definition same_rest (s s' : State) : Prop :=
  selectedModel s' = selectedModel s /\ availableModels s' = availableModels s /\
  availableFields s' = availableFields s /\ reportData s' = reportData s /\
  reportCount s' = reportCount s /\ loading s' = loading s /\
  previewMode s' = previewMode s /\ currentStep s' = currentStep s /\
  errors s' = errors s /\ advancedMode s' = advancedMode s /\
  cachedResults s' = cachedResults s /\ lastCacheKey s' = lastCacheKey s /\
  executionStats s' = executionStats s.

(** What a call of [undo] or [redo] does when it moves the cursor by
    [d] if the entry there exists. *)
Definition cursor_move (d : Z) (s s' : State) : Prop :=
  (exists e, entry_at (historyIndex s + d) s = Some e /\
             historyIndex s' = historyIndex s + d /\ liveRefs s' = h_state e) \/
  (entry_at (historyIndex s + d) s = None /\
   historyIndex s' = historyIndex s /\ liveRefs s' = liveRefs s).

(** ** Cached execution *)

(** The part of the log a call added is one notification. *)
Definition only_notified (n : Notification) (s s' : State) : Prop :=
  log s' = log s ++ [EvNotify n].

(** ** Changing the model *)

(** The field-list fetch of [onModelChange] fails: the model is not in
    [availableModels], the RPC is rejected, or the server reports failure. *)
Definition fetch_fails (modelId : option Z) (rpc : Outcome FieldsResult) (s : State) : Prop :=
  find (is_model modelId) (availableModels s) = None \/
  (exists e, rpc = Rejected e) \/
  (exists r, rpc = Resolved r /\ fr_success r = false).

(** ** Bulk adding *)

(** The field [pushChosen] builds, with its sequence number. *)
Definition chosenSpec (n : Z) (field : FieldDesc) : FieldSpec :=
  {| name := fd_name field; label := fd_string field; type := fd_type field;
     visible := true; sequence := n;
     format_type := guessFormatType (fd_type field); aggregation := "none" |}.

(** ** Snapshots and the store *)

(** The arrays a snapshot object refers to, in the store of [s]. *)
Definition contents (s : State) (r : Snapshot)
  : list FieldSpec * list FilterSpec * list GroupSpec * list SortSpec :=
  (fieldArrays s !!! snap_selectedFields r, filterArrays s !!! snap_filters r,
   groupArrays s !!! snap_groups r, sortArrays s !!! snap_sorts r).

(** The values of the four collections of the state. *)
Definition liveContents (s : State) : list FieldSpec * list FilterSpec * list GroupSpec * list SortSpec :=
  contents s (liveRefs s).

(** The references of a snapshot object are allocated in the store. *)
Definition valid_refs (s : State) (r : Snapshot) : Prop :=
  (snap_selectedFields r < length (fieldArrays s))%nat /\
  (snap_filters r < length (filterArrays s))%nat /\
  (snap_groups r < length (groupArrays s))%nat /\
  (snap_sorts r < length (sortArrays s))%nat.

(** No reference of the state or of a history entry dangles. *)
Definition wf (s : State) : Prop :=
  valid_refs s (liveRefs s) /\ Forall (fun e => valid_refs s (h_state e)) (history s).

(** Only [history] and [historyIndex] differ. *)
Definition same_but_history (s s' : State) : Prop :=
  liveRefs s' = liveRefs s /\ log s' = log s /\
  fieldArrays s' = fieldArrays s /\ filterArrays s' = filterArrays s /\
  groupArrays s' = groupArrays s /\ sortArrays s' = sortArrays s /\
  same_rest s s'.

(** ** Unique field names *)

Definition fieldNames (s : State) : list string := map name (liveFields s).

(** ** Restored snapshots share their arrays with the state *)

(** The fields stored for the entry at position [i] of the log. *)
Definition storedFields (i : nat) (s : State) : option (list FieldSpec) :=
  (fun e => fieldArrays s !!! snap_selectedFields (h_state e)) <$> history s !! i.

(** ** No reference dangles *)

(** The stores of [s'] are at least as long as those of [s]. *)
Definition stores_grow (s s' : State) : Prop :=
  (length (fieldArrays s) <= length (fieldArrays s'))%nat /\
  (length (filterArrays s) <= length (filterArrays s'))%nat /\
  (length (groupArrays s) <= length (groupArrays s'))%nat /\
  (length (sortArrays s) <= length (sortArrays s'))%nat.

(** ** The choice made in the bulk selection dialog *)


(** ** Example data *)

Definition partnerModel : Model :=
  {| m_id := 1; m_name := "Contact"; m_model := "res.partner" |}.
Definition orderModel : Model :=
  {| m_id := 2; m_name := "Sales Order"; m_model := "sale.order" |}.

Definition nameField : FieldDesc :=
  {| fd_name := "name"; fd_string := "Name"; fd_type := "char" |}.
Definition emailField : FieldDesc :=
  {| fd_name := "email"; fd_string := "Email"; fd_type := "char" |}.
Definition totalField : FieldDesc :=
  {| fd_name := "amount_total"; fd_string := "Total"; fd_type := "monetary" |}.

(** The state after the models are loaded and the contact model is
    chosen (its three fields arrive). *)
Definition loadedState : State :=
  onModelChange (Some 1)
    (Resolved {| fr_success := true; fr_fields := [nameField; emailField; totalField];
                 fr_message := None; fr_error := None |})
    (loadInitialData (Resolved [partnerModel; orderModel]) initialState).

(** The field [name] is added with [addField]; the log stays empty. *)
Definition partnerState : State := addField nameField loadedState.

(** The contact state with the field [email] added after [name]. *)
Definition twoFields : State := addField emailField partnerState.

(** The first logged action: the dialog is confirmed with [name]. *)
Definition firstLogged : State := bulkAddConfirm [nameField] 10 loadedState.

(** The second logged action up to its call of [addToHistory]: a copy of
    the field is pushed. *)
Definition copyPushed : State :=
  write_selectedFields
    (liveFields firstLogged ++
       [{| name := "name"; label := "Name (копія)"; type := "char"; visible := true;
           sequence := 2; format_type := "text"; aggregation := "none" |}]) firstLogged.

(** The call of [addToHistory] made by [duplicateField]. *)
Definition duplicateCall : Call :=
  {| c_action := "duplicate_field"; c_data := JObj [("field", JStr "name")]; c_now := 20 |}.

(** The entry the first action logged; its arrays are new ones. *)
Definition firstEntry : HistoryEntry :=
  {| h_action := "bulk_add_fields"; h_data := JObj [("count", JNum 1)]; h_timestamp := 10;
     h_state := {| snap_selectedFields := 2%nat; snap_filters := 2%nat;
                   snap_groups := 2%nat; snap_sorts := 2%nat |} |}.

(** Two logged actions, then one undo: the log holds two entries and the
    cursor is on the first. *)
Definition undoneState : State :=
  snd (undo (duplicateField "name" 20 (bulkAddConfirm [nameField] 10 loadedState))).

(** Fifty-one calls of [addToHistory]. *)
Definition calls51 : list Call :=
  imap (fun i _ => {| c_action := "duplicate_field"; c_data := JNull; c_now := Z.of_nat i |})
    (replicate 51 tt).

(** The state after a first, successful cached execution. *)
Definition cachedState : State :=
  executeWithCache (Resolved 7)
    (Resolved {| er_success := true; er_data := JArr [JObj [("name", JStr "Ann")]];
                 er_count := 1; er_message := Some "1 row"; er_error := None |})
    100 130 partnerState.

(** The first cached run when the server counts 250 records and sends
    one row. *)
Definition countedState : State :=
  executeWithCache (Resolved 7)
    (Resolved {| er_success := true; er_data := JArr [JObj [("name", JStr "Ann")]];
                 er_count := 250; er_message := Some "250 rows"; er_error := None |})
    100 130 partnerState.

(** The two fields and a copy of [name]: the name occurs first and last. *)
Definition duplicatedName : State := duplicateField "name" 20 twoFields.

(** ** Proof automation *)

(** Evaluation of a conjunction of closed equations. *)
Ltac evaluate :=
  cbv zeta;
  repeat match goal with |- _ /\ _ => split end;
  vm_compute; reflexivity.


(** * Vocabulary of the further properties *)

(** The line [prepareFields] builds for the field at position [index]. *)
Definition fieldLine (index : nat) (field : FieldSpec) : FieldLine :=
  {| fl_field_name := name field; fl_field_label := label field;
     fl_field_type := type field; fl_visible := visible field;
     fl_sequence := Z.of_nat index + 1;
     fl_format_type := format_type field; fl_aggregation := aggregation field |}.

(** The text [showError title error] shows. *)
Definition shown (title : Message) (error : ErrArg) : option Message :=
  match error with
  | EError m => m
  | EText m => Some m
  | ENull => Some title
  end.

(** The sticky error notification with the given text. *)
Definition failure (m : option Message) : Event :=
  EvNotify {| n_message := m; n_type := Danger; n_sticky := true |}.

(** The results of the last execution are the same in both states. *)
Definition report_untouched (s s' : State) : Prop :=
  reportData s' = reportData s /\ reportCount s' = reportCount s /\
  currentStep s' = currentStep s.

(** The report definition, the models, the log of history entries, the
    store and the cache are the same in both states. *)
Definition definition_untouched (s s' : State) : Prop :=
  selectedModel s' = selectedModel s /\ availableModels s' = availableModels s /\
  availableFields s' = availableFields s /\ liveRefs s' = liveRefs s /\
  same_log_and_store s s' /\ historyIndex s' = historyIndex s /\
  cachedResults s' = cachedResults s /\ previewMode s' = previewMode s.

(** The record [createTempReport] sends for the model [m]. *)
Definition tempReport (m : Model) (s : State) : ReportRecord :=
  {| r_name := MTempReport; r_model_id := m_id m;
     r_field_ids := prepareFields s; r_filter_ids := prepareFiltersForSave s |}.

(** The execution request for the report [reportId]. *)
Definition executionRequest (reportId : Z) (s : State) : Event :=
  EvRpcExecuteReport reportId (prepareFilters s) (if previewMode s then Some 100 else None).

(** The notification of a cache hit. *)
Definition fromCache : Event :=
  EvNotify {| n_message := Some MLoadedFromCache; n_type := Info; n_sticky := false |}.

(** What [prepareFilters] sends for a filter. *)
Definition preparedOf (f : FilterSpec) : PreparedFilter :=
  {| pf_field := f_field f; pf_operator := f_operator f; pf_value := f_value f |}.

(** The filter [addFilter] creates. *)
Definition newFilter (now : Z) : FilterSpec :=
  {| f_id := now; f_field := ""; f_field_type := "char"; f_operator := "=";
     f_value := ""; f_active := true |}.

(** ** The states the component reaches *)

(** The states reached from the initial one by the handlers, called in
    any order with any arguments and any outcome of the awaited calls;
    the last four are handlers of the [Component] and change its state. *)
Inductive reachable : State -> Prop :=
| reach_initial : reachable initialState
| reach_loadInitialData s searchRead :
    reachable s -> reachable (loadInitialData searchRead s)
| reach_onModelChange s modelId rpc :
    reachable s -> reachable (onModelChange modelId rpc s)
| reach_addField s field : reachable s -> reachable (addField field s)
| reach_removeField s fieldName : reachable s -> reachable (removeField fieldName s)
| reach_moveField s fieldName direction :
    reachable s -> reachable (moveField fieldName direction s)
| reach_addFilter s now : reachable s -> reachable (addFilter now s)
| reach_removeFilter s filterId : reachable s -> reachable (removeFilter filterId s)
| reach_updateFilter s filterId u : reachable s -> reachable (updateFilter filterId u s)
| reach_addSort s now : reachable s -> reachable (addSort now s)
| reach_removeSort s sortId : reachable s -> reachable (removeSort sortId s)
| reach_addGroup s now : reachable s -> reachable (addGroup now s)
| reach_removeGroup s groupId : reachable s -> reachable (removeGroup groupId s)
| reach_validate s : reachable s -> reachable (snd (validateReportSettings s))
| reach_executeReport s create rpc : reachable s -> reachable (executeReport create rpc s)
| reach_goToStep s step : reachable s -> reachable (goToStep step s)
| reach_toggleAdvancedMode s : reachable s -> reachable (toggleAdvancedMode s)
| reach_duplicateField s fieldName now :
    reachable s -> reachable (duplicateField fieldName now s)
| reach_bulkAddFields s : reachable s -> reachable (bulkAddFields s)
| reach_bulkAddConfirm s chosen now :
    reachable s -> reachable (bulkAddConfirm chosen now s)
| reach_smartFieldRecommendation s :
    reachable s -> reachable (snd (smartFieldRecommendation s))
| reach_acceptRecommendations s fields :
    reachable s -> reachable (acceptRecommendations fields s)
| reach_executeWithCache s create rpc startTime endTime :
    reachable s -> reachable (executeWithCache create rpc startTime endTime s)
| reach_clearCache s : reachable s -> reachable (clearCache s)
| reach_addToHistory s action data now :
    reachable s -> reachable (addToHistory action data now s)
| reach_undo s : reachable s -> reachable (snd (undo s))
| reach_redo s : reachable s -> reachable (snd (redo s))
| reach_exportReport c format create :
    reachable (state c) -> reachable (state (snd (exportReport format create c)))
| reach_saveAsTemplate c templateName create :
    reachable (state c) -> reachable (state (snd (saveAsTemplate templateName create c)))
| reach_refreshTick c create rpc startTime endTime :
    reachable (state c) ->
    reachable (state (refreshTick create rpc startTime endTime c))
| reach_importSettings c file rpc now :
    reachable (state c) -> reachable (state (importSettings file rpc now c)).

(** The cursor is on the log and no reference dangles. *)
Definition inv (s : State) : Prop := cursor_ok s /\ wf s.

(** ** Notifications of the history *)

Definition info (m : Message) : Event :=
  EvNotify {| n_message := Some m; n_type := Info; n_sticky := false |}.

Definition warning (m : Message) : Event :=
  EvNotify {| n_message := Some m; n_type := Warning; n_sticky := false |}.

Definition success (m : option Message) : Event :=
  EvNotify {| n_message := m; n_type := Success; n_sticky := false |}.

(** ** What the cache key is made of *)

(** The parts of the settings that enter the cache key. *)
Definition keyed (s : State)
  : option string * list string * list PreparedFilter * list SortSpec * list GroupSpec :=
  (m_model <$> selectedModel s, map name (liveFields s), prepareFilters s,
   List.filter (fun x => nonempty (s_field x)) (liveSorts s),
   List.filter (fun g => nonempty (g_field g)) (liveGroups s)).

(** ** Auto refresh *)

(** One firing of the refresh timer: the outcomes of the two server
    calls and the clock readings, should the report be executed. *)
Record Firing := {
  t_create : Outcome Z;
  t_rpc : Outcome ExecResult;
  t_start : Z;
  t_end : Z
}.

Definition fire (c : Component) (f : Firing) : Component :=
  refreshTick (t_create f) (t_rpc f) (t_start f) (t_end f) c.

Definition firings (l : list Firing) (c : Component) : Component := fold_left fire l c.



(** ** The settings file *)

(** The four collections a settings document gives the state. *)
Definition imported (fields : list FieldSpec) (settings : Settings)
  : list FieldSpec * list FilterSpec * list GroupSpec * list SortSpec :=
  (fields, default [] (doc_filters settings), default [] (doc_groups settings),
   default [] (doc_sorts settings)).

Definition importCall (file : File) (now : Z) : Call :=
  {| c_action := "import_settings";
     c_data := JObj [("filename", JStr (file_name file))]; c_now := now |}.

(** ** Duplicated fields *)

(** The copy [duplicateField] appends to [n] fields. *)
Definition copyOf (f : FieldSpec) (n : nat) : FieldSpec :=
  {| name := name f; label := label f +:+ " (копія)"; type := type f;
     visible := visible f; sequence := Z.of_nat n + 1;
     format_type := format_type f; aggregation := aggregation f |}.

(** ** Two logged actions *)

(** The call of [addToHistory] made by the confirmation of a bulk-add. *)
Definition bulkCall (chosen : list FieldDesc) (now : Z) : Call :=
  {| c_action := "bulk_add_fields";
     c_data := JObj [("count", JNum (Z.of_nat (length chosen)))]; c_now := now |}.

(** The cursor is on the entry [e], whose arrays hold the values of the
    four collections of the state and are arrays of their own, as right
    after a logged action. *)
Definition tracked (s : State) (e : HistoryEntry) : Prop :=
  inv s /\ entry_at (historyIndex s) s = Some e /\
  contents s (h_state e) = liveContents s /\
  snap_selectedFields (h_state e) <> selectedFields s /\
  valid_refs s (h_state e).

(** The cursor is on the last entry [enew], which holds the values of
    the state; the entry before it, [eprev], holds the values [before]. *)
Definition two_entries (s : State) (eprev enew : HistoryEntry)
    (before : list FieldSpec * list FilterSpec * list GroupSpec * list SortSpec) : Prop :=
  0 < historyIndex s /\ historyIndex s = Z.of_nat (length (history s)) - 1 /\
  entry_at (historyIndex s) s = Some enew /\
  entry_at (historyIndex s - 1) s = Some eprev /\
  contents s (h_state eprev) = before /\
  contents s (h_state enew) = liveContents s.

(** ** Further example data *)

(** The two-field state with one filter: active, on [email], with the
    operator ['!='] and no value. *)
Definition filterState : State :=
  updateFilter 5 (UOperator "!=") (updateFilter 5 (UField "email") (addFilter 5 twoFields)).

Definition emailFilter : FilterSpec :=
  {| f_id := 5; f_field := "email"; f_field_type := "char"; f_operator := "!=";
     f_value := ""; f_active := true |}.

(** One sort and one group besides. *)
Definition arrangedState : State := addGroup 7 (addSort 6 filterState).

Definition annRows : json := JArr [JObj [("name", JStr "Ann")]].

Definition annResult : ExecResult :=
  {| er_success := true; er_data := annRows; er_count := 1; er_message := Some "1 row";
     er_error := None |}.

(** Two logged actions: the bulk-add of [name] and its duplication. *)
Definition twoLogged : State := duplicateField "name" 20 firstLogged.

(** The field [name] as [addField] makes it. *)
Definition nameSpec : FieldSpec := chosenSpec 1 nameField.

(** The cached state with the label, the visibility and the aggregation
    of its field changed in place. *)
Definition relabelled : State :=
  write_selectedFields
    [{| name := "name"; label := "Customer"; type := "char"; visible := false;
        sequence := 1; format_type := "text"; aggregation := "count" |}] cachedState.

Definition contactFields : FieldsResult :=
  {| fr_success := true; fr_fields := [nameField; emailField; totalField];
     fr_message := None; fr_error := None |}.

Definition orderFields : FieldsResult :=
  {| fr_success := true; fr_fields := [nameField; totalField];
     fr_message := None; fr_error := None |}.


Definition showingCached : Component := set_state cachedState initialComponent.

Definition modelsLoaded : Component :=
  set_state (loadInitialData (Resolved [partnerModel; orderModel]) initialState)
    initialComponent.

Definition twoFieldsComponent : Component := set_state twoFields initialComponent.

Definition failingFiring : Firing :=
  {| t_create := Rejected ENull; t_rpc := Rejected ENull; t_start := 0; t_end := 1 |}.

Definition settingsFile : File :=
  {| file_name := "report_settings.json";
     file_parsed := Document (fst (exportSettings "2026-01-01T00:00:00.000Z" twoFieldsComponent)) |}.

(** The component with the contact model and one field selected. *)
Definition partnerComponent : Component := set_state partnerState initialComponent.

(** ** Proof automation for the invariant *)

Create HintDb inv.

(** A step that keeps the log and the references: [keep] is the lemma
    for such steps, [H] the invariant before. *)
Ltac frame_inv keep H :=
  apply keep with (5 := H);
  [ reflexivity | reflexivity
  | unfold stores_grow; cbn; rewrite ?length_insert, ?length_app; cbn; lia
  | destruct H as [_ [H _]]; unfold valid_refs in *; cbn in *;
    rewrite ?length_insert, ?length_app; cbn; lia ].

Ltac inv_auto := auto 30 with inv nocore.

(** * Properties *)

(** ** Generic facts *)

Lemma nonempty_true (x : string) : nonempty x = true <-> x <> "".
Proof.
  unfold nonempty. destruct (String.eqb_spec x ""); simpl; split; congruence.
Qed.

Lemma nonempty_false (x : string) : nonempty x = false <-> x = "".
Proof.
  unfold nonempty. destruct (String.eqb_spec x ""); simpl; split; congruence.
Qed.

Lemma filter_nonempty_iff {A} (p : A -> bool) (l : list A) :
  (0 <? length (List.filter p l))%nat = true <-> exists x, In x l /\ p x = true.
Proof.
  rewrite Nat.ltb_lt. split.
  - destruct (List.filter p l) as [|x l'] eqn:E; simpl; [lia|]. intros _.
    exists x. apply filter_In. rewrite E. now left.
  - intros (x & Hin & Hp).
    assert (In x (List.filter p l)) as H by (apply filter_In; auto).
    destruct (List.filter p l); simpl in *; [tauto | lia].
Qed.

Lemma findIndex_Some {A} (p : A -> bool) (l : list A) (i : nat) :
  findIndex p l = Some i <->
  (exists x, l !! i = Some x /\ p x = true) /\
  (forall k y, (k < i)%nat -> l !! k = Some y -> p y = false).
Proof.
  revert i. induction l as [|a l IH]; intros i; simpl.
  - split; [discriminate | intros [(x & H & _) _]; discriminate].
  - destruct (p a) eqn:Ea.
    + split.
      * intros [= <-]. split; [exists a; auto | intros k y Hk; lia].
      * intros [(x & Hx & Hp) Hlt]. destruct i as [|i]; [reflexivity|].
        specialize (Hlt 0%nat a). simpl in Hlt. rewrite Hlt in Ea; [discriminate | lia | reflexivity].
    + destruct (findIndex p l) as [j|] eqn:Ej; simpl.
      * split.
        -- intros [= <-]. destruct (proj1 (IH j) eq_refl) as [Hx Hlt]. split; [exact Hx|].
           intros [|k] y Hk; simpl; [intros [= <-]; exact Ea | apply Hlt; lia].
        -- intros [(x & Hx & Hp) Hlt]. destruct i as [|i]; simpl in Hx.
           ++ injection Hx as ->. congruence.
           ++ f_equal. assert (Some j = Some i) as H; [|congruence].
              apply IH. split; [exists x; auto|].
              intros k y Hk Hy. apply (Hlt (S k) y); [lia | exact Hy].
      * split; [discriminate|].
        intros [(x & Hx & Hp) Hlt]. destruct i as [|i]; simpl in Hx.
        -- injection Hx as ->. congruence.
        -- exfalso. assert (None = Some i) as H; [|discriminate].
           apply IH. split; [exists x; auto|].
           intros k y Hk Hy. apply (Hlt (S k) y); [lia | exact Hy].
Qed.

Lemma findIndex_None {A} (p : A -> bool) (l : list A) :
  findIndex p l = None <-> forall x, In x l -> p x = false.
Proof.
  induction l as [|a l IH]; simpl.
  - split; [intros _ x [] | reflexivity].
  - destruct (p a) eqn:Ea.
    + split; [discriminate | intros H; rewrite (H a) in Ea; [discriminate | now left]].
    + destruct (findIndex p l); simpl.
      * split; [discriminate|]. intros H.
        assert (Some n = @None nat) as H'; [|discriminate].
        apply IH. intros x Hx. apply H. now right.
      * split; [|reflexivity]. intros _ x [<- | Hx]; [exact Ea | now apply IH].
Qed.

Lemma find_findIndex {A} (p : A -> bool) (l : list A) :
  find p l = (findIndex p l ≫= fun i => l !! i).
Proof.
  induction l as [|a l IH]; simpl; [reflexivity|].
  destruct (p a); [reflexivity|]. rewrite IH.
  destruct (findIndex p l); reflexivity.
Qed.

(** ** Validation *)

Lemma invalid_filter_true (f : FilterSpec) :
  invalid_filter f = true <->
  f_active f = true /\ f_field f <> "" /\ f_value f = "" /\ f_operator f <> "!=".
Proof.
  unfold invalid_filter. rewrite !andb_true_iff, !negb_true_iff.
  rewrite nonempty_true, nonempty_false.
  destruct (String.eqb_spec (f_operator f) "!="); intuition congruence.
Qed.

(** C6: [validateReportSettings] returns [false] with at least one error
    in [state.errors] exactly when no model is selected, or no field is
    selected, or some filter is active, has a field, has an empty value and
    an operator other than ['!=']; in every other state it returns [true]
    and [state.errors] is empty. *)
Theorem validateReportSettings_spec (s : State) :
  (settings_invalid s /\
   fst (validateReportSettings s) = false /\
   (0 < length (errors (snd (validateReportSettings s))))%nat) \/
  (~ settings_invalid s /\
   fst (validateReportSettings s) = true /\
   errors (snd (validateReportSettings s)) = []).
Proof.
  unfold validateReportSettings, collectErrors, settings_invalid.
  cbn [errors set_errors].
  destruct (0 <? length (List.filter invalid_filter (liveFilters s)))%nat eqn:Ef.
  - left. split.
    + right; right. apply filter_nonempty_iff in Ef as (f & Hin & Hf).
      exists f. split; [exact Hin | now apply invalid_filter_true].
    + destruct (selectedModel s), (length (liveFields s) =? 0)%nat; simpl; split; auto; lia.
  - assert (~ exists f, In f (liveFilters s) /\ f_active f = true /\ f_field f <> "" /\
                         f_value f = "" /\ f_operator f <> "!=") as Hno.
    { intros (f & Hin & Hf). apply invalid_filter_true in Hf.
      assert ((0 <? length (List.filter invalid_filter (liveFilters s)))%nat = true) as H
          by (apply filter_nonempty_iff; eauto).
      congruence. }
    destruct (selectedModel s) as [m|] eqn:Em.
    + destruct (length (liveFields s) =? 0)%nat eqn:El; simpl.
      * left. apply Nat.eqb_eq in El. split; [|split; [reflexivity | lia]].
        right; left. now destruct (liveFields s).
      * right. apply Nat.eqb_neq in El. split; [|auto].
        intros [H | [H | H]]; [discriminate | rewrite H in El; now apply El | tauto].
    + left. split; [now left|].
      destruct (length (liveFields s) =? 0)%nat; simpl; split; auto; lia.
Qed.

(** ** The store: reading after writing *)

Lemma read_write {A} (st : list (list A)) (l : loc) (a : list A) :
  (l < length st)%nat -> <[l := a]> st !!! l = a.
Proof. apply list_lookup_total_insert_eq. Qed.

Lemma read_write_ne {A} (st : list (list A)) (l l' : loc) (a : list A) :
  l <> l' -> <[l := a]> st !!! l' = st !!! l'.
Proof. apply list_lookup_total_insert_ne. Qed.

Lemma read_alloc_old {A} (st : list (list A)) (l : loc) (a : list A) :
  (l < length st)%nat -> (st ++ [a]) !!! l = st !!! l.
Proof. apply lookup_total_app_l. Qed.

Lemma read_alloc_new {A} (st : list (list A)) (a : list A) :
  (st ++ [a]) !!! length st = a.
Proof. now apply list_lookup_total_middle. Qed.

Lemma read_some_valid {A} (st : list (list A)) (l : loc) (i : nat) (x : A) :
  (st !!! l) !! i = Some x -> (l < length st)%nat.
Proof.
  intros H. destruct (decide (l < length st)%nat) as [|Hge]; [assumption|].
  rewrite list_lookup_total_alt, (lookup_ge_None_2 st l) in H by lia.
  discriminate.
Qed.

Lemma liveFields_write (a : list FieldSpec) (s : State) :
  (selectedFields s < length (fieldArrays s))%nat ->
  liveFields (write_selectedFields a s) = a.
Proof. intros H. unfold liveFields, write_selectedFields. simpl. now apply read_write. Qed.

(** ** Moving a field *)

Lemma swap_lookup (i j : nat) (fields : list FieldSpec) (k : nat) :
  (i < length fields)%nat -> (j < length fields)%nat ->
  swap i j fields !! k = fields !! transpose i j k.
Proof.
  intros Hi Hj. unfold swap, transpose.
  destruct (lookup_lt_is_Some_2 fields i Hi) as [a Ha].
  destruct (lookup_lt_is_Some_2 fields j Hj) as [b Hb].
  rewrite Ha, Hb.
  destruct (decide (k = j)) as [->|Hkj].
  - rewrite list_lookup_insert_eq by (rewrite length_insert; lia).
    destruct (decide (j = i)) as [->|]; congruence.
  - rewrite list_lookup_insert_ne by congruence.
    destruct (decide (k = i)) as [->|Hki].
    + rewrite list_lookup_insert_eq by lia. congruence.
    + now rewrite list_lookup_insert_ne by congruence.
Qed.

Lemma swap_length (i j : nat) (fields : list FieldSpec) :
  length (swap i j fields) = length fields.
Proof.
  unfold swap. destruct (fields !! i), (fields !! j); try reflexivity.
  now rewrite !length_insert.
Qed.

Lemma findIndex_lt {A} (p : A -> bool) (l : list A) (i : nat) :
  findIndex p l = Some i -> (i < length l)%nat.
Proof.
  intros H. apply findIndex_Some in H as [(x & Hx & _) _].
  now apply lookup_lt_Some in Hx.
Qed.

Lemma live_valid_of_index {A} (p : A -> bool) (st : list (list A)) (l : loc) (i : nat) :
  findIndex p (st !!! l) = Some i -> (l < length st)%nat.
Proof.
  intros H. apply findIndex_Some in H as [(x & Hx & _) _].
  exact (read_some_valid _ _ _ _ Hx).
Qed.

(** Inside the bounds [moveField] writes the exchanged, renumbered list. *)
Lemma moveField_in_range (fieldName direction : string) (s : State) (i j : nat) :
  findIndex (has_name fieldName) (liveFields s) = Some i ->
  (direction = "up" /\ S j = i) \/
  (direction <> "up" /\ j = S i /\ (j < length (liveFields s))%nat) ->
  moveField fieldName direction s =
  write_selectedFields (renumber (swap i j (liveFields s))) s.
Proof.
  intros Hi Hdir. pose proof (findIndex_lt _ _ _ Hi) as Hlt.
  unfold moveField. rewrite Hi.
  destruct Hdir as [[-> <-] | (Hd & -> & Hj)].
  - simpl String.eqb. cbv iota.
    replace (Z.to_nat (Z.of_nat (S j) - 1)) with j by lia.
    destruct (Z.leb_spec 0 (Z.of_nat (S j) - 1)); [|lia].
    destruct (Z.ltb_spec (Z.of_nat (S j) - 1) (Z.of_nat (length (liveFields s)))); [|lia].
    reflexivity.
  - apply String.eqb_neq in Hd. rewrite Hd.
    replace (Z.to_nat (Z.of_nat i + 1)) with (S i) by lia.
    destruct (Z.leb_spec 0 (Z.of_nat i + 1)); [|lia].
    destruct (Z.ltb_spec (Z.of_nat i + 1) (Z.of_nat (length (liveFields s)))); [|lia].
    reflexivity.
Qed.

(** C7, as the code has it: [moveField] acts on the first field with the
    name.  It changes nothing when no field has the name, when that
    field is the first and is moved up and when it is the last and is
    moved down; otherwise that field and its neighbour in the given
    direction change places, all other fields stay where they are, and
    every field's [sequence] is its 1-based position. *)
Theorem moveField_spec (fieldName direction : string) (s : State) :
  ((forall f, In f (liveFields s) -> name f <> fieldName) ->
   moveField fieldName direction s = s) /\
  (forall i, findIndex (has_name fieldName) (liveFields s) = Some i ->
     (direction = "up" -> i = 0%nat -> moveField fieldName direction s = s) /\
     (direction <> "up" -> S i = length (liveFields s) ->
      moveField fieldName direction s = s) /\
     (forall j,
        (direction = "up" /\ S j = i) \/
        (direction <> "up" /\ j = S i /\ (j < length (liveFields s))%nat) ->
        let s' := moveField fieldName direction s in
        length (liveFields s') = length (liveFields s) /\
        (forall k, liveFields s' !! k =
                   set_sequence (Z.of_nat k + 1) <$> liveFields s !! transpose i j k) /\
        (forall k f, liveFields s' !! k = Some f -> sequence f = Z.of_nat k + 1))).
Proof.
  split.
  - intros Habs. unfold moveField.
    assert (findIndex (has_name fieldName) (liveFields s) = None) as ->; [|reflexivity].
    apply findIndex_None. intros f Hf. unfold has_name.
    apply String.eqb_neq. now apply Habs.
  - intros i Hi. pose proof (findIndex_lt _ _ _ Hi) as Hlt. split; [|split].
    + intros -> ->. unfold moveField. now rewrite Hi.
    + intros Hd Hlast. unfold moveField. rewrite Hi.
      apply String.eqb_neq in Hd. rewrite Hd.
      destruct (Z.ltb_spec (Z.of_nat i + 1) (Z.of_nat (length (liveFields s)))); [lia|].
      now rewrite andb_false_r.
    + intros j Hdir s'. subst s'.
      rewrite (moveField_in_range _ _ _ _ _ Hi Hdir).
      rewrite liveFields_write by exact (live_valid_of_index _ _ _ _ Hi).
      assert (j < length (liveFields s))%nat as Hj by (destruct Hdir; lia).
      unfold renumber. split; [|split].
      * now rewrite length_imap, swap_length.
      * intros k. now rewrite list_lookup_imap, swap_lookup.
      * intros k f. rewrite list_lookup_imap_Some. now intros (y & _ & ->).
Qed.

(** C7 as stated fails when the name occurs twice: the last field is
    named [name], and moving [name] down is no no-op, because the first
    field of that name is the one moved. *)
Lemma moveField_moves_first_of_duplicates :
  map label (liveFields duplicatedName) = ["Name"; "Email"; "Name (копія)"] /\
  (exists f, last (liveFields duplicatedName) = Some f /\ name f = "name") /\
  map label (liveFields (moveField "name" "down" duplicatedName))
    = ["Email"; "Name"; "Name (копія)"] /\
  moveField "name" "down" duplicatedName <> duplicatedName.
Proof.
  assert (map label (liveFields duplicatedName) = ["Name"; "Email"; "Name (копія)"]) as E0
      by (vm_compute; reflexivity).
  assert (map label (liveFields (moveField "name" "down" duplicatedName))
          = ["Email"; "Name"; "Name (копія)"]) as E1 by (vm_compute; reflexivity).
  split; [exact E0|]. split; [|split; [exact E1|]].
  - vm_compute. eexists. split; reflexivity.
  - intros H. rewrite H, E0 in E1. discriminate.
Qed.

(** ** The history log *)

Lemma snapshot_history (s : State) :
  history (snd (snapshot s)) = history s /\
  historyIndex (snd (snapshot s)) = historyIndex s.
Proof. split; reflexivity. Qed.

Lemma addCall_steps (s : State) (c : Call) :
  addCall s c = evict (pushEntry (entry_of c s) (truncateFuture (snd (snapshot s)))).
Proof. reflexivity. Qed.

Lemma length_snoc {A} (l : list A) (x : A) : length (l ++ [x]) = S (length l).
Proof. rewrite length_app. simpl. lia. Qed.

Lemma tail_drop {A} (l : list A) (k : nat) : tail (drop k l) = drop (S k) l.
Proof.
  revert k. induction l as [|x l IH]; intros [|k]; simpl; try reflexivity.
  apply IH.
Qed.

Lemma slice0_length {A} (e : Z) (l : list A) : (length (slice0 e l) <= length l)%nat.
Proof. unfold slice0. rewrite length_take. lia. Qed.

Lemma truncateFuture_length (s : State) :
  (length (history (truncateFuture s)) <= length (history s))%nat.
Proof.
  unfold truncateFuture.
  destruct (historyIndex s <? Z.of_nat (length (history s)) - 1); simpl;
    [apply slice0_length | lia].
Qed.

(** With the cursor on the last entry nothing is cut. *)
Lemma truncateFuture_at_end (s : State) :
  historyIndex s = Z.of_nat (length (history s)) - 1 -> truncateFuture s = s.
Proof.
  intros H. unfold truncateFuture.
  destruct (Z.ltb_spec (historyIndex s) (Z.of_nat (length (history s)) - 1)); [lia | reflexivity].
Qed.

(** With a valid cursor the entries up to the cursor are kept. *)
Lemma truncateFuture_history (s : State) :
  cursor_ok s ->
  history (truncateFuture s) = take (Z.to_nat (historyIndex s + 1)) (history s).
Proof.
  intros [Hlo Hhi]. unfold truncateFuture.
  destruct (Z.ltb_spec (historyIndex s) (Z.of_nat (length (history s)) - 1)); simpl.
  - unfold slice0.
    destruct (Z.ltb_spec (historyIndex s + 1) 0); [lia|].
    f_equal. lia.
  - rewrite take_ge; [reflexivity | lia].
Qed.

Lemma truncateFuture_index (s : State) :
  historyIndex (truncateFuture s) = historyIndex s.
Proof.
  unfold truncateFuture.
  now destruct (historyIndex s <? Z.of_nat (length (history s)) - 1).
Qed.

Lemma pushEntry_history (e : HistoryEntry) (s : State) :
  history (pushEntry e s) = history s ++ [e] /\
  historyIndex (pushEntry e s) = Z.of_nat (length (history s)).
Proof.
  unfold pushEntry. simpl. split; [reflexivity|]. rewrite length_app. simpl. lia.
Qed.

Lemma evict_history (s : State) :
  (history (evict s) = if (50 <? length (history s))%nat then tail (history s) else history s) /\
  (historyIndex (evict s) =
     if (50 <? length (history s))%nat then historyIndex s - 1 else historyIndex s).
Proof. unfold evict. now destruct (50 <? length (history s))%nat. Qed.

(** After [addToHistory] the cursor is on the last entry, whatever the
    state before. *)
Lemma addCall_cursor_last (s : State) (c : Call) :
  historyIndex (addCall s c) = Z.of_nat (length (history (addCall s c))) - 1.
Proof.
  rewrite addCall_steps.
  set (t := truncateFuture (snd (snapshot s))).
  destruct (evict_history (pushEntry (entry_of c s) t)) as [-> ->].
  destruct (pushEntry_history (entry_of c s) t) as [-> ->].
  destruct (50 <? length (history t ++ [entry_of c s]))%nat.
  - destruct (history t); simpl; rewrite ?length_app; simpl; lia.
  - rewrite length_app. simpl. lia.
Qed.

(** The log never grows beyond 50 entries. *)
Lemma addCall_capped (s : State) (c : Call) :
  (length (history s) <= 50)%nat -> (length (history (addCall s c)) <= 50)%nat.
Proof.
  intros Hlen. rewrite addCall_steps.
  set (t := truncateFuture (snd (snapshot s))).
  assert (length (history t) <= 50)%nat as Ht.
  { subst t. etransitivity; [apply truncateFuture_length|]. exact Hlen. }
  destruct (evict_history (pushEntry (entry_of c s) t)) as [-> _].
  destruct (pushEntry_history (entry_of c s) t) as [-> _].
  destruct (Nat.ltb_spec 50 (length (history t ++ [entry_of c s]))) as [Hgt|Hle].
  - rewrite length_app in Hgt. simpl in Hgt.
    destruct (history t); simpl in *; rewrite ?length_app; simpl; lia.
  - exact Hle.
Qed.

(** One call on a log whose cursor is on its last entry. *)
Lemma addCall_at_end (s : State) (c : Call) :
  historyIndex s = Z.of_nat (length (history s)) - 1 ->
  history (addCall s c) =
    if (50 <=? length (history s))%nat
    then tail (history s ++ [entry_of c s])
    else history s ++ [entry_of c s].
Proof.
  intros Hend. rewrite addCall_steps.
  rewrite truncateFuture_at_end by exact Hend.
  destruct (evict_history (pushEntry (entry_of c s) (snd (snapshot s)))) as [-> _].
  destruct (pushEntry_history (entry_of c s) (snd (snapshot s))) as [-> _].
  change (history (snd (snapshot s))) with (history s).
  rewrite length_snoc.
  destruct (Nat.leb_spec 50 (length (history s))),
    (Nat.ltb_spec 50 (S (length (history s)))); try lia; reflexivity.
Qed.

Lemma run_snoc (calls : list Call) (c : Call) (s0 : State) :
  run (calls ++ [c]) s0 = addCall (run calls s0) c.
Proof. unfold run. now rewrite fold_left_app. Qed.

Lemma logged_run (calls : list Call) (s0 : State) : logged s0 calls (run calls s0).
Proof.
  induction calls as [|c calls IH] using rev_ind; [constructor|].
  rewrite run_snoc. now constructor.
Qed.

Lemma call_of_entry_of (c : Call) (s : State) : call_of (entry_of c s) = c.
Proof. now destruct c. Qed.

(** The log after the calls [calls] on a new log: the last 50 of them,
    with the cursor on the newest. *)
Lemma logged_history (s0 s : State) (calls : list Call) :
  history s0 = [] -> historyIndex s0 = -1 -> logged s0 calls s ->
  length (history s) = Nat.min (length calls) 50 /\
  historyIndex s = Z.of_nat (length (history s)) - 1 /\
  map call_of (history s) = drop (length calls - 50) calls.
Proof.
  intros H0 Hi0 Hlog. induction Hlog as [|calls s f _ IH Hf|calls s c _ IH].
  - rewrite H0, Hi0. auto.
  - destruct (Hf s) as [-> ->]. exact IH.
  - destruct IH as (Hlen & Hidx & Hmap). split; [|split].
    + rewrite (addCall_at_end _ _ Hidx), length_snoc.
      destruct (Nat.leb_spec 50 (length (history s))) as [Hge|Hlt].
      * destruct (history s) eqn:E; simpl in *; [lia|].
        rewrite length_snoc. lia.
      * rewrite length_snoc. lia.
    + apply addCall_cursor_last.
    + rewrite (addCall_at_end _ _ Hidx), length_snoc.
      destruct (Nat.leb_spec 50 (length (history s))) as [Hge|Hlt].
      * assert (50 <= length calls)%nat as Hc by lia.
        replace (S (length calls) - 50)%nat with (S (length calls - 50)) by lia.
        rewrite drop_app_le by lia. rewrite <- tail_drop, <- Hmap.
        destruct (history s) eqn:E; simpl in *; [lia|].
        rewrite map_app. simpl. now rewrite call_of_entry_of.
      * replace (S (length calls) - 50)%nat with 0%nat by lia.
        replace (length calls - 50)%nat with 0%nat in Hmap by lia.
        rewrite drop_0 in *. rewrite map_app, Hmap. simpl.
        now rewrite call_of_entry_of.
Qed.

(** A call on a full log whose cursor is on the last entry. *)
Lemma addCall_evicts (s : State) (c : Call) :
  historyIndex s = Z.of_nat (length (history s)) - 1 ->
  (50 <= length (history s))%nat ->
  let pushed := pushEntry (entry_of c s) (truncateFuture (snd (snapshot s))) in
  history pushed = history s ++ [entry_of c s] /\
  addCall s c = evict pushed /\
  history (addCall s c) = tail (history pushed) /\
  historyIndex (addCall s c) = historyIndex pushed - 1.
Proof.
  intros Hend Hfull pushed.
  assert (history pushed = history s ++ [entry_of c s]) as Hpushed.
  { unfold pushed. rewrite truncateFuture_at_end by exact Hend.
    exact (proj1 (pushEntry_history _ _)). }
  split; [exact Hpushed|]. split; [apply addCall_steps|].
  rewrite addCall_steps. fold pushed.
  destruct (evict_history pushed) as [-> ->].
  rewrite Hpushed, length_snoc.
  destruct (Nat.ltb_spec 50 (S (length (history s)))); [auto | lia].
Qed.

(** C2: the log is new in [s0], and [s] is reached by the calls [calls]
    of [addToHistory] with any log-keeping changes around them.  The log
    of [s] holds at most 50 entries, namely the last 50 calls, and the
    cursor is on the newest.  When 50 or more calls were made, the next
    call appends its entry, removes the oldest one and decrements
    [historyIndex], which is then again [history.length - 1]. *)
Theorem history_capacity (s0 s : State) (calls : list Call) :
  history s0 = [] -> historyIndex s0 = -1 -> logged s0 calls s ->
  (length (history s) <= 50)%nat /\
  historyIndex s = Z.of_nat (length (history s)) - 1 /\
  map call_of (history s) = drop (length calls - 50) calls /\
  (forall c, (50 <= length calls)%nat ->
     let pushed := pushEntry (entry_of c s) (truncateFuture (snd (snapshot s))) in
     let after := addCall s c in
     history pushed = history s ++ [entry_of c s] /\
     after = evict pushed /\
     history after = tail (history pushed) /\
     historyIndex after = historyIndex pushed - 1 /\
     historyIndex after = Z.of_nat (length (history after)) - 1 /\
     length (history after) = 50%nat).
Proof.
  intros H0 Hi0 Hlog.
  destruct (logged_history s0 s calls H0 Hi0 Hlog) as (Hlen & Hidx & Hmap).
  split; [lia|]. split; [exact Hidx|]. split; [exact Hmap|].
  intros c Hfull. cbv zeta.
  destruct (addCall_evicts s c Hidx) as (H1 & H2 & H3 & H4); [lia|].
  pose proof (addCall_cursor_last s c) as H5.
  destruct (logged_history s0 (addCall s c) (calls ++ [c]) H0 Hi0
              (logged_call _ _ _ c Hlog)) as (H6 & _).
  rewrite length_snoc in H6.
  repeat (split; [assumption|]). lia.
Qed.

(** ** Undo and redo *)

Lemma entry_at_None (i : Z) (s : State) :
  entry_at i s = None <-> i < 0 \/ Z.of_nat (length (history s)) <= i.
Proof.
  unfold entry_at. destruct (Z.ltb_spec i 0).
  - split; auto.
  - rewrite lookup_ge_None. lia.
Qed.

Lemma entry_at_Some (i : Z) (s : State) :
  0 <= i < Z.of_nat (length (history s)) -> exists e, entry_at i s = Some e.
Proof.
  intros H. destruct (entry_at i s) eqn:E; [eauto|].
  apply entry_at_None in E. lia.
Qed.

(** [undo] leaves the log and the store alone and moves the cursor back
    when an entry is there. *)
Lemma undo_frame (s : State) :
  cursor_ok s ->
  fst (undo s) = Normal /\
  same_log_and_store s (snd (undo s)) /\ same_rest s (snd (undo s)) /\
  cursor_move (-1) s (snd (undo s)).
Proof.
  intros [Hlo Hhi]. unfold undo. destruct (Z.ltb_spec 0 (historyIndex s)) as [Hpos|Hle].
  - destruct (entry_at_Some (historyIndex s - 1) s) as [e He]; [lia|].
    change (entry_at _ (set_historyIndex (historyIndex s - 1) s))
      with (entry_at (historyIndex s - 1) s).
    rewrite He. simpl. repeat split.
    left. exists e. replace (historyIndex s + -1) with (historyIndex s - 1) by lia.
    split; [exact He|]. split; [reflexivity|]. now destruct (h_state e).
  - simpl. repeat split. right. repeat split.
    apply entry_at_None. lia.
Qed.

(** [redo] leaves the log and the store alone and moves the cursor
    forward when an entry is there. *)
Lemma redo_frame (s : State) :
  cursor_ok s ->
  fst (redo s) = Normal /\
  same_log_and_store s (snd (redo s)) /\ same_rest s (snd (redo s)) /\
  cursor_move 1 s (snd (redo s)).
Proof.
  intros [Hlo Hhi]. unfold redo.
  destruct (Z.ltb_spec (historyIndex s) (Z.of_nat (length (history s)) - 1)) as [Hlt|Hge].
  - destruct (entry_at_Some (historyIndex s + 1) s) as [e He]; [lia|].
    change (entry_at _ (set_historyIndex (historyIndex s + 1) s))
      with (entry_at (historyIndex s + 1) s).
    rewrite He. simpl. repeat split.
    left. exists e. split; [exact He|]. split; [reflexivity|]. now destruct (h_state e).
  - simpl. repeat split. right. repeat split.
    apply entry_at_None. lia.
Qed.

(** The log and the store are out of reach of [undo] and [redo] in
    every state, also where the cursor is off the log and the call throws. *)
Lemma undo_redo_keep_log_and_store (s : State) :
  (same_log_and_store s (snd (undo s)) /\ same_rest s (snd (undo s))) /\
  (same_log_and_store s (snd (redo s)) /\ same_rest s (snd (redo s))).
Proof.
  split.
  - unfold undo. destruct (0 <? historyIndex s); [|repeat split].
    destruct (entry_at _ _); repeat split.
  - unfold redo. destruct (historyIndex s <? _); [|repeat split].
    destruct (entry_at _ _); repeat split.
Qed.

(** C10: [undo] and [redo] leave the history log as it is: the same
    entries, and the same contents of every array, so of every stored
    snapshot; nothing else changes either but the cursor, the four
    references and the notification shown.  With the cursor on the log
    (or at [-1] for the empty log) the call returns normally, the cursor
    moves by one position exactly when the neighbouring entry exists, and
    then the four references of the state are those of that entry's
    snapshot. *)
Theorem undo_redo_frame (s : State) :
  (same_log_and_store s (snd (undo s)) /\ same_rest s (snd (undo s)) /\
   (cursor_ok s -> fst (undo s) = Normal /\ cursor_move (-1) s (snd (undo s)))) /\
  (same_log_and_store s (snd (redo s)) /\ same_rest s (snd (redo s)) /\
   (cursor_ok s -> fst (redo s) = Normal /\ cursor_move 1 s (snd (redo s)))).
Proof.
  destruct (undo_redo_keep_log_and_store s) as [[Hu1 Hu2] [Hr1 Hr2]].
  split; (split; [assumption|]); (split; [assumption|]); intros Hok.
  - destruct (undo_frame s Hok) as (H & _ & _ & Hm). auto.
  - destruct (redo_frame s Hok) as (H & _ & _ & Hm). auto.
Qed.

Lemma cursor_ok_initial : cursor_ok initialState.
Proof. unfold cursor_ok. simpl. lia. Qed.

Lemma addToHistory_as_call (action : string) (data : json) (now : Z) (s : State) :
  addToHistory action data now s =
  addCall s {| c_action := action; c_data := data; c_now := now |}.
Proof. unfold addCall. cbn [c_action c_data c_now]. reflexivity. Qed.

Lemma cursor_ok_addToHistory (action : string) (data : json) (now : Z) (s : State) :
  cursor_ok (addToHistory action data now s).
Proof.
  rewrite addToHistory_as_call. unfold cursor_ok. rewrite addCall_cursor_last.
  generalize (length (history (addCall s {| c_action := action; c_data := data; c_now := now |}))).
  intros n. lia.
Qed.

Lemma cursor_ok_undo (s : State) : cursor_ok s -> cursor_ok (snd (undo s)).
Proof.
  intros Hok. destruct (undo_frame s Hok) as (_ & (Hh & _) & _ & Hm).
  unfold cursor_ok in *. rewrite Hh.
  destruct Hm as [(e & He & -> & _) | (_ & -> & _)]; [|lia].
  destruct (entry_at (historyIndex s + -1) s) eqn:E; [|discriminate].
  unfold entry_at in E. destruct (Z.ltb_spec (historyIndex s + -1) 0); [discriminate|]. lia.
Qed.

Lemma cursor_ok_redo (s : State) : cursor_ok s -> cursor_ok (snd (redo s)).
Proof.
  intros Hok. destruct (redo_frame s Hok) as (_ & (Hh & _) & _ & Hm).
  unfold cursor_ok in *. rewrite Hh.
  destruct Hm as [(e & He & -> & _) | (_ & -> & _)]; [|lia].
  unfold entry_at in He. destruct (Z.ltb_spec (historyIndex s + 1) 0); [discriminate|].
  apply lookup_lt_Some in He. lia.
Qed.

(** ** Cached execution *)

(** C5, as the code has it: two states with the same selected model, the
    same selected field names, the same prepared filters, the same sorts
    with a field and the same groups with a field have the same cache
    key; and when the key of the state is in the cache,
    [executeWithCache] takes [reportData] from the cache, sets
    [reportCount] to the number of the cached rows (0 when the cached
    data is no array), and calls nothing but the notification: no report
    is created and no execution RPC is sent, whatever the server would
    have answered. *)
Theorem cache_hit (s : State) :
  (forall s2,
     selectedModel s = selectedModel s2 ->
     map name (liveFields s) = map name (liveFields s2) ->
     prepareFilters s = prepareFilters s2 ->
     List.filter (fun x => nonempty (s_field x)) (liveSorts s) =
       List.filter (fun x => nonempty (s_field x)) (liveSorts s2) ->
     List.filter (fun g => nonempty (g_field g)) (liveGroups s) =
       List.filter (fun g => nonempty (g_field g)) (liveGroups s2) ->
     generateCacheKey s = generateCacheKey s2) /\
  (forall cached create rpc startTime endTime,
     cachedResults s !! generateCacheKey s = Some cached ->
     let s' := executeWithCache create rpc startTime endTime s in
     reportData s' = cached /\
     reportCount s' = rowCount cached /\
     only_notified
       {| n_message := Some MLoadedFromCache; n_type := Info; n_sticky := false |} s s' /\
     cachedResults s' = cachedResults s /\
     executionStats s' = executionStats s /\
     loading s' = loading s /\ currentStep s' = currentStep s /\ errors s' = errors s).
Proof.
  split.
  - intros s2 Hm Hf Hp Hs Hg. unfold generateCacheKey, cacheKeyObject.
    rewrite <- Hm, <- Hp, <- Hs, <- Hg.
    replace (map (fun f => JStr (name f)) (liveFields s2))
      with (map JStr (map name (liveFields s2))) by apply map_map.
    rewrite <- Hf. now rewrite map_map.
  - intros cached create rpc startTime endTime Hhit s'. subst s'.
    unfold executeWithCache. rewrite Hhit. unfold only_notified.
    repeat split; reflexivity.
Qed.

(** C5 as stated fails for [reportCount]: the cache holds the rows, not
    the count, and a hit counts the rows.  The first run shows the 250
    records the server counted, with the one row it sent; the next call
    is served from the cache, with the same row and the count 1. *)
Lemma cache_hit_counts_rows :
  reportCount countedState = 250 /\
  cachedResults countedState !! generateCacheKey countedState
    = Some (reportData countedState) /\
  reportData (executeWithCache (Rejected ENull) (Rejected ENull) 200 230 countedState)
    = reportData countedState /\
  reportCount (executeWithCache (Rejected ENull) (Rejected ENull) 200 230 countedState) = 1 /\
  reportCount (executeWithCache (Rejected ENull) (Rejected ENull) 200 230 countedState)
    <> reportCount countedState.
Proof.
  assert (reportCount countedState = 250) as E0 by (vm_compute; reflexivity).
  assert (reportCount (executeWithCache (Rejected ENull) (Rejected ENull) 200 230
                         countedState) = 1) as E1 by (vm_compute; reflexivity).
  split; [exact E0|]. split; [vm_compute; reflexivity|].
  split; [vm_compute; reflexivity|]. split; [exact E1|].
  rewrite E0, E1. discriminate.
Qed.

(** Every call of [executeReport] leaves a trace that is not the cache
    notification: an error notification or the creation of the report. *)
Lemma executeReport_traced (create : Outcome Z) (rpc : Outcome ExecResult) (s : State) :
  exists ev rest,
    log (executeReport create rpc s) = log s ++ ev :: rest /\
    ((exists m, ev = EvNotify {| n_message := m; n_type := Danger; n_sticky := true |}) \/
     (exists r, ev = EvOrmCreate r)).
Proof.
  unfold executeReport, validateReportSettings. cbn [errors set_errors].
  destruct (0 <? length (collectErrors s))%nat.
  - cbn. eexists _, []. split; [reflexivity|]. left. eauto.
  - cbn [negb]. unfold createTempReport. cbn [selectedModel set_errors set_loading].
    destruct (selectedModel s) as [m|].
    + destruct create as [reportId|error]; [destruct rpc as [result|error]|];
        [destruct (er_success result)| |];
        (eexists _, _; split; [|right; eauto]);
        cbn; rewrite <- ?app_assoc; reflexivity.
    + cbn. eexists _, []. split; [reflexivity|]. left. eauto.
Qed.

(** ** Changing the model *)

(** What a failed fetch leaves: the error is shown, [loading] is cleared,
    the available fields and the report definition are as before; the
    selected model is the requested one as soon as it was found. *)
Lemma onModelChange_failure (modelId : option Z) (rpc : Outcome FieldsResult) (s : State) :
  falsy_id modelId = false -> fetch_fails modelId rpc s ->
  let s' := onModelChange modelId rpc s in
  loading s' = false /\
  (exists m, last (log s') = Some (EvNotify {| n_message := m; n_type := Danger; n_sticky := true |})) /\
  availableFields s' = availableFields s /\
  liveRefs s' = liveRefs s /\ same_log_and_store s s' /\
  reportData s' = reportData s /\ reportCount s' = reportCount s /\
  currentStep s' = currentStep s /\
  selectedModel s' =
    match find (is_model modelId) (availableModels s) with
    | Some model => Some model
    | None => selectedModel s
    end.
Proof.
  intros Hid Hfail s'. subst s'. unfold onModelChange. rewrite Hid.
  cbn [availableModels set_errors set_loading].
  destruct (find _ (availableModels s)) as [model|] eqn:Ef.
  - destruct Hfail as [Hnone | [[e ->] | (r & -> & Hr)]]; [congruence | |].
    + cbn. rewrite last_snoc. unfold same_log_and_store, liveRefs. cbn. eauto 20.
    + rewrite Hr. cbn. rewrite last_snoc. unfold same_log_and_store, liveRefs. cbn. eauto 20.
  - cbn. rewrite last_snoc. unfold same_log_and_store, liveRefs. cbn. eauto 20.
Qed.

(** C9 at a concrete input.  The contact model is selected with its
    fields; the user picks the order model and the RPC is rejected.  The
    error is shown and [loading] is cleared, but the selected model is now
    the order model, while the available fields and the selected fields
    are still those of the contact model. *)
Theorem onModelChange_failed_fetch_changes_model :
  let s' := onModelChange (Some 2) (Rejected (EError (Some (MServer "timeout")))) partnerState in
  selectedModel partnerState = Some partnerModel /\
  selectedModel s' = Some orderModel /\
  availableFields s' = [nameField; emailField; totalField] /\
  map name (liveFields s') = ["name"] /\
  loading s' = false /\
  last (log s') =
    Some (EvNotify {| n_message := Some (MServer "timeout"); n_type := Danger;
                      n_sticky := true |}).
Proof. evaluate. Qed.

(** ** Bulk adding *)

Lemma pushChosen_fields (field : FieldDesc) (index : nat) (s : State) :
  (selectedFields s < length (fieldArrays s))%nat ->
  liveFields (pushChosen field index s) =
    liveFields s ++
      [chosenSpec (Z.of_nat (length (liveFields s)) + Z.of_nat index + 1) field] /\
  selectedFields (pushChosen field index s) = selectedFields s /\
  length (fieldArrays (pushChosen field index s)) = length (fieldArrays s).
Proof.
  intros Hv. unfold pushChosen. rewrite liveFields_write by exact Hv.
  split; [reflexivity|]. split; [reflexivity|].
  unfold write_selectedFields. cbn [fieldArrays set_fieldArrays]. apply length_insert.
Qed.

(** The loop of the bulk-add confirmation appends one field per chosen
    descriptor; the one at 0-based position [k] of the choice gets the
    sequence [L + index + 2k + 1], where [L] is the length before the
    loop: the length has already grown by [k] when [index + k] is added. *)
Lemma forEach_pushChosen (chosen : list FieldDesc) (index : nat) (s : State) :
  (selectedFields s < length (fieldArrays s))%nat ->
  liveFields (forEach_from pushChosen chosen index s) =
    liveFields s ++
      imap (fun k field =>
              chosenSpec (Z.of_nat (length (liveFields s)) + Z.of_nat index
                          + 2 * Z.of_nat k + 1) field) chosen /\
  selectedFields (forEach_from pushChosen chosen index s) = selectedFields s /\
  length (fieldArrays (forEach_from pushChosen chosen index s)) = length (fieldArrays s).
Proof.
  revert index s. induction chosen as [|field chosen IH]; intros index s Hv.
  - simpl. now rewrite app_nil_r.
  - cbn [forEach_from].
    destruct (pushChosen_fields field index s Hv) as (Hf & Hl & Hn).
    destruct (IH (S index) (pushChosen field index s)) as (Hf' & Hl' & Hn');
      [rewrite Hl, Hn; exact Hv|].
    rewrite Hf', Hl', Hn', Hl, Hn, Hf. split; [|auto].
    rewrite <- app_assoc. f_equal. cbn [imap app]. f_equal.
    + f_equal. lia.
    + apply imap_ext. intros k x _. cbn. f_equal. rewrite length_snoc. lia.
Qed.

(** C8 at a concrete input.  One field is selected ([L = 1]) and the
    dialog is confirmed with two fields.  Two fields are appended and one
    history entry records the count, but the sequences of the appended
    fields are 2 and 4, not 2 and 3: the loop adds the loop index to a
    length that the loop itself has already increased. *)
Theorem bulkAddConfirm_sequence_gap :
  let s' := bulkAddConfirm [emailField; totalField] 5 partnerState in
  map sequence (liveFields partnerState) = [1] /\
  map name (liveFields s') = ["name"; "email"; "amount_total"] /\
  map format_type (liveFields s') = ["text"; "text"; "currency"] /\
  map aggregation (liveFields s') = ["none"; "none"; "none"] /\
  map sequence (liveFields s') = [1; 2; 4] /\
  map (fun e => (h_action e, h_data e)) (history s') =
    [("bulk_add_fields", JObj [("count", JNum 2)])].
Proof. evaluate. Qed.

(** ** Snapshots and the store *)

Lemma same_but_history_refl (s : State) : same_but_history s s.
Proof. unfold same_but_history, same_rest. auto 20. Qed.

Lemma same_but_history_trans (s1 s2 s3 : State) :
  same_but_history s1 s2 -> same_but_history s2 s3 -> same_but_history s1 s3.
Proof.
  unfold same_but_history, same_rest. intros H12 H23.
  decompose [and] H12. decompose [and] H23. repeat split; congruence.
Qed.

Lemma truncateFuture_frame (s : State) : same_but_history s (truncateFuture s).
Proof.
  unfold truncateFuture. destruct (historyIndex s <? _); [|apply same_but_history_refl].
  unfold same_but_history, same_rest, liveRefs. cbn. auto 20.
Qed.

Lemma pushEntry_frame (e : HistoryEntry) (s : State) : same_but_history s (pushEntry e s).
Proof. unfold same_but_history, same_rest, liveRefs, pushEntry. cbn. auto 20. Qed.

Lemma evict_frame (s : State) : same_but_history s (evict s).
Proof.
  unfold evict. destruct (50 <? _)%nat; [|apply same_but_history_refl].
  unfold same_but_history, same_rest, liveRefs. cbn. auto 20.
Qed.

(** [snapshot] appends the four copies to the store and changes nothing
    else; the copy refers to the new arrays. *)
Lemma snapshot_spec (s : State) :
  fst (snapshot s) =
    {| snap_selectedFields := length (fieldArrays s); snap_filters := length (filterArrays s);
       snap_groups := length (groupArrays s); snap_sorts := length (sortArrays s) |} /\
  fieldArrays (snd (snapshot s)) = fieldArrays s ++ [liveFields s] /\
  filterArrays (snd (snapshot s)) = filterArrays s ++ [liveFilters s] /\
  groupArrays (snd (snapshot s)) = groupArrays s ++ [liveGroups s] /\
  sortArrays (snd (snapshot s)) = sortArrays s ++ [liveSorts s] /\
  liveRefs (snd (snapshot s)) = liveRefs s /\ log (snd (snapshot s)) = log s /\
  same_rest s (snd (snapshot s)).
Proof. unfold same_rest. repeat split. Qed.

(** [addToHistory] changes the store only by the four new arrays of its
    snapshot, and outside the store only [history] and [historyIndex]. *)
Lemma addCall_frame (s : State) (c : Call) :
  fieldArrays (addCall s c) = fieldArrays s ++ [liveFields s] /\
  filterArrays (addCall s c) = filterArrays s ++ [liveFilters s] /\
  groupArrays (addCall s c) = groupArrays s ++ [liveGroups s] /\
  sortArrays (addCall s c) = sortArrays s ++ [liveSorts s] /\
  liveRefs (addCall s c) = liveRefs s /\ log (addCall s c) = log s /\
  same_rest s (addCall s c).
Proof.
  rewrite addCall_steps.
  pose proof (truncateFuture_frame (snd (snapshot s))) as H1.
  pose proof (pushEntry_frame (entry_of c s) (truncateFuture (snd (snapshot s)))) as H2.
  pose proof (evict_frame (pushEntry (entry_of c s) (truncateFuture (snd (snapshot s))))) as H3.
  pose proof (same_but_history_trans _ _ _ (same_but_history_trans _ _ _ H1 H2) H3) as H.
  destruct H as (Hr & Hl & Hf & Hq & Hg & Hs & Hrest).
  destruct (snapshot_spec s) as (_ & Sf & Sq & Sg & Ss & Sr & Sl & Srest).
  rewrite Hf, Hq, Hg, Hs, Hr, Hl, Sf, Sq, Sg, Ss, Sr, Sl.
  repeat split; try reflexivity;
    unfold same_rest in *; decompose [and] Hrest; decompose [and] Srest; congruence.
Qed.

(** Arrays that exist before [addToHistory] keep their contents. *)
Lemma contents_addCall (s : State) (c : Call) (r : Snapshot) :
  valid_refs s r -> contents (addCall s c) r = contents s r.
Proof.
  intros (H1 & H2 & H3 & H4).
  destruct (addCall_frame s c) as (Hf & Hq & Hg & Hs & _).
  unfold contents. rewrite Hf, Hq, Hg, Hs.
  now rewrite !read_alloc_old by assumption.
Qed.

Lemma liveContents_addCall (s : State) (c : Call) :
  valid_refs s (liveRefs s) -> liveContents (addCall s c) = liveContents s.
Proof.
  intros Hv. unfold liveContents.
  destruct (addCall_frame s c) as (_ & _ & _ & _ & -> & _).
  now apply contents_addCall.
Qed.

Lemma liveFields_addToHistory (action : string) (data : json) (now : Z) (s : State) :
  (selectedFields s < length (fieldArrays s))%nat ->
  liveFields (addToHistory action data now s) = liveFields s.
Proof.
  intros Hv. rewrite addToHistory_as_call.
  set (c := {| c_action := action; c_data := data; c_now := now |}).
  destruct (addCall_frame s c) as (Hf & _ & _ & _ & Hr & _).
  unfold liveFields. rewrite Hf.
  replace (selectedFields (addCall s c)) with (snap_selectedFields (liveRefs (addCall s c)))
    by reflexivity.
  rewrite Hr. now apply read_alloc_old.
Qed.

(** ** Unique field names *)

Lemma is_selected_spec (s : State) (n : string) :
  is_selected s n = true <-> In n (fieldNames s).
Proof.
  unfold is_selected, fieldNames. destruct (find (has_name n) (liveFields s)) as [f|] eqn:E.
  - apply find_some in E as [Hin Hn]. apply String.eqb_eq in Hn.
    split; [intros _ | reflexivity]. apply in_map_iff. eauto.
  - split; [discriminate|]. intros Hin. apply in_map_iff in Hin as (f & Hf & Hin).
    pose proof (find_none _ _ E f Hin) as H. unfold has_name in H.
    apply String.eqb_neq in H. congruence.
Qed.

Lemma is_selected_false (s : State) (n : string) :
  is_selected s n = false <-> ~ In n (fieldNames s).
Proof.
  rewrite <- is_selected_spec. destruct (is_selected s n); split; congruence.
Qed.

Lemma NoDup_snoc (l : list string) (x : string) :
  NoDup l -> ~ In x l -> NoDup (l ++ [x]).
Proof.
  intros Hl Hx. apply NoDup_app. split; [exact Hl|]. split.
  - intros y Hy Hy'. apply list_elem_of_In in Hy. apply list_elem_of_In in Hy'.
    destruct Hy' as [<- | []]. contradiction.
  - apply NoDup_singleton.
Qed.

Lemma liveFields_notify (m : option Message) (t : Severity) (sticky : bool) (s : State) :
  liveFields (notify m t sticky s) = liveFields s.
Proof. reflexivity. Qed.

Lemma addField_fields (field : FieldDesc) (s : State) :
  (selectedFields s < length (fieldArrays s))%nat ->
  liveFields (addField field s) =
    if is_selected s (fd_name field) then liveFields s
    else liveFields s ++ [chosenSpec (Z.of_nat (length (liveFields s)) + 1) field].
Proof.
  intros Hv. unfold addField, is_selected.
  destruct (find (has_name (fd_name field)) (liveFields s)); [reflexivity|].
  unfold showSuccess. rewrite liveFields_notify. now apply liveFields_write.
Qed.

Lemma imap_names (g : nat -> Z) (chosen : list FieldDesc) :
  map name (imap (fun k field => chosenSpec (g k) field) chosen) = map fd_name chosen.
Proof.
  revert g. induction chosen as [|x chosen IH]; intros g; [reflexivity|].
  cbn [imap map]. f_equal. apply (IH (g ∘ S)).
Qed.

Lemma bulkAddConfirm_fields (chosen : list FieldDesc) (now : Z) (s : State) :
  (selectedFields s < length (fieldArrays s))%nat ->
  liveFields (bulkAddConfirm chosen now s) =
    liveFields s ++
      imap (fun k field =>
              chosenSpec (Z.of_nat (length (liveFields s)) + 2 * Z.of_nat k + 1) field) chosen.
Proof.
  intros Hv. unfold bulkAddConfirm, forEach.
  destruct (forEach_pushChosen chosen 0 s Hv) as (Hf & Hl & Hn).
  unfold showSuccess. rewrite liveFields_notify.
  rewrite liveFields_addToHistory by (rewrite Hl, Hn; exact Hv).
  rewrite Hf. f_equal. apply imap_ext. intros k x _. f_equal. lia.
Qed.

Lemma duplicateField_fields (fieldName : string) (now : Z) (s : State) (f : FieldSpec) :
  find (has_name fieldName) (liveFields s) = Some f ->
  liveFields (duplicateField fieldName now s) =
    liveFields s ++
      [{| name := name f; label := label f +:+ " (копія)"; type := type f;
          visible := visible f; sequence := Z.of_nat (length (liveFields s)) + 1;
          format_type := format_type f; aggregation := aggregation f |}].
Proof.
  intros Hf. unfold duplicateField. rewrite Hf.
  assert (selectedFields s < length (fieldArrays s))%nat as Hv.
  { rewrite find_findIndex in Hf. destruct (findIndex _ _) as [i|] eqn:Ei; [|discriminate].
    exact (live_valid_of_index _ _ _ _ Ei). }
  unfold showSuccess. rewrite liveFields_notify.
  rewrite liveFields_addToHistory.
  - now apply liveFields_write.
  - unfold write_selectedFields. cbn [fieldArrays selectedFields set_fieldArrays].
    now rewrite length_insert.
Qed.

Lemma not_NoDup_snoc_in (l : list string) (x : string) : In x l -> ~ NoDup (l ++ [x]).
Proof.
  intros Hin Hnd. apply NoDup_app in Hnd as (_ & Hdis & _).
  apply (Hdis x); [now apply list_elem_of_In | apply list_elem_of_In; now left].
Qed.

(** [addField] keeps the names unique and the reference valid. *)
Lemma addField_unique (field : FieldDesc) (s : State) :
  (selectedFields s < length (fieldArrays s))%nat ->
  NoDup (fieldNames s) ->
  NoDup (fieldNames (addField field s)) /\
  (selectedFields (addField field s) < length (fieldArrays (addField field s)))%nat.
Proof.
  intros Hv Hnd. split.
  - unfold fieldNames. rewrite (addField_fields field s Hv).
    destruct (is_selected s (fd_name field)) eqn:Es; [exact Hnd|].
    apply is_selected_false in Es. rewrite map_app. now apply NoDup_snoc.
  - unfold addField. destruct (find _ _); [exact Hv|].
    unfold showSuccess, notify, write_selectedFields.
    cbn [selectedFields fieldArrays set_log set_fieldArrays].
    now rewrite length_insert.
Qed.

(** Accepting recommendations adds through [addField], so the names stay
    unique whatever is accepted. *)
Lemma acceptRecommendations_unique (fields : list FieldDesc) (s : State) :
  (selectedFields s < length (fieldArrays s))%nat ->
  NoDup (fieldNames s) ->
  NoDup (fieldNames (acceptRecommendations fields s)).
Proof.
  unfold acceptRecommendations, forEach. generalize 0%nat.
  revert s. induction fields as [|field fields IH]; intros s index Hv Hnd; [exact Hnd|].
  cbn [forEach_from]. destruct (addField_unique field s Hv Hnd) as [Hnd' Hv'].
  now apply IH.
Qed.

(** The names of the fields appended by the bulk-add confirmation stay
    unique for a choice with distinct names none of which is selected. *)
Lemma bulkAddConfirm_unique (chosen : list FieldDesc) (now : Z) (s : State) :
  (selectedFields s < length (fieldArrays s))%nat ->
  NoDup (fieldNames s) ->
  NoDup (map fd_name chosen) ->
  (forall f, In f chosen -> ~ In (fd_name f) (fieldNames s)) ->
  NoDup (fieldNames (bulkAddConfirm chosen now s)).
Proof.
  intros Hv Hnd Hc Hdis. unfold fieldNames.
  rewrite (bulkAddConfirm_fields chosen now s Hv), map_app, imap_names.
  apply NoDup_app. split; [exact Hnd|]. split; [|exact Hc].
  intros x Hx Hx'. apply list_elem_of_In in Hx. apply list_elem_of_In in Hx'.
  apply in_map_iff in Hx' as (f & <- & Hf). now apply (Hdis f).
Qed.

(** C4, as the code has it: [addField] and the bulk-add confirmation keep
    the selected field names unique, the first by its own check (it
    appends only when the name is absent, otherwise it warns and leaves
    [selectedFields] as it is), the second for a choice of fields with
    distinct names none of which is selected; [duplicateField] appends a
    copy under the original's name, so that the name then occurs twice. *)
Theorem unique_names_preserved (s : State) :
  (selectedFields s < length (fieldArrays s))%nat ->
  NoDup (fieldNames s) ->
  (forall field,
     NoDup (fieldNames (addField field s)) /\
     (~ In (fd_name field) (fieldNames s) ->
      liveFields (addField field s) =
        liveFields s ++ [chosenSpec (Z.of_nat (length (liveFields s)) + 1) field]) /\
     (In (fd_name field) (fieldNames s) ->
      liveFields (addField field s) = liveFields s /\
      log (addField field s) =
        log s ++ [EvNotify {| n_message := Some MFieldAlreadyAdded; n_type := Warning;
                              n_sticky := false |}])) /\
  (forall chosen now,
     NoDup (map fd_name chosen) ->
     (forall f, In f chosen -> ~ In (fd_name f) (fieldNames s)) ->
     NoDup (fieldNames (bulkAddConfirm chosen now s))) /\
  (forall fieldName now,
     In fieldName (fieldNames s) ->
     fieldNames (duplicateField fieldName now s) = fieldNames s ++ [fieldName] /\
     ~ NoDup (fieldNames (duplicateField fieldName now s))).
Proof.
  intros Hv Hnd. split; [|split].
  - intros field. pose proof (addField_fields field s Hv) as Hf.
    destruct (is_selected s (fd_name field)) eqn:Es.
    + apply is_selected_spec in Es. split; [|split].
      * unfold fieldNames. now rewrite Hf.
      * intros Hno. contradiction.
      * intros _. split; [exact Hf|]. unfold addField.
        apply is_selected_spec in Es. unfold is_selected in Es.
        destruct (find (has_name (fd_name field)) (liveFields s)); [reflexivity | discriminate].
    + apply is_selected_false in Es. split; [|split].
      * unfold fieldNames. rewrite Hf, map_app. now apply NoDup_snoc.
      * intros _. exact Hf.
      * intros Hin. contradiction.
  - intros chosen now Hc Hdis. now apply bulkAddConfirm_unique.
  - intros fieldName now Hin.
    assert (fieldNames (duplicateField fieldName now s) = fieldNames s ++ [fieldName]) as E.
    { pose proof Hin as Hsel. apply is_selected_spec in Hsel. unfold is_selected in Hsel.
      destruct (find (has_name fieldName) (liveFields s)) as [f|] eqn:Ef; [|discriminate].
      unfold fieldNames. rewrite (duplicateField_fields _ now _ _ Ef), map_app.
      cbn [map name]. apply find_some in Ef as [_ Hn]. apply String.eqb_eq in Hn.
      now rewrite Hn. }
    split; [exact E|]. rewrite E. now apply not_NoDup_snoc_in.
Qed.

(** C4 as stated fails for [duplicateField]: the names are unique before
    and [name] occurs twice afterwards. *)
Lemma duplicateField_repeats_name :
  NoDup (fieldNames partnerState) /\
  fieldNames (duplicateField "name" 7 partnerState) = ["name"; "name"] /\
  ~ NoDup (fieldNames (duplicateField "name" 7 partnerState)).
Proof.
  assert (fieldNames partnerState = ["name"]) as E0 by (vm_compute; reflexivity).
  assert (fieldNames (duplicateField "name" 7 partnerState) = ["name"; "name"]) as E1
      by (vm_compute; reflexivity).
  rewrite E0, E1. split; [apply NoDup_singleton|]. split; [reflexivity|].
  intros H. apply NoDup_cons in H as [H _]. apply H. now left.
Qed.

(** ** Restored snapshots share their arrays with the state *)

(** C3 at a concrete input.  After [undo] has restored the first entry,
    the state's [selectedFields] is the array of that entry's snapshot.
    [addField] adds a field to the live [selectedFields]; the log holds the
    same two entries as before, but the fields stored for the first entry
    now include the new field: the stored snapshot has changed with the
    live state. *)
Theorem restored_snapshot_follows_live_state :
  let s' := addField emailField undoneState in
  history s' = history undoneState /\
  length (history undoneState) = 2%nat /\
  historyIndex undoneState = 0 /\
  (snap_selectedFields <$> (h_state <$> history undoneState !! 0%nat))
    = Some (selectedFields undoneState) /\
  (map name <$> storedFields 0 undoneState) = Some ["name"] /\
  (map name <$> storedFields 0 s') = Some ["name"; "email"] /\
  map name (liveFields s') = ["name"; "email"].
Proof. evaluate. Qed.

(** C1 at a concrete input.  In [undoneState] two entries exist and the
    entry under the cursor holds the values of the four collections.  The
    logged action [duplicateField] is performed and [undo] is called: the
    selected fields are not the one field from before the action but the
    two fields from after it.  [redo] then gives the values from after
    the action. *)
Theorem undo_after_restore_keeps_action :
  let before := undoneState in
  let after := duplicateField "name" 30 before in
  let undone := snd (undo after) in
  let redone := snd (redo undone) in
  length (history before) = 2%nat /\
  (contents before <$> (h_state <$> entry_at (historyIndex before) before))
    = Some (liveContents before) /\
  map label (liveFields before) = ["Name"] /\
  map label (liveFields after) = ["Name"; "Name (копія)"] /\
  fst (undo after) = Normal /\
  map label (liveFields undone) = ["Name"; "Name (копія)"] /\
  liveContents redone = liveContents after.
Proof. evaluate. Qed.

(** ** Undo and redo after an action that spares the stored snapshot *)

(** The log after [addToHistory] with a valid cursor: the entries up to
    the cursor, the new entry, and the oldest dropped beyond 50. *)
Lemma addCall_history (s : State) (c : Call) :
  cursor_ok s ->
  history (addCall s c) =
    let pushed := take (Z.to_nat (historyIndex s + 1)) (history s) ++ [entry_of c s] in
    if (50 <? length pushed)%nat then tail pushed else pushed.
Proof.
  intros Hok. rewrite addCall_steps.
  destruct (evict_history (pushEntry (entry_of c s) (truncateFuture (snd (snapshot s)))))
    as [-> _].
  destruct (pushEntry_history (entry_of c s) (truncateFuture (snd (snapshot s)))) as [-> _].
  now rewrite (truncateFuture_history (snd (snapshot s)) Hok).
Qed.

(** After [addToHistory] the cursor is on the new entry and the entry
    that was under the cursor is right before it. *)
Lemma addCall_last_two (s : State) (c : Call) (e : HistoryEntry) :
  cursor_ok s -> entry_at (historyIndex s) s = Some e ->
  0 < historyIndex (addCall s c) /\
  entry_at (historyIndex (addCall s c)) (addCall s c) = Some (entry_of c s) /\
  entry_at (historyIndex (addCall s c) - 1) (addCall s c) = Some e.
Proof.
  intros Hok He. pose proof (addCall_cursor_last s c) as Hidx.
  pose proof (addCall_history s c Hok) as Hh. cbv zeta in Hh.
  unfold entry_at in He. destruct (Z.ltb_spec (historyIndex s) 0) as [|Hpos]; [discriminate|].
  pose proof (lookup_lt_Some _ _ _ He) as Hlt.
  set (n := Z.to_nat (historyIndex s)) in *.
  replace (Z.to_nat (historyIndex s + 1)) with (S n) in Hh by lia.
  assert (length (take (S n) (history s)) = S n) as Hlen by (rewrite length_take; lia).
  assert ((take (S n) (history s) ++ [entry_of c s]) !! n = Some e) as Hn.
  { rewrite lookup_app_l by lia. rewrite lookup_take_lt by lia. exact He. }
  assert ((take (S n) (history s) ++ [entry_of c s]) !! S n = Some (entry_of c s)) as HSn.
  { rewrite lookup_app_r by lia. rewrite Hlen, Nat.sub_diag. reflexivity. }
  unfold entry_at. rewrite Hidx, Hh, length_snoc, Hlen.
  destruct (Nat.ltb_spec 50 (S (S n))) as [Hfull|Hroom].
  - assert (length (tail (take (S n) (history s) ++ [entry_of c s])) = S n) as Ht.
    { destruct (take (S n) (history s)); simpl in *; [lia | rewrite length_snoc; lia]. }
    rewrite Ht.
    destruct (Z.ltb_spec (Z.of_nat (S n) - 1) 0); [lia|].
    destruct (Z.ltb_spec (Z.of_nat (S n) - 1 - 1) 0); [lia|].
    rewrite !lookup_tail.
    replace (S (Z.to_nat (Z.of_nat (S n) - 1))) with (S n) by lia.
    replace (S (Z.to_nat (Z.of_nat (S n) - 1 - 1))) with n by lia.
    split; [lia | auto].
  - rewrite length_snoc, Hlen.
    destruct (Z.ltb_spec (Z.of_nat (S (S n)) - 1) 0); [lia|].
    destruct (Z.ltb_spec (Z.of_nat (S (S n)) - 1 - 1) 0); [lia|].
    replace (Z.to_nat (Z.of_nat (S (S n)) - 1)) with (S n) by lia.
    replace (Z.to_nat (Z.of_nat (S (S n)) - 1 - 1)) with n by lia.
    split; [lia | auto].
Qed.

(** What [undo] does when the entry before the cursor is [e]. *)
Lemma undo_to (s : State) (e : HistoryEntry) :
  0 < historyIndex s -> entry_at (historyIndex s - 1) s = Some e ->
  undo s = (Normal, showInfo MUndone (restoreState (h_state e) (set_historyIndex (historyIndex s - 1) s))).
Proof.
  intros Hpos He. unfold undo.
  destruct (Z.ltb_spec 0 (historyIndex s)); [|lia].
  change (entry_at _ (set_historyIndex (historyIndex s - 1) s))
    with (entry_at (historyIndex s - 1) s).
  now rewrite He.
Qed.

(** What [redo] does when the entry after the cursor is [e]. *)
Lemma redo_to (s : State) (e : HistoryEntry) :
  historyIndex s < Z.of_nat (length (history s)) - 1 ->
  entry_at (historyIndex s + 1) s = Some e ->
  redo s = (Normal, showInfo MRedone (restoreState (h_state e) (set_historyIndex (historyIndex s + 1) s))).
Proof.
  intros Hlt He. unfold redo.
  destruct (Z.ltb_spec (historyIndex s) (Z.of_nat (length (history s)) - 1)); [|lia].
  change (entry_at _ (set_historyIndex (historyIndex s + 1) s))
    with (entry_at (historyIndex s + 1) s).
  now rewrite He.
Qed.

(** The state [restoreState] and the notification leave. *)
Lemma restore_frame (msg : Message) (r : Snapshot) (i : Z) (s : State) :
  let s' := showInfo msg (restoreState r (set_historyIndex i s)) in
  historyIndex s' = i /\ history s' = history s /\
  liveContents s' = contents s r /\ (forall r', contents s' r' = contents s r').
Proof. cbv zeta. repeat split. Qed.

(** The copy taken by [addToHistory] holds the values of the four
    collections at the time of the call. *)
Lemma contents_new_entry (s : State) (c : Call) :
  contents (addCall s c) (h_state (entry_of c s)) = liveContents s.
Proof.
  destruct (addCall_frame s c) as (Hf & Hq & Hg & Hs & _).
  unfold contents. rewrite Hf, Hq, Hg, Hs.
  destruct (snapshot_spec s) as (Hcopy & _).
  unfold entry_of. cbn [h_state]. rewrite Hcopy. cbn [snap_selectedFields snap_filters snap_groups snap_sorts].
  now rewrite !read_alloc_new.
Qed.

(** The round trip of C1 where it holds.  [s] is the state before the
    action, whose cursor is on an entry [e] holding the values of the
    four collections; [m] is the state after the action's own changes,
    which left the log alone and did not write into the arrays of [e];
    the action then calls [addToHistory].  [undo] gives the values of
    [s], and [redo] the values after the action. *)
Lemma undo_redo_roundtrip (s m : State) (c : Call) (e : HistoryEntry) :
  cursor_ok s -> entry_at (historyIndex s) s = Some e ->
  contents s (h_state e) = liveContents s ->
  history m = history s -> historyIndex m = historyIndex s ->
  valid_refs m (h_state e) -> valid_refs m (liveRefs m) ->
  contents m (h_state e) = contents s (h_state e) ->
  let after := addCall m c in
  let undone := snd (undo after) in
  let redone := snd (redo undone) in
  liveContents after = liveContents m /\
  fst (undo after) = Normal /\ liveContents undone = liveContents s /\
  fst (redo undone) = Normal /\ liveContents redone = liveContents after.
Proof.
  intros Hok He Htracks Hh Hi Hve Hvl Hspared. cbv zeta.
  assert (cursor_ok m) as Hokm by (unfold cursor_ok; now rewrite Hh, Hi).
  assert (entry_at (historyIndex m) m = Some e) as Hem
      by (unfold entry_at; rewrite Hh, Hi; exact He).
  destruct (addCall_last_two m c e Hokm Hem) as (Hpos & Hnew & Hprev).
  pose proof (addCall_cursor_last m c) as Hlast.
  pose proof (liveContents_addCall m c Hvl) as Hlive.
  pose proof (contents_addCall m c _ Hve) as Hold.
  pose proof (contents_new_entry m c) as Hcopy.
  generalize dependent (addCall m c). intros after Hpos Hnew Hprev Hlast Hlive Hold Hcopy.
  rewrite (undo_to _ _ Hpos Hprev). cbn [fst snd].
  destruct (restore_frame MUndone (h_state e) (historyIndex after - 1) after)
    as (Hiu & Hhu & Hlu & Hcu).
  generalize dependent (showInfo MUndone
    (restoreState (h_state e) (set_historyIndex (historyIndex after - 1) after))).
  intros undone Hiu Hhu Hlu Hcu.
  assert (entry_at (historyIndex undone + 1) undone = Some (entry_of c m)) as Hnext.
  { unfold entry_at. rewrite Hiu, Hhu.
    replace (historyIndex after - 1 + 1) with (historyIndex after) by lia.
    exact Hnew. }
  rewrite (redo_to undone _ ltac:(rewrite Hiu, Hhu; lia) Hnext). cbn [fst snd].
  destruct (restore_frame MRedone (h_state (entry_of c m)) (historyIndex undone + 1) undone)
    as (_ & _ & Hlr & _).
  split; [exact Hlive|]. split; [reflexivity|]. split; [|split; [reflexivity|]].
  - rewrite Hlu, Hold. congruence.
  - rewrite Hlr, Hcu, Hcopy. now rewrite Hlive.
Qed.

(** Right after [addToHistory] the new snapshot shares no array with the
    state: writing to the four collections leaves its contents alone. *)
Lemma new_snapshot_unshared (s : State) (c : Call)
    (a1 : list FieldSpec) (a2 : list FilterSpec) (a3 : list GroupSpec) (a4 : list SortSpec) :
  valid_refs s (liveRefs s) ->
  let s' := addCall s c in
  let r := h_state (entry_of c s) in
  contents (write_sorts a4 (write_groups a3 (write_filters a2 (write_selectedFields a1 s')))) r
  = contents s' r.
Proof.
  intros (H1 & H2 & H3 & H4). cbv zeta.
  destruct (addCall_frame s c) as (_ & _ & _ & _ & Hr & _).
  destruct (snapshot_spec s) as (Hcopy & _).
  unfold entry_of. cbn [h_state]. rewrite Hcopy.
  generalize dependent (addCall s c). intros s' Hr.
  unfold liveRefs in *. injection Hr as Hr1 Hr2 Hr3 Hr4.
  cbn [snap_selectedFields snap_filters snap_groups snap_sorts] in *.
  unfold contents, write_sorts, write_groups, write_filters, write_selectedFields.
  cbn [fieldArrays filterArrays groupArrays sortArrays selectedFields filters groups sorts
       set_fieldArrays set_filterArrays set_groupArrays set_sortArrays
       snap_selectedFields snap_filters snap_groups snap_sorts].
  rewrite Hr1, Hr2, Hr3, Hr4.
  rewrite !read_write_ne by lia. reflexivity.
Qed.

(** The round trip at a concrete input: the first logged action is the
    bulk-add of [name]; the second action pushes a copy of the field and
    calls [addToHistory].  Nothing was restored before, so the first
    entry's arrays are not those of the state, and [undo] and [redo] give
    the values before and after the second action. *)
Example undo_redo_roundtrip_first_actions :
  duplicateField "name" 20 firstLogged
    = showSuccess (Some MFieldDuplicated) (addCall copyPushed duplicateCall) /\
  map name (liveFields firstLogged) = ["name"] /\
  map name (liveFields (addCall copyPushed duplicateCall)) = ["name"; "name"] /\
  liveContents (snd (undo (addCall copyPushed duplicateCall))) = liveContents firstLogged /\
  liveContents (snd (redo (snd (undo (addCall copyPushed duplicateCall)))))
    = liveContents (addCall copyPushed duplicateCall).
Proof.
  assert (cursor_ok firstLogged) as Hok
      by (unfold cursor_ok; vm_compute; intuition discriminate).
  assert (entry_at (historyIndex firstLogged) firstLogged = Some firstEntry) as He
      by (vm_compute; reflexivity).
  assert (contents firstLogged (h_state firstEntry) = liveContents firstLogged) as Htracks
      by (vm_compute; reflexivity).
  assert (history copyPushed = history firstLogged) as Hh by (vm_compute; reflexivity).
  assert (historyIndex copyPushed = historyIndex firstLogged) as Hi
      by (vm_compute; reflexivity).
  assert (valid_refs copyPushed (h_state firstEntry)) as Hve by (vm_compute; lia).
  assert (valid_refs copyPushed (liveRefs copyPushed)) as Hvl by (vm_compute; lia).
  assert (contents copyPushed (h_state firstEntry) = contents firstLogged (h_state firstEntry))
    as Hspared by (vm_compute; reflexivity).
  destruct (undo_redo_roundtrip firstLogged copyPushed duplicateCall firstEntry
              Hok He Htracks Hh Hi Hve Hvl Hspared) as (_ & _ & Hu & _ & Hr).
  split; [vm_compute; reflexivity|].
  split; [vm_compute; reflexivity|]. split; [vm_compute; reflexivity|].
  split; [exact Hu | exact Hr].
Qed.

(** ** No reference dangles *)

Lemma valid_refs_grow (s s' : State) (r : Snapshot) :
  stores_grow s s' -> valid_refs s r -> valid_refs s' r.
Proof. unfold stores_grow, valid_refs. lia. Qed.

Lemma wf_initial : wf initialState.
Proof. split; [repeat split; simpl; lia | constructor]. Qed.

(** A step that keeps the references of the state valid, lets the
    stores grow and keeps or shortens the log keeps the state well
    formed. *)
Lemma wf_step (s s' : State) :
  wf s -> stores_grow s s' -> valid_refs s' (liveRefs s') ->
  (forall e, In e (history s') -> In e (history s) \/ valid_refs s' (h_state e)) ->
  wf s'.
Proof.
  intros [_ Hh] Hg Hl Hsub. split; [exact Hl|].
  apply Forall_forall. intros e He. apply list_elem_of_In in He.
  destruct (Hsub e He) as [Hold | Hnew]; [|exact Hnew].
  apply (valid_refs_grow s s' _ Hg).
  rewrite Forall_forall in Hh. apply Hh. now apply list_elem_of_In.
Qed.

Lemma wf_write_selectedFields (a : list FieldSpec) (s : State) :
  wf s -> wf (write_selectedFields a s).
Proof.
  intros Hwf. apply (wf_step s); [exact Hwf | | | ].
  - unfold stores_grow, write_selectedFields. cbn. rewrite length_insert. lia.
  - destruct Hwf as [Hl _]. unfold valid_refs, write_selectedFields in *. cbn in *.
    rewrite length_insert. exact Hl.
  - intros e He. now left.
Qed.

Lemma wf_notify (m : option Message) (t : Severity) (sticky : bool) (s : State) :
  wf s -> wf (notify m t sticky s).
Proof. intros Hwf. exact Hwf. Qed.

Lemma in_tail {A} (x : A) (l : list A) : In x (tail l) -> In x l.
Proof. destruct l; simpl; auto. Qed.

Lemma wf_addCall (s : State) (c : Call) : wf s -> wf (addCall s c).
Proof.
  intros Hwf. pose proof Hwf as [Hl _].
  destruct (addCall_frame s c) as (Hf & Hq & Hg & Hs & Hr & _).
  assert (stores_grow s (addCall s c)) as Hgrow.
  { unfold stores_grow. rewrite Hf, Hq, Hg, Hs, !length_snoc. lia. }
  apply (wf_step s); [exact Hwf | exact Hgrow | | ].
  - rewrite Hr. exact (valid_refs_grow _ _ _ Hgrow Hl).
  - intros e He. rewrite addCall_steps in He.
    destruct (evict_history (pushEntry (entry_of c s) (truncateFuture (snd (snapshot s)))))
      as [Hev _].
    assert (In e (history (pushEntry (entry_of c s) (truncateFuture (snd (snapshot s))))))
      as Hin.
    { rewrite Hev in He. destruct (50 <? _)%nat; [now apply in_tail | exact He]. }
    destruct (pushEntry_history (entry_of c s) (truncateFuture (snd (snapshot s)))) as [Hp _].
    rewrite Hp in Hin. apply in_app_or in Hin as [Hin | [<- | []]].
    + left. unfold truncateFuture in Hin.
      destruct (historyIndex (snd (snapshot s)) <? _); [|exact Hin].
      cbn [history set_history] in Hin. unfold slice0 in Hin.
      apply list_elem_of_In in Hin. apply list_elem_of_In.
      apply elem_of_take in Hin as (k & Hk & _).
      apply list_elem_of_lookup. eauto.
    + right. destruct (snapshot_spec s) as (Hcopy & _).
      unfold entry_of. cbn [h_state]. rewrite Hcopy.
      unfold valid_refs. cbn [snap_selectedFields snap_filters snap_groups snap_sorts].
      rewrite Hf, Hq, Hg, Hs, !length_snoc. lia.
Qed.

Lemma wf_undo (s : State) : cursor_ok s -> wf s -> wf (snd (undo s)).
Proof.
  intros Hok Hwf. destruct (undo_frame s Hok) as (_ & Hsame & _ & Hmove).
  destruct Hsame as (Hh & Hf & Hq & Hg & Hs).
  apply (wf_step s); [exact Hwf | | | ].
  - unfold stores_grow. rewrite Hf, Hq, Hg, Hs. lia.
  - assert (stores_grow s (snd (undo s))) as Hgrow
        by (unfold stores_grow; rewrite Hf, Hq, Hg, Hs; lia).
    apply (valid_refs_grow s _ _ Hgrow).
    destruct Hwf as [Hl Hall].
    destruct Hmove as [(e & He & _ & ->) | (_ & _ & ->)]; [|exact Hl].
    rewrite Forall_forall in Hall. apply Hall.
    unfold entry_at in He. destruct (historyIndex s + -1 <? 0); [discriminate|].
    apply list_elem_of_lookup. eauto.
  - intros e He. left. now rewrite <- Hh.
Qed.

Lemma wf_redo (s : State) : cursor_ok s -> wf s -> wf (snd (redo s)).
Proof.
  intros Hok Hwf. destruct (redo_frame s Hok) as (_ & Hsame & _ & Hmove).
  destruct Hsame as (Hh & Hf & Hq & Hg & Hs).
  apply (wf_step s); [exact Hwf | | | ].
  - unfold stores_grow. rewrite Hf, Hq, Hg, Hs. lia.
  - assert (stores_grow s (snd (redo s))) as Hgrow
        by (unfold stores_grow; rewrite Hf, Hq, Hg, Hs; lia).
    apply (valid_refs_grow s _ _ Hgrow).
    destruct Hwf as [Hl Hall].
    destruct Hmove as [(e & He & _ & ->) | (_ & _ & ->)]; [|exact Hl].
    rewrite Forall_forall in Hall. apply Hall.
    unfold entry_at in He. destruct (historyIndex s + 1 <? 0); [discriminate|].
    apply list_elem_of_lookup. eauto.
  - intros e He. left. now rewrite <- Hh.
Qed.

(** ** The choice made in the bulk selection dialog *)

Lemma filter_sublist {A} (p : A -> bool) (l : list A) : List.filter p l `sublist_of` l.
Proof.
  induction l as [|x l IH]; simpl; [constructor|].
  destruct (p x); now constructor.
Qed.






(** ** Instances of the theorems at concrete inputs *)

(** Fifty-one calls on the log of the component as set up. *)
Lemma history_capacity_witness :
  history initialState = [] /\ historyIndex initialState = -1 /\
  logged initialState calls51 (run calls51 initialState) /\
  (length (history (run calls51 initialState)) <= 50)%nat /\
  historyIndex (run calls51 initialState)
    = Z.of_nat (length (history (run calls51 initialState))) - 1 /\
  map call_of (history (run calls51 initialState)) = drop (length calls51 - 50) calls51.
Proof.
  pose proof (logged_run calls51 initialState) as Hlog.
  destruct (history_capacity initialState _ calls51 eq_refl eq_refl Hlog)
    as (Hcap & Hidx & Hmap & _).
  auto 10.
Defined.

(** [undo] and [redo] in a state with two entries and the cursor on the
    first. *)
Lemma undo_redo_frame_witness :
  cursor_ok undoneState /\
  same_log_and_store undoneState (snd (redo undoneState)) /\
  cursor_move 1 undoneState (snd (redo undoneState)) /\
  same_log_and_store undoneState (snd (undo undoneState)) /\
  cursor_move (-1) undoneState (snd (undo undoneState)).
Proof.
  assert (cursor_ok undoneState) as Hok by (unfold cursor_ok; vm_compute; intuition discriminate).
  destruct (undo_redo_frame undoneState) as [(Hu & _ & Hum) (Hr & _ & Hrm)].
  destruct (Hum Hok) as [_ Hum']. destruct (Hrm Hok) as [_ Hrm'].
  auto.
Defined.

(** A second cached execution; the ORM and the RPC would both fail if
    they were called. *)
Lemma cache_hit_witness :
  cachedResults cachedState !! generateCacheKey cachedState
    = Some (JArr [JObj [("name", JStr "Ann")]]) /\
  generateCacheKey cachedState = generateCacheKey (set_previewMode true cachedState) /\
  (let s' := executeWithCache (Rejected ENull) (Rejected ENull) 200 230 cachedState in
   reportData s' = JArr [JObj [("name", JStr "Ann")]] /\
   reportCount s' = 1 /\
   log s' = log cachedState ++
     [EvNotify {| n_message := Some MLoadedFromCache; n_type := Info; n_sticky := false |}]).
Proof.
  assert (cachedResults cachedState !! generateCacheKey cachedState
          = Some (JArr [JObj [("name", JStr "Ann")]])) as Hhit by (vm_compute; reflexivity).
  destruct (cache_hit cachedState) as [Hkey Hrun].
  split; [exact Hhit|]. split.
  - apply Hkey; vm_compute; reflexivity.
  - destruct (Hrun _ (Rejected ENull) (Rejected ENull) 200 230 Hhit) as (H1 & H2 & H3 & _).
    cbv zeta. split; [exact H1|]. split; [exact H2 | exact H3].
Defined.

(** Two selected fields, [name] and [email], and the four kinds of move. *)
Lemma moveField_spec_witness :
  findIndex (has_name "email") (liveFields twoFields) = Some 1%nat /\
  (let s' := moveField "email" "up" twoFields in
   length (liveFields s') = length (liveFields twoFields) /\
   (forall k, liveFields s' !! k =
              set_sequence (Z.of_nat k + 1) <$> liveFields twoFields !! transpose 1 0 k) /\
   (forall k f, liveFields s' !! k = Some f -> sequence f = Z.of_nat k + 1)) /\
  moveField "name" "up" twoFields = twoFields /\
  moveField "email" "down" twoFields = twoFields /\
  moveField "phone" "up" twoFields = twoFields.
Proof.
  assert (findIndex (has_name "email") (liveFields twoFields) = Some 1%nat) as Hi
      by (vm_compute; reflexivity).
  assert (findIndex (has_name "name") (liveFields twoFields) = Some 0%nat) as Hn
      by (vm_compute; reflexivity).
  assert (S 1 = length (liveFields twoFields)) as Hlast by (vm_compute; reflexivity).
  assert (forall f, In f (liveFields twoFields) -> name f <> "phone") as Habs.
  { assert (map name (liveFields twoFields) = ["name"; "email"]) as E
        by (vm_compute; reflexivity).
    intros f Hf Hn'. apply (in_map name) in Hf.
    rewrite E, Hn' in Hf. destruct Hf as [Hf | [Hf | []]]; discriminate. }
  assert ("down" <> "up") as Hdown by discriminate.
  destruct (moveField_spec "email" "up" twoFields) as [_ Hup].
  destruct (Hup 1%nat Hi) as (_ & _ & Hmove).
  destruct (moveField_spec "name" "up" twoFields) as [_ Hfirst].
  destruct (Hfirst 0%nat Hn) as (Hfirst' & _).
  destruct (moveField_spec "email" "down" twoFields) as [_ Hdn].
  destruct (Hdn 1%nat Hi) as (_ & Hdn' & _).
  destruct (moveField_spec "phone" "up" twoFields) as [Hmiss _].
  split; [exact Hi|]. split; [exact (Hmove 0%nat (or_introl (conj eq_refl eq_refl)))|].
  split; [exact (Hfirst' eq_refl eq_refl)|]. split; [exact (Hdn' Hdown Hlast)|].
  exact (Hmiss Habs).
Defined.

(** The three field-adding operations on the contact state. *)
Lemma unique_names_preserved_witness :
  (selectedFields partnerState < length (fieldArrays partnerState))%nat /\
  NoDup (fieldNames partnerState) /\
  NoDup (fieldNames (addField nameField partnerState)) /\
  NoDup (fieldNames (addField emailField partnerState)) /\
  NoDup (fieldNames (bulkAddConfirm [emailField; totalField] 5 partnerState)) /\
  fieldNames (duplicateField "name" 7 partnerState) = fieldNames partnerState ++ ["name"].
Proof.
  assert (selectedFields partnerState < length (fieldArrays partnerState))%nat as Hv
      by (vm_compute; lia).
  assert (NoDup (fieldNames partnerState)) as Hnd
      by (vm_compute; apply NoDup_singleton).
  destruct (unique_names_preserved partnerState Hv Hnd) as (Hadd & Hbulk & Hdup).
  split; [exact Hv|]. split; [exact Hnd|].
  split; [apply Hadd|]. split; [apply Hadd|]. split.
  - apply Hbulk.
    + vm_compute. apply NoDup_cons. split; [|apply NoDup_singleton].
      intros H. apply list_elem_of_In in H. destruct H as [H | []]. discriminate.
    + assert (fieldNames partnerState = ["name"]) as E by (vm_compute; reflexivity).
      rewrite E. intros f [<- | [<- | []]] [H | []]; discriminate.
  - apply Hdup. vm_compute. now left.
Defined.


(** * Further properties of the handlers *)

(** ** Removing a field *)

Lemma liveFields_valid_lookup (s : State) (i : nat) (x : FieldSpec) :
  liveFields s !! i = Some x -> (selectedFields s < length (fieldArrays s))%nat.
Proof. apply read_some_valid. Qed.

(** [removeField] at the index [findIndex] gives. *)
Lemma removeField_at (fieldName : string) (s : State) (i : nat) :
  findIndex (has_name fieldName) (liveFields s) = Some i ->
  exists removed,
    liveFields s !! i = Some removed /\ name removed = fieldName /\
    removeField fieldName s
      = showInfo (MFieldRemoved (label removed))
          (write_selectedFields (delete i (liveFields s)) s) /\
    liveFields (removeField fieldName s) = delete i (liveFields s).
Proof.
  intros Hi. pose proof Hi as Hi'.
  apply findIndex_Some in Hi' as [(x & Hx & Hp) _].
  exists x. split; [exact Hx|]. split; [now apply String.eqb_eq in Hp|].
  assert (removeField fieldName s
          = showInfo (MFieldRemoved (label x))
              (write_selectedFields (delete i (liveFields s)) s)) as E.
  { unfold removeField. now rewrite Hi, Hx. }
  split; [exact E|]. rewrite E. unfold showInfo. rewrite liveFields_notify.
  apply liveFields_write. exact (liveFields_valid_lookup _ _ _ Hx).
Qed.

(** X1: [removeField] does nothing at all when no selected field has the
    name.  Otherwise it takes out the first field with that name and only
    that one: the fields before it and after it stay, in order and with
    the sequence numbers they had, and the removed field's label is
    shown. *)
Theorem removeField_spec (fieldName : string) (s : State) :
  ((forall f, In f (liveFields s) -> name f <> fieldName) ->
   removeField fieldName s = s) /\
  (forall i, findIndex (has_name fieldName) (liveFields s) = Some i ->
     exists removed,
       liveFields s !! i = Some removed /\ name removed = fieldName /\
       liveFields (removeField fieldName s)
         = take i (liveFields s) ++ drop (S i) (liveFields s) /\
       length (liveFields (removeField fieldName s)) = pred (length (liveFields s)) /\
       log (removeField fieldName s)
         = log s ++ [EvNotify {| n_message := Some (MFieldRemoved (label removed));
                                 n_type := Info; n_sticky := false |}]).
Proof.
  split.
  - intros Habs. unfold removeField.
    assert (findIndex (has_name fieldName) (liveFields s) = None) as ->; [|reflexivity].
    apply findIndex_None. intros f Hf. apply String.eqb_neq. now apply Habs.
  - intros i Hi. destruct (removeField_at fieldName s i Hi) as (x & Hx & Hn & E & Hl).
    exists x. split; [exact Hx|]. split; [exact Hn|]. split; [|split].
    + rewrite Hl. apply delete_take_drop.
    + rewrite Hl. rewrite length_delete by eauto. lia.
    + rewrite E. reflexivity.
Qed.

Lemma findIndex_app_new {A} (p : A -> bool) (l : list A) (x : A) :
  (forall y, In y l -> p y = false) -> p x = true ->
  findIndex p (l ++ [x]) = Some (length l).
Proof.
  intros Hl Hx. induction l as [|a l IH]; simpl.
  - now rewrite Hx.
  - rewrite (Hl a) by now left. rewrite IH; [reflexivity|].
    intros y Hy. apply Hl. now right.
Qed.

Lemma delete_snoc {A} (l : list A) (x : A) : delete (length l) (l ++ [x]) = l.
Proof. induction l as [|a l IH]; simpl; [reflexivity | now rewrite IH]. Qed.

(** X2: adding a field that is not selected and removing it again gives
    back the selected fields as they were.  When a field of that name is
    already selected, [addField] adds nothing and [removeField] then takes
    out the field that was there. *)
Theorem addField_then_removeField (field : FieldDesc) (s : State) :
  (selectedFields s < length (fieldArrays s))%nat ->
  (~ In (fd_name field) (fieldNames s) ->
   liveFields (removeField (fd_name field) (addField field s)) = liveFields s) /\
  (forall i, findIndex (has_name (fd_name field)) (liveFields s) = Some i ->
   liveFields (removeField (fd_name field) (addField field s)) = delete i (liveFields s)).
Proof.
  intros Hv. pose proof (addField_fields field s Hv) as Hadd. split.
  - intros Hnew. apply is_selected_false in Hnew. rewrite Hnew in Hadd.
    assert (findIndex (has_name (fd_name field)) (liveFields (addField field s))
            = Some (length (liveFields s))) as Hi.
    { rewrite Hadd. apply findIndex_app_new.
      - intros y Hy. apply String.eqb_neq. intros Hn.
        apply is_selected_false in Hnew. apply Hnew. unfold fieldNames.
        apply in_map_iff. eauto.
      - apply String.eqb_refl. }
    destruct (removeField_at _ _ _ Hi) as (_ & _ & _ & _ & ->).
    rewrite Hadd. apply delete_snoc.
  - intros i Hi.
    assert (is_selected s (fd_name field) = true) as Hsel.
    { unfold is_selected. rewrite find_findIndex, Hi. simpl.
      apply findIndex_Some in Hi as [(x & -> & _) _]. reflexivity. }
    rewrite Hsel in Hadd.
    assert (findIndex (has_name (fd_name field)) (liveFields (addField field s)) = Some i)
      as Hi' by (now rewrite Hadd).
    destruct (removeField_at _ _ _ Hi') as (_ & _ & _ & _ & ->). now rewrite Hadd.
Qed.

(** ** The lines sent for the fields *)

Lemma fieldLine_sequences (l : list FieldSpec) (k : nat) :
  map fl_sequence (imap (fun index => fieldLine (k + index)) l)
  = map Z.of_nat (seq (S k) (length l)).
Proof.
  revert k. induction l as [|x l IH]; intros k; [reflexivity|].
  cbn [imap map length seq]. f_equal.
  - cbn. lia.
  - rewrite <- (IH (S k)). f_equal. apply imap_ext. intros i y _. cbn.
    now replace (k + S i)%nat with (S k + i)%nat by lia.
Qed.

Lemma fieldLine_names (l : list FieldSpec) (k : nat) :
  map fl_field_name (imap (fun index => fieldLine (k + index)) l) = map name l.
Proof.
  revert k. induction l as [|x l IH]; intros k; [reflexivity|].
  cbn [imap map]. f_equal. rewrite <- (IH (S k)). f_equal.
  apply imap_ext. intros i y _. cbn.
  now replace (k + S i)%nat with (S k + i)%nat by lia.
Qed.

Lemma fieldLine_ignores_sequence (l1 l2 : list FieldSpec) (k : nat) :
  map (set_sequence 0) l1 = map (set_sequence 0) l2 ->
  imap (fun index => fieldLine (k + index)) l1
  = imap (fun index => fieldLine (k + index)) l2.
Proof.
  intros H.
  assert (forall l, imap (fun index => fieldLine (k + index)) l
                    = imap (fun index => fieldLine (k + index)) (map (set_sequence 0) l)) as E.
  { intros l. change (map (set_sequence 0) l) with (set_sequence 0 <$> l).
    rewrite imap_fmap. apply imap_ext. reflexivity. }
  now rewrite (E l1), (E l2), H.
Qed.

(** X3: [prepareFields] numbers the lines by position, 1 to n, and takes
    everything else from the fields in order; the [sequence] stored in a
    field is not read.  Two states whose fields differ only in their
    stored sequences give the same lines. *)
Theorem prepareFields_by_position (s : State) :
  map fl_sequence (prepareFields s) = map Z.of_nat (seq 1 (length (liveFields s))) /\
  map fl_field_name (prepareFields s) = map name (liveFields s) /\
  (forall s2,
     map (set_sequence 0) (liveFields s) = map (set_sequence 0) (liveFields s2) ->
     prepareFields s = prepareFields s2).
Proof.
  assert (forall t, prepareFields t = imap (fun index => fieldLine (0 + index)) (liveFields t))
    as E by reflexivity.
  split; [|split].
  - rewrite E. apply fieldLine_sequences.
  - rewrite E. apply fieldLine_names.
  - intros s2 H. rewrite !E. now apply fieldLine_ignores_sequence.
Qed.

(** ** Executing the report *)

Lemma validate_true (s : State) :
  fst (validateReportSettings s) = true ->
  collectErrors s = [] /\ snd (validateReportSettings s) = set_errors [] s /\
  exists m, selectedModel s = Some m.
Proof.
  unfold validateReportSettings. cbn [errors set_errors].
  destruct (collectErrors s) as [|e l] eqn:E; simpl; [|discriminate].
  intros _. split; [reflexivity|]. split; [reflexivity|].
  unfold collectErrors in E. destruct (selectedModel s) as [m|]; [eauto|].
  destruct (length (liveFields s) =? 0)%nat, (0 <? length _)%nat; discriminate.
Qed.

Lemma validate_false (s : State) :
  fst (validateReportSettings s) = false ->
  collectErrors s <> [] /\
  snd (validateReportSettings s)
    = showError MFixErrors (EText (MJoin (collectErrors s))) (set_errors (collectErrors s) s).
Proof.
  unfold validateReportSettings. cbn [errors set_errors].
  destruct (collectErrors s) as [|e l] eqn:E; simpl; [discriminate|].
  intros _. split; [discriminate | reflexivity].
Qed.

(** The state [executeReport] returns for valid settings. *)
Lemma executeReport_run (create : Outcome Z) (rpc : Outcome ExecResult) (s : State) (m : Model) :
  fst (validateReportSettings s) = true -> selectedModel s = Some m ->
  executeReport create rpc s =
    let s1 := set_log (log s ++ [EvOrmCreate (tempReport m s)])
                (set_errors [] (set_loading true (set_errors [] s))) in
    set_loading false
      match create with
      | Rejected error => showError MExecError error s1
      | Resolved reportId =>
          let s2 := set_log (log s1 ++ [executionRequest reportId s]) s1 in
          match rpc with
          | Rejected error => showError MExecError error s2
          | Resolved result =>
              if er_success result then
                set_currentStep 4
                  (showSuccess (MServer <$> er_message result)
                     (set_reportCount (er_count result)
                        (set_reportData (er_data result) s2)))
              else showError MExecError (newError (er_error result)) s2
          end
      end.
Proof.
  intros Hok Hm. destruct (validate_true s Hok) as (_ & Hs0 & _).
  unfold executeReport. destruct (validateReportSettings s) as [ok s0].
  cbn in Hok, Hs0. subst ok s0. cbn [negb].
  unfold createTempReport. cbn [selectedModel set_errors set_loading]. rewrite Hm.
  destruct create as [reportId|error]; [|reflexivity].
  destruct rpc as [result|error]; [|reflexivity].
  destruct (er_success result); reflexivity.
Qed.

(** [executeReport] never touches the report definition, the models,
    the history, the store or the cache. *)
Lemma executeReport_frame (create : Outcome Z) (rpc : Outcome ExecResult) (s : State) :
  definition_untouched s (executeReport create rpc s).
Proof.
  destruct (fst (validateReportSettings s)) eqn:Hok.
  - destruct (validate_true s Hok) as (_ & _ & m & Hm).
    rewrite (executeReport_run create rpc s m Hok Hm). cbv zeta.
    destruct create as [reportId|error]; [destruct rpc as [result|error]|];
      [destruct (er_success result)| |]; repeat split.
  - destruct (validate_false s Hok) as [_ Hs0].
    unfold executeReport. destruct (validateReportSettings s) as [ok s0].
    cbn in Hok, Hs0. subst ok s0. cbn [negb]. repeat split.
Qed.

(** X4: the outcomes of [executeReport].  With invalid settings nothing
    is sent: the errors are stored and shown and the rest of the state,
    [loading] included, is as before.  With valid settings the temporary
    report is created first; the execution request follows only when the
    creation succeeded and carries the prepared filters and the limit 100
    exactly in preview mode.  Only a successful answer changes
    [reportData], [reportCount] and the step (to 4); every failure shows
    one sticky error and leaves the earlier results in place.  [loading]
    is [false] after every run; the report definition, the history and
    the cache are never touched. *)
Theorem executeReport_outcomes (create : Outcome Z) (rpc : Outcome ExecResult) (s : State) :
  let s' := executeReport create rpc s in
  definition_untouched s s' /\
  (fst (validateReportSettings s) = false ->
   loading s' = loading s /\ report_untouched s s' /\
   errors s' = collectErrors s /\ errors s' <> [] /\
   log s' = log s ++ [failure (Some (MJoin (collectErrors s)))]) /\
  (fst (validateReportSettings s) = true ->
   loading s' = false /\ errors s' = [] /\
   exists m, selectedModel s = Some m /\
     match create, rpc with
     | Rejected error, _ =>
         report_untouched s s' /\
         log s' = log s ++ [EvOrmCreate (tempReport m s); failure (shown MExecError error)]
     | Resolved reportId, Rejected error =>
         report_untouched s s' /\
         log s' = log s ++ [EvOrmCreate (tempReport m s); executionRequest reportId s;
                            failure (shown MExecError error)]
     | Resolved reportId, Resolved result =>
         if er_success result then
           reportData s' = er_data result /\ reportCount s' = er_count result /\
           currentStep s' = 4 /\
           log s' = log s ++ [EvOrmCreate (tempReport m s); executionRequest reportId s;
                              EvNotify {| n_message := MServer <$> er_message result;
                                          n_type := Success; n_sticky := false |}]
         else
           report_untouched s s' /\
           log s' = log s ++ [EvOrmCreate (tempReport m s); executionRequest reportId s;
                              failure (shown MExecError (newError (er_error result)))]
     end).
Proof.
  cbv zeta. split; [apply executeReport_frame|]. split.
  - intros Hok. destruct (validate_false s Hok) as [Hne Hs0].
    unfold executeReport. destruct (validateReportSettings s) as [ok s0].
    cbn in Hok, Hs0. subst ok s0. cbn [negb]. repeat split. exact Hne.
  - intros Hok. destruct (validate_true s Hok) as (_ & _ & m & Hm).
    rewrite (executeReport_run create rpc s m Hok Hm). cbv zeta.
    split; [reflexivity|]. split.
    { destruct create as [reportId|error]; [destruct rpc as [result|error]|];
        [destruct (er_success result)| |]; reflexivity. }
    exists m. split; [exact Hm|].
    destruct create as [reportId|error]; [destruct rpc as [result|error]|];
      [destruct (er_success result)| |];
      unfold report_untouched, showError, showSuccess, notify, failure, shown;
      cbn; rewrite <- ?app_assoc; repeat split.
Qed.

(** ** The cache *)

(** The cache key reads the selected model and the contents of the four
    collections and nothing else. *)
Lemma generateCacheKey_frame (s s' : State) :
  selectedModel s' = selectedModel s -> liveContents s' = liveContents s ->
  generateCacheKey s' = generateCacheKey s.
Proof.
  intros Hm Hc. unfold liveContents, contents, liveRefs in Hc. cbn in Hc.
  injection Hc as Hf Hq Hg Hs.
  unfold generateCacheKey, cacheKeyObject, prepareFilters,
    liveFields, liveFilters, liveGroups, liveSorts.
  now rewrite Hm, Hf, Hq, Hg, Hs.
Qed.

Lemma liveContents_untouched (s s' : State) :
  definition_untouched s s' -> liveContents s' = liveContents s.
Proof.
  intros (_ & _ & _ & Hr & (_ & Hf & Hq & Hg & Hs) & _).
  unfold liveContents, contents. now rewrite Hr, Hf, Hq, Hg, Hs.
Qed.

(** The state [executeWithCache] returns on a miss. *)
Lemma executeWithCache_miss (create : Outcome Z) (rpc : Outcome ExecResult)
    (startTime endTime : Z) (s : State) :
  cachedResults s !! generateCacheKey s = None ->
  executeWithCache create rpc startTime endTime s =
    let s1 := executeReport create rpc s in
    updateExecutionStats (endTime - startTime)
      (if truthy (reportData s1)
       then set_lastCacheKey (Some (generateCacheKey s))
              (set_cachedResults
                 (<[generateCacheKey s := reportData s1]> (cachedResults s1)) s1)
       else s1).
Proof. intros Hmiss. unfold executeWithCache. now rewrite Hmiss. Qed.

(** The state [executeWithCache] returns on a hit. *)
Lemma executeWithCache_hit (create : Outcome Z) (rpc : Outcome ExecResult)
    (startTime endTime : Z) (s : State) (cached : json) :
  cachedResults s !! generateCacheKey s = Some cached ->
  executeWithCache create rpc startTime endTime s =
    showInfo MLoadedFromCache (set_reportCount (rowCount cached) (set_reportData cached s)).
Proof. intros Hhit. unfold executeWithCache. now rewrite Hhit. Qed.

(** A miss with the results in place afterwards: the key is the same,
    the results are in the cache under it. *)
Lemma miss_caches (create : Outcome Z) (rpc : Outcome ExecResult)
    (startTime endTime : Z) (s : State) :
  cachedResults s !! generateCacheKey s = None ->
  let s1 := executeWithCache create rpc startTime endTime s in
  reportData s1 = reportData (executeReport create rpc s) /\
  generateCacheKey s1 = generateCacheKey s /\
  (truthy (reportData s1) = true ->
   cachedResults s1 = <[generateCacheKey s := reportData s1]> (cachedResults s) /\
   lastCacheKey s1 = Some (generateCacheKey s)) /\
  (truthy (reportData s1) = false ->
   cachedResults s1 = cachedResults s /\ lastCacheKey s1 = lastCacheKey s) /\
  executionStats s1
    = {| totalExecutions := totalExecutions (executionStats s) + 1;
         lastExecutionTime := endTime - startTime |}.
Proof.
  intros Hmiss. cbv zeta. rewrite (executeWithCache_miss _ _ _ _ _ Hmiss). cbv zeta.
  pose proof (executeReport_frame create rpc s) as Hframe.
  pose proof (liveContents_untouched _ _ Hframe) as Hlive.
  destruct Hframe as (Hm & _ & _ & _ & _ & _ & Hcache & _).
  pose proof (generateCacheKey_frame s (executeReport create rpc s) Hm Hlive) as Hkey.
  assert (executionStats (executeReport create rpc s) = executionStats s) as Hstats.
  { destruct (fst (validateReportSettings s)) eqn:Hok.
    - destruct (validate_true s Hok) as (_ & _ & m & Hmod).
      rewrite (executeReport_run create rpc s m Hok Hmod). cbv zeta.
      destruct create as [reportId|error]; [destruct rpc as [result|error]|];
        [destruct (er_success result)| |]; reflexivity.
    - destruct (validate_false s Hok) as [_ Hs0].
      unfold executeReport. destruct (validateReportSettings s) as [ok s0].
      cbn in Hok, Hs0. subst ok s0. reflexivity. }
  assert (previous : lastCacheKey (executeReport create rpc s) = lastCacheKey s).
  { destruct (fst (validateReportSettings s)) eqn:Hok.
    - destruct (validate_true s Hok) as (_ & _ & m & Hmod).
      rewrite (executeReport_run create rpc s m Hok Hmod). cbv zeta.
      destruct create as [reportId|error]; [destruct rpc as [result|error]|];
        [destruct (er_success result)| |]; reflexivity.
    - destruct (validate_false s Hok) as [_ Hs0].
      unfold executeReport. destruct (validateReportSettings s) as [ok s0].
      cbn in Hok, Hs0. subst ok s0. reflexivity. }
  rename previous into Hprev.
  set (s1 := executeReport create rpc s) in *. clearbody s1.
  destruct (truthy (reportData s1)) eqn:Ht.
  - unfold updateExecutionStats. cbn [reportData set_executionStats set_lastCacheKey
      set_cachedResults cachedResults lastCacheKey executionStats].
    rewrite Ht, Hcache, Hstats. split; [reflexivity|]. split.
    + rewrite <- Hkey. apply generateCacheKey_frame; reflexivity.
    + split; [auto|]. split; [discriminate | reflexivity].
  - unfold updateExecutionStats. cbn [reportData set_executionStats cachedResults
      lastCacheKey executionStats].
    rewrite Ht, Hcache, Hstats, Hprev. split; [reflexivity|]. split.
    + rewrite <- Hkey. apply generateCacheKey_frame; reflexivity.
    + split; [discriminate|]. split; [auto | reflexivity].
Qed.

(** X5: a miss followed by a call on the same definition.  The first
    call runs [executeReport], counts one execution whatever the outcome
    and, when [reportData] holds results afterwards, stores them under the
    key.  The second call is then served from the cache whatever the
    server would answer: it shows the same [reportData], sets
    [reportCount] to the number of cached rows, notifies, and neither
    creates a report nor counts an execution. *)
Theorem executeWithCache_miss_then_hit (create create' : Outcome Z)
    (rpc rpc' : Outcome ExecResult) (t0 t1 t2 t3 : Z) (s : State) :
  cachedResults s !! generateCacheKey s = None ->
  let s1 := executeWithCache create rpc t0 t1 s in
  let s2 := executeWithCache create' rpc' t2 t3 s1 in
  totalExecutions (executionStats s1) = totalExecutions (executionStats s) + 1 /\
  lastExecutionTime (executionStats s1) = t1 - t0 /\
  (truthy (reportData s1) = true ->
   cachedResults s1 !! generateCacheKey s1 = Some (reportData s1) /\
   reportData s2 = reportData s1 /\
   reportCount s2 = rowCount (reportData s1) /\
   log s2 = log s1 ++ [fromCache] /\
   executionStats s2 = executionStats s1 /\
   cachedResults s2 = cachedResults s1).
Proof.
  intros Hmiss. cbv zeta.
  destruct (miss_caches create rpc t0 t1 s Hmiss) as (_ & Hkey & Hstore & _ & Hstats).
  set (s1 := executeWithCache create rpc t0 t1 s) in *. clearbody s1.
  split; [now rewrite Hstats|]. split; [now rewrite Hstats|].
  intros Ht. destruct (Hstore Ht) as [Hc _].
  assert (cachedResults s1 !! generateCacheKey s1 = Some (reportData s1)) as Hhit
      by (rewrite Hkey, Hc; apply lookup_insert_eq).
  split; [exact Hhit|].
  rewrite (executeWithCache_hit create' rpc' t2 t3 s1 _ Hhit).
  do 4 (split; [reflexivity|]). reflexivity.
Qed.

(** X6: a miss whose execution brings no new results.  When the
    settings are invalid or the creation or the execution fails, the
    results of an earlier run stay in [reportData]; the miss stores them
    under the key of the present definition, and the next call shows them
    as loaded from the cache. *)
Theorem failed_execution_caches_earlier_results (create create' : Outcome Z)
    (rpc rpc' : Outcome ExecResult) (t0 t1 t2 t3 : Z) (s : State) :
  cachedResults s !! generateCacheKey s = None ->
  truthy (reportData s) = true ->
  fst (validateReportSettings s) = false \/
  (exists e, create = Rejected e) \/ (exists e, rpc = Rejected e) \/
  (exists r, rpc = Resolved r /\ er_success r = false) ->
  let s1 := executeWithCache create rpc t0 t1 s in
  let s2 := executeWithCache create' rpc' t2 t3 s1 in
  reportData s1 = reportData s /\
  cachedResults s1 !! generateCacheKey s = Some (reportData s) /\
  reportData s2 = reportData s /\
  log s2 = log s1 ++ [fromCache].
Proof.
  intros Hmiss Hold Hfail. cbv zeta.
  assert (reportData (executeReport create rpc s) = reportData s) as Hkept.
  { destruct (fst (validateReportSettings s)) eqn:Hok.
    - destruct (validate_true s Hok) as (_ & _ & m & Hmod).
      rewrite (executeReport_run create rpc s m Hok Hmod). cbv zeta.
      destruct Hfail as [Hf | [[e ->] | [[e ->] | (r & -> & Hr)]]]; [discriminate | | |].
      + reflexivity.
      + destruct create; reflexivity.
      + destruct create; [rewrite Hr|]; reflexivity.
    - destruct (validate_false s Hok) as [_ Hs0].
      unfold executeReport. destruct (validateReportSettings s) as [ok s0].
      cbn in Hok, Hs0. subst ok s0. reflexivity. }
  destruct (miss_caches create rpc t0 t1 s Hmiss) as (Hdata & Hkey & Hstore & _).
  rewrite Hkept in Hdata.
  set (s1 := executeWithCache create rpc t0 t1 s) in *. clearbody s1.
  rewrite Hdata in Hstore. destruct (Hstore Hold) as [Hc _].
  assert (cachedResults s1 !! generateCacheKey s1 = Some (reportData s)) as Hhit
      by (rewrite Hkey, Hc; apply lookup_insert_eq).
  split; [exact Hdata|]. split; [now rewrite <- Hkey|].
  rewrite (executeWithCache_hit create' rpc' t2 t3 s1 _ Hhit). split; reflexivity.
Qed.

(** ** Filters, sorts and groups *)

Lemma liveFilters_write (a : list FilterSpec) (s : State) :
  (filters s < length (filterArrays s))%nat -> liveFilters (write_filters a s) = a.
Proof. intros H. unfold liveFilters, write_filters. simpl. now apply read_write. Qed.

Lemma liveGroups_write (a : list GroupSpec) (s : State) :
  (groups s < length (groupArrays s))%nat -> liveGroups (write_groups a s) = a.
Proof. intros H. unfold liveGroups, write_groups. simpl. now apply read_write. Qed.

Lemma liveSorts_write (a : list SortSpec) (s : State) :
  (sorts s < length (sortArrays s))%nat -> liveSorts (write_sorts a s) = a.
Proof. intros H. unfold liveSorts, write_sorts. simpl. now apply read_write. Qed.

Lemma removeFilter_at (filterId : Z) (s : State) (i : nat) :
  findIndex (fun f => f_id f =? filterId) (liveFilters s) = Some i ->
  liveFilters (removeFilter filterId s) = delete i (liveFilters s).
Proof.
  intros Hi. unfold removeFilter. rewrite Hi.
  apply liveFilters_write. exact (live_valid_of_index _ _ _ _ Hi).
Qed.

(** X7: [removeFilter], [removeSort] and [removeGroup] take out the first
    element with the given id and nothing else; the others stay in order.
    With an id that no element has they leave the state as it is. *)
Theorem remove_by_id (id : Z) (s : State) :
  ((findIndex (fun f => f_id f =? id) (liveFilters s) = None -> removeFilter id s = s) /\
   (forall i, findIndex (fun f => f_id f =? id) (liveFilters s) = Some i ->
      liveFilters (removeFilter id s) = take i (liveFilters s) ++ drop (S i) (liveFilters s))) /\
  ((findIndex (fun x => s_id x =? id) (liveSorts s) = None -> removeSort id s = s) /\
   (forall i, findIndex (fun x => s_id x =? id) (liveSorts s) = Some i ->
      liveSorts (removeSort id s) = take i (liveSorts s) ++ drop (S i) (liveSorts s))) /\
  ((findIndex (fun g => g_id g =? id) (liveGroups s) = None -> removeGroup id s = s) /\
   (forall i, findIndex (fun g => g_id g =? id) (liveGroups s) = Some i ->
      liveGroups (removeGroup id s) = take i (liveGroups s) ++ drop (S i) (liveGroups s))).
Proof.
  split; [|split]; split.
  - intros H. unfold removeFilter. now rewrite H.
  - intros i Hi. rewrite (removeFilter_at id s i Hi). apply delete_take_drop.
  - intros H. unfold removeSort. now rewrite H.
  - intros i Hi. unfold removeSort. rewrite Hi.
    rewrite liveSorts_write by exact (live_valid_of_index _ _ _ _ Hi).
    apply delete_take_drop.
  - intros H. unfold removeGroup. now rewrite H.
  - intros i Hi. unfold removeGroup. rewrite Hi.
    rewrite liveGroups_write by exact (live_valid_of_index _ _ _ _ Hi).
    apply delete_take_drop.
Qed.

Lemma findIndex_app_old {A} (p : A -> bool) (l k : list A) (i : nat) :
  findIndex p l = Some i -> findIndex p (l ++ k) = Some i.
Proof.
  revert i. induction l as [|a l IH]; intros i; simpl; [discriminate|].
  destruct (p a); [auto|]. destruct (findIndex p l) as [j|]; [|discriminate].
  intros [= <-]. now rewrite (IH j eq_refl).
Qed.

Lemma delete_app_old {A} (l k : list A) (i : nat) :
  (i < length l)%nat -> delete i (l ++ k) = delete i l ++ k.
Proof.
  revert i. induction l as [|a l IH]; intros [|i] H; simpl in *; try lia; [reflexivity|].
  now rewrite IH by lia.
Qed.

(** X8: a filter added at the time [now] and removed by that id leaves
    the filters as they were, provided no filter carries the id already.
    When an older filter has the same id (two filters created within one
    millisecond), it is the older one that is removed and the new one
    stays. *)
Theorem addFilter_then_removeFilter (now : Z) (s : State) :
  (filters s < length (filterArrays s))%nat ->
  (findIndex (fun f => f_id f =? now) (liveFilters s) = None ->
   liveFilters (removeFilter now (addFilter now s)) = liveFilters s) /\
  (forall i, findIndex (fun f => f_id f =? now) (liveFilters s) = Some i ->
   liveFilters (removeFilter now (addFilter now s))
     = delete i (liveFilters s) ++ [newFilter now]).
Proof.
  intros Hv.
  assert (liveFilters (addFilter now s) = liveFilters s ++ [newFilter now]) as Hadd
      by (unfold addFilter; now apply liveFilters_write).
  split.
  - intros Hnone.
    assert (findIndex (fun f => f_id f =? now) (liveFilters (addFilter now s))
            = Some (length (liveFilters s))) as Hi.
    { rewrite Hadd. apply findIndex_app_new; [now apply findIndex_None|].
      cbn. apply Z.eqb_refl. }
    rewrite (removeFilter_at _ _ _ Hi), Hadd. apply delete_snoc.
  - intros i Hi.
    assert (findIndex (fun f => f_id f =? now) (liveFilters (addFilter now s)) = Some i)
      as Hi' by (rewrite Hadd; now apply findIndex_app_old).
    rewrite (removeFilter_at _ _ _ Hi'), Hadd.
    apply delete_app_old. exact (findIndex_lt _ _ _ Hi).
Qed.

(** X9: [updateFilter] changes the first filter with the id and no
    other; with an id that no filter has it changes nothing.  The
    property named is written as given, the [id] as well; a new [field]
    also sets [field_type] to the type of the first available field of
    that name, and when no available field has the name the type of the
    field chosen before stays.  The other properties of the filter stay
    as they are; a property the filter does not have leaves all six. *)
Theorem updateFilter_spec (filterId : Z) (u : FilterUpdate) (s : State) :
  (findIndex (fun f => f_id f =? filterId) (liveFilters s) = None ->
   updateFilter filterId u s = s) /\
  (forall i, findIndex (fun f => f_id f =? filterId) (liveFilters s) = Some i ->
     exists f f',
       liveFilters s !! i = Some f /\ f_id f = filterId /\
       liveFilters (updateFilter filterId u s) = <[i := f']> (liveFilters s) /\
       f_id f' = match u with UId v => v | _ => f_id f end /\
       f_field f' = match u with UField v => v | _ => f_field f end /\
       f_field_type f' =
         match u with
         | UFieldType v => v
         | UField v =>
             match find (fun d => String.eqb (fd_name d) v) (availableFields s) with
             | Some d => fd_type d
             | None => f_field_type f
             end
         | _ => f_field_type f
         end /\
       f_operator f' = match u with UOperator v => v | _ => f_operator f end /\
       f_value f' = match u with UValue v => v | _ => f_value f end /\
       f_active f' = match u with UActive v => v | _ => f_active f end).
Proof.
  split.
  - intros H. unfold updateFilter. now rewrite H.
  - intros i Hi. pose proof Hi as Hi'.
    apply findIndex_Some in Hi' as [(f & Hf & Hid) _]. apply Z.eqb_eq in Hid.
    pose proof (live_valid_of_index _ _ _ _ Hi) as Hv.
    assert (forall f', updateFilter filterId u s = write_filters (<[i := f']> (liveFilters s)) s ->
              liveFilters (updateFilter filterId u s) = <[i := f']> (liveFilters s)) as Hw
        by (intros f' ->; now apply liveFilters_write).
    exists f.
    destruct u as [v|v|v|v|v|v|p v other].
    1, 3-7: (eexists; split; [exact Hf|]; split; [exact Hid|]; split;
             [apply Hw; unfold updateFilter; rewrite Hi, Hf; reflexivity
             | repeat split]).
    destruct (find (fun d => String.eqb (fd_name d) v) (availableFields s)) as [d|] eqn:Ed.
    + exists (assign_filter (UFieldType (fd_type d)) (assign_filter (UField v) f)).
      split; [exact Hf|]. split; [exact Hid|].
      split; [apply Hw; unfold updateFilter; now rewrite Hi, Hf, Ed|]. repeat split.
    + exists (assign_filter (UField v) f).
      split; [exact Hf|]. split; [exact Hid|].
      split; [apply Hw; unfold updateFilter; now rewrite Hi, Hf, Ed|]. repeat split.
Qed.

(** X10: what is sent and what is saved.  An execution request carries
    exactly the active filters with a field and a value.  A filter with an
    empty value is never sent, also when its operator is ['!='] and
    validation has no objection to it; such a filter is among the lines
    saved with the report. *)
Theorem filters_sent_and_saved (s : State) :
  (forall pf, In pf (prepareFilters s) <->
     exists f, In f (liveFilters s) /\ f_active f = true /\ f_field f <> "" /\
               f_value f <> "" /\ pf = preparedOf f) /\
  (forall f, In f (liveFilters s) -> f_active f = true -> f_field f <> "" ->
     f_value f = "" -> f_operator f = "!=" ->
     invalid_filter f = false /\
     ~ In (preparedOf f) (prepareFilters s) /\
     exists line, In line (prepareFiltersForSave s) /\
       ql_field_name line = f_field f /\ ql_operator line = "!=" /\
       ql_value line = "" /\ ql_active line = true).
Proof.
  assert (forall pf, In pf (prepareFilters s) <->
     exists f, In f (liveFilters s) /\ f_active f = true /\ f_field f <> "" /\
               f_value f <> "" /\ pf = preparedOf f) as Hsent.
  { intros pf. unfold prepareFilters. rewrite in_map_iff. split.
    - intros (f & <- & Hf). apply filter_In in Hf as [Hin Hp].
      rewrite !andb_true_iff, !nonempty_true in Hp. exists f. tauto.
    - intros (f & Hin & Ha & Hfld & Hval & ->). exists f. split; [reflexivity|].
      apply filter_In. split; [exact Hin|].
      rewrite !andb_true_iff, !nonempty_true. tauto. }
  split; [exact Hsent|].
  intros f Hin Ha Hfld Hval Hop. split; [|split].
  - unfold invalid_filter. rewrite Hop. simpl. apply andb_false_r.
  - intros Hsentf. apply Hsent in Hsentf as (g & _ & _ & _ & Hg & E).
    apply (f_equal pf_value) in E. cbn in E. congruence.
  - assert (In f (List.filter (fun f => nonempty (f_field f)) (liveFilters s))) as Hkept
        by (apply filter_In; split; [exact Hin | now apply nonempty_true]).
    apply list_elem_of_In, list_elem_of_lookup in Hkept as [k Hk].
    eexists. split.
    + apply list_elem_of_In, list_elem_of_lookup. exists k.
      unfold prepareFiltersForSave. rewrite list_lookup_imap, Hk. reflexivity.
    + cbn. auto.
Qed.

(** ** The states the component reaches *)

Lemma inv_keep (s s' : State) :
  history s' = history s -> historyIndex s' = historyIndex s ->
  stores_grow s s' -> valid_refs s' (liveRefs s') -> inv s -> inv s'.
Proof.
  intros Hh Hi Hg Hl [Hc Hw]. split.
  - unfold cursor_ok in *. now rewrite Hh, Hi.
  - apply (wf_step s); [exact Hw | exact Hg | exact Hl |].
    intros e He. left. now rewrite <- Hh.
Qed.

Lemma inv_write_selectedFields (a : list FieldSpec) (s : State) :
  inv s -> inv (write_selectedFields a s).
Proof. intros H. unfold write_selectedFields. frame_inv inv_keep H. Qed.

Lemma inv_write_filters (a : list FilterSpec) (s : State) :
  inv s -> inv (write_filters a s).
Proof. intros H. unfold write_filters. frame_inv inv_keep H. Qed.

Lemma inv_write_groups (a : list GroupSpec) (s : State) :
  inv s -> inv (write_groups a s).
Proof. intros H. unfold write_groups. frame_inv inv_keep H. Qed.

Lemma inv_write_sorts (a : list SortSpec) (s : State) :
  inv s -> inv (write_sorts a s).
Proof. intros H. unfold write_sorts. frame_inv inv_keep H. Qed.

Lemma inv_new_selectedFields (a : list FieldSpec) (s : State) :
  inv s -> inv (new_selectedFields a s).
Proof. intros H. unfold new_selectedFields, alloc. frame_inv inv_keep H. Qed.

Lemma inv_new_filters (a : list FilterSpec) (s : State) :
  inv s -> inv (new_filters a s).
Proof. intros H. unfold new_filters, alloc. frame_inv inv_keep H. Qed.

Lemma inv_new_groups (a : list GroupSpec) (s : State) :
  inv s -> inv (new_groups a s).
Proof. intros H. unfold new_groups, alloc. frame_inv inv_keep H. Qed.

Lemma inv_new_sorts (a : list SortSpec) (s : State) :
  inv s -> inv (new_sorts a s).
Proof. intros H. unfold new_sorts, alloc. frame_inv inv_keep H. Qed.

Lemma inv_notify (m : option Message) (t : Severity) (sticky : bool) (s : State) :
  inv s -> inv (notify m t sticky s).
Proof. exact id. Qed.

Lemma inv_showError (title : Message) (error : ErrArg) (s : State) :
  inv s -> inv (showError title error s).
Proof. exact id. Qed.

Lemma inv_set_log (v : list Event) (s : State) : inv s -> inv (set_log v s).
Proof. exact id. Qed.
Lemma inv_set_loading (v : bool) (s : State) : inv s -> inv (set_loading v s).
Proof. exact id. Qed.
Lemma inv_set_errors (v : list Message) (s : State) : inv s -> inv (set_errors v s).
Proof. exact id. Qed.
Lemma inv_set_selectedModel (v : option Model) (s : State) :
  inv s -> inv (set_selectedModel v s).
Proof. exact id. Qed.
Lemma inv_set_availableModels (v : list Model) (s : State) :
  inv s -> inv (set_availableModels v s).
Proof. exact id. Qed.
Lemma inv_set_availableFields (v : list FieldDesc) (s : State) :
  inv s -> inv (set_availableFields v s).
Proof. exact id. Qed.
Lemma inv_set_reportData (v : json) (s : State) : inv s -> inv (set_reportData v s).
Proof. exact id. Qed.
Lemma inv_set_reportCount (v : Z) (s : State) : inv s -> inv (set_reportCount v s).
Proof. exact id. Qed.
Lemma inv_set_currentStep (v : Z) (s : State) : inv s -> inv (set_currentStep v s).
Proof. exact id. Qed.
Lemma inv_set_advancedMode (v : bool) (s : State) : inv s -> inv (set_advancedMode v s).
Proof. exact id. Qed.
Lemma inv_set_cachedResults (v : gmap string json) (s : State) :
  inv s -> inv (set_cachedResults v s).
Proof. exact id. Qed.
Lemma inv_set_lastCacheKey (v : option string) (s : State) :
  inv s -> inv (set_lastCacheKey v s).
Proof. exact id. Qed.
Lemma inv_set_executionStats (v : ExecutionStats) (s : State) :
  inv s -> inv (set_executionStats v s).
Proof. exact id. Qed.

Lemma inv_addToHistory (action : string) (data : json) (now : Z) (s : State) :
  inv s -> inv (addToHistory action data now s).
Proof.
  intros [_ Hw]. split; [apply cursor_ok_addToHistory|].
  rewrite addToHistory_as_call. now apply wf_addCall.
Qed.

Lemma inv_undo (s : State) : inv s -> inv (snd (undo s)).
Proof. intros [Hc Hw]. split; [now apply cursor_ok_undo | now apply wf_undo]. Qed.

Lemma inv_redo (s : State) : inv s -> inv (snd (redo s)).
Proof. intros [Hc Hw]. split; [now apply cursor_ok_redo | now apply wf_redo]. Qed.

Lemma inv_forEach_from {A} (f : A -> nat -> State -> State) (l : list A) (index : nat)
    (s : State) :
  (forall x i s', inv s' -> inv (f x i s')) -> inv s -> inv (forEach_from f l index s).
Proof.
  intros Hf. revert index s. induction l as [|x l IH]; intros index s H; simpl; auto.
Qed.

#[local] Hint Resolve inv_write_selectedFields inv_write_filters inv_write_groups
  inv_write_sorts inv_new_selectedFields inv_new_filters inv_new_groups inv_new_sorts
  inv_notify inv_showError inv_set_log inv_set_loading inv_set_errors
  inv_set_selectedModel inv_set_availableModels inv_set_availableFields
  inv_set_reportData inv_set_reportCount inv_set_currentStep inv_set_advancedMode
  inv_set_cachedResults inv_set_lastCacheKey inv_set_executionStats
  inv_addToHistory inv_undo inv_redo : inv.

Lemma inv_clearReportData (s : State) : inv s -> inv (clearReportData s).
Proof. intros H. unfold clearReportData. inv_auto. Qed.

Lemma inv_addField (field : FieldDesc) (s : State) : inv s -> inv (addField field s).
Proof.
  intros H. unfold addField, showSuccess, showWarning.
  destruct (find _ _); inv_auto.
Qed.

Lemma inv_validate (s : State) : inv s -> inv (snd (validateReportSettings s)).
Proof.
  intros H. unfold validateReportSettings.
  destruct (0 <? length _)%nat; cbn [snd]; inv_auto.
Qed.

Lemma inv_executeReport (create : Outcome Z) (rpc : Outcome ExecResult) (s : State) :
  inv s -> inv (executeReport create rpc s).
Proof.
  intros H. apply inv_validate in H. unfold executeReport.
  destruct (validateReportSettings s) as [ok s0]. cbn [snd] in H.
  destruct ok; cbn [negb]; [|exact H].
  apply inv_set_loading. unfold createTempReport.
  destruct (selectedModel _); [|inv_auto].
  destruct create; [|inv_auto].
  destruct rpc; [|inv_auto].
  destruct (er_success _); unfold showSuccess; inv_auto.
Qed.

#[local] Hint Resolve inv_clearReportData inv_addField inv_validate inv_executeReport : inv.

Lemma inv_onModelChange (modelId : option Z) (rpc : Outcome FieldsResult) (s : State) :
  inv s -> inv (onModelChange modelId rpc s).
Proof.
  intros IH. unfold onModelChange, clearModelData. destruct (falsy_id _); [inv_auto|].
  apply inv_set_loading. destruct (find _ _); [|inv_auto].
  destruct rpc; [|inv_auto]. destruct (fr_success _); unfold showSuccess; inv_auto.
Qed.

Lemma inv_executeWithCache (create : Outcome Z) (rpc : Outcome ExecResult)
    (startTime endTime : Z) (s : State) :
  inv s -> inv (executeWithCache create rpc startTime endTime s).
Proof.
  intros IH. unfold executeWithCache, showInfo, updateExecutionStats.
  destruct (_ !! _); [inv_auto|]. apply inv_set_executionStats.
  destruct (truthy _); inv_auto.
Qed.

#[local] Hint Resolve inv_onModelChange inv_executeWithCache : inv.

Lemma reachable_inv (s : State) : reachable s -> inv s.
Proof.
  induction 1 as [|s r _ IH|s modelId rpc _ IH|s field _ IH|s n _ IH|s n d _ IH
                  |s now _ IH|s i _ IH|s i u _ IH|s now _ IH|s i _ IH|s now _ IH|s i _ IH
                  |s _ IH|s c r _ IH|s step _ IH|s _ IH|s n now _ IH|s _ IH|s ch now _ IH
                  |s _ IH|s fs _ IH|s c r t0 t1 _ IH|s _ IH|s a d now _ IH|s _ IH|s _ IH
                  |c format create _ IH|c templateName create _ IH|c create rpc t0 t1 _ IH
                  |c file rpc now _ IH].
  - split; [apply cursor_ok_initial | apply wf_initial].
  - unfold loadInitialData. destruct r; inv_auto.
  - inv_auto.
  - inv_auto.
  - unfold removeField, showInfo. destruct (findIndex _ _); [|exact IH].
    destruct (_ !! _); inv_auto.
  - unfold moveField. destruct (findIndex _ _); [|exact IH].
    destruct (_ && _); inv_auto.
  - unfold addFilter. inv_auto.
  - unfold removeFilter. destruct (findIndex _ _); inv_auto.
  - unfold updateFilter. destruct (findIndex _ _); [|exact IH].
    destruct (_ !! _); inv_auto.
  - unfold addSort. inv_auto.
  - unfold removeSort. destruct (findIndex _ _); inv_auto.
  - unfold addGroup. inv_auto.
  - unfold removeGroup. destruct (findIndex _ _); inv_auto.
  - inv_auto.
  - inv_auto.
  - unfold goToStep. inv_auto.
  - unfold toggleAdvancedMode, showInfo. inv_auto.
  - unfold duplicateField, showSuccess. destruct (find _ _); inv_auto.
  - unfold bulkAddFields, showWarning. destruct (_ =? _)%nat; inv_auto.
  - unfold bulkAddConfirm, showSuccess. apply inv_notify, inv_addToHistory.
    apply inv_forEach_from; [|exact IH]. intros x i s' H'. unfold pushChosen. inv_auto.
  - unfold smartFieldRecommendation, showInfo. destruct (selectedModel s); [|exact IH].
    destruct (0 <? _)%nat; cbn [snd]; inv_auto.
  - unfold acceptRecommendations. apply inv_forEach_from; [|exact IH].
    intros x i s' H'. inv_auto.
  - inv_auto.
  - unfold clearCache, showInfo. inv_auto.
  - inv_auto.
  - inv_auto.
  - inv_auto.
  - unfold exportReport. destruct (negb _); [exact IH|].
    unfold createTempReport. destruct (selectedModel (state c)); [|exact IH].
    destruct create; cbn [snd state notice set_state]; inv_auto.
  - apply inv_validate in IH. unfold saveAsTemplate.
    destruct (validateReportSettings (state c)) as [ok s0]. cbn [snd] in IH.
    destruct ok; cbn [negb]; [|exact IH].
    destruct templateName as [n|]; [|exact IH].
    destruct (String.eqb n ""); [exact IH|].
    destruct (selectedModel s0); [|exact IH]. destruct create; exact IH.
  - unfold refreshTick. destruct (truthy _); [|exact IH].
    cbn [state set_state]. inv_auto.
  - unfold importSettings. destruct file as [file|]; [|exact IH].
    destruct (file_parsed file) as [settings|message]; [|exact IH].
    destruct (doc_model settings) as [model|]; [|exact IH].
    destruct (doc_fields settings) as [fields|]; [|exact IH].
    cbn [state notice set_state]. inv_auto.
Qed.


(** ** Undo and redo, composed *)

(** The entries after [addToHistory]: the new one is the last, the
    others were in the log at or before the cursor. *)
Lemma addCall_entries (s : State) (c : Call) :
  cursor_ok s ->
  last (history (addCall s c)) = Some (entry_of c s) /\
  (forall e, In e (history (addCall s c)) ->
     e = entry_of c s \/
     exists i, Z.of_nat i <= historyIndex s /\ history s !! i = Some e).
Proof.
  intros Hok. pose proof (addCall_history s c Hok) as Hh. cbv zeta in Hh.
  set (kept := take (Z.to_nat (historyIndex s + 1)) (history s)) in *.
  assert (forall e, In e (kept ++ [entry_of c s]) ->
            e = entry_of c s \/
            exists i, Z.of_nat i <= historyIndex s /\ history s !! i = Some e) as Hin.
  { intros e He. apply in_app_or in He as [He | [<- | []]]; [right | now left].
    apply list_elem_of_In, list_elem_of_lookup in He as [i Hi].
    subst kept. apply lookup_take_Some in Hi as [Hi Hlt]. exists i. split; [lia | exact Hi]. }
  generalize dependent (addCall s c). intros s' Hh. split.
  - rewrite Hh. destruct (50 <? _)%nat eqn:E; [|apply last_snoc].
    destruct kept as [|k kept']; [simpl in E; discriminate|].
    change (last (kept' ++ [entry_of c s]) = Some (entry_of c s)). apply last_snoc.
  - intros e He. apply Hin. rewrite Hh in He.
    destruct (50 <? _)%nat; [now apply in_tail | exact He].
Qed.

(** X12: a logged action discards the entries that were undone.  After
    [addToHistory] the new entry is the last of the log and the cursor is
    on it, every other entry is one the log held at or before the cursor,
    and [redo] only warns that there is nothing to redo. *)
Theorem action_discards_undone_entries (action : string) (data : json) (now : Z)
    (s : State) :
  cursor_ok s ->
  let c := {| c_action := action; c_data := data; c_now := now |} in
  let s' := addToHistory action data now s in
  last (history s') = Some (entry_of c s) /\
  historyIndex s' = Z.of_nat (length (history s')) - 1 /\
  (forall e, In e (history s') ->
     e = entry_of c s \/
     exists i, Z.of_nat i <= historyIndex s /\ history s !! i = Some e) /\
  redo s' = (Normal, showWarning MNothingToRedo s').
Proof.
  intros Hok c s'. subst s'. rewrite addToHistory_as_call. fold c.
  pose proof (addCall_cursor_last s c) as Hcur.
  destruct (addCall_entries s c Hok) as [Hlast Hin].
  generalize dependent (addCall s c). intros s' Hcur Hlast Hin.
  split; [exact Hlast|]. split; [exact Hcur|]. split; [exact Hin|].
  unfold redo. rewrite Hcur.
  destruct (Z.ltb_spec (Z.of_nat (length (history s')) - 1)
              (Z.of_nat (length (history s')) - 1)); [lia | reflexivity].
Qed.

(** The state after the two steps of [undo] and [redo]. *)
Lemma restored (msg : Message) (r : Snapshot) (i : Z) (s : State) :
  let s' := showInfo msg (restoreState r (set_historyIndex i s)) in
  historyIndex s' = i /\ history s' = history s /\ liveRefs s' = r /\
  log s' = log s ++ [info msg].
Proof. destruct r. repeat split. Qed.

(** X13: [undo] followed by [redo], and [redo] followed by [undo], bring
    the cursor back to where it was and leave the log as it is; the four
    collections of the state are then the arrays of the entry under the
    cursor, whatever they were before.  Both calls notify. *)
Theorem undo_redo_compose (s : State) :
  cursor_ok s -> 0 <= historyIndex s ->
  exists e, entry_at (historyIndex s) s = Some e /\
    (0 < historyIndex s ->
     let s' := snd (redo (snd (undo s))) in
     historyIndex s' = historyIndex s /\ history s' = history s /\
     liveRefs s' = h_state e /\ log s' = log s ++ [info MUndone; info MRedone]) /\
    (historyIndex s < Z.of_nat (length (history s)) - 1 ->
     let s' := snd (undo (snd (redo s))) in
     historyIndex s' = historyIndex s /\ history s' = history s /\
     liveRefs s' = h_state e /\ log s' = log s ++ [info MRedone; info MUndone]).
Proof.
  intros [Hlo Hhi] Hpos.
  destruct (entry_at_Some (historyIndex s) s) as [e He]; [lia|].
  exists e. split; [exact He|]. split.
  - intros Hgt. cbv zeta.
    destruct (entry_at_Some (historyIndex s - 1) s) as [e' He']; [lia|].
    rewrite (undo_to s e' Hgt He'). cbn [snd].
    destruct (restored MUndone (h_state e') (historyIndex s - 1) s) as (Hi1 & Hh1 & _ & Hl1).
    set (s1 := showInfo MUndone (restoreState (h_state e') (set_historyIndex (historyIndex s - 1) s))) in *.
    clearbody s1.
    assert (entry_at (historyIndex s1 + 1) s1 = Some e) as He1.
    { unfold entry_at in *. rewrite Hi1, Hh1.
      replace (historyIndex s - 1 + 1) with (historyIndex s) by lia. exact He. }
    rewrite (redo_to s1 e); [|rewrite Hi1, Hh1; lia | exact He1]. cbn [snd].
    destruct (restored MRedone (h_state e) (historyIndex s1 + 1) s1) as (Hi2 & Hh2 & Hr2 & Hl2).
    rewrite Hi2, Hh2, Hr2, Hl2, Hi1, Hh1, Hl1, <- app_assoc.
    split; [lia|]. split; [reflexivity|]. split; reflexivity.
  - intros Hlt. cbv zeta.
    destruct (entry_at_Some (historyIndex s + 1) s) as [e' He']; [lia|].
    rewrite (redo_to s e' Hlt He'). cbn [snd].
    destruct (restored MRedone (h_state e') (historyIndex s + 1) s) as (Hi1 & Hh1 & _ & Hl1).
    set (s1 := showInfo MRedone (restoreState (h_state e') (set_historyIndex (historyIndex s + 1) s))) in *.
    clearbody s1.
    assert (entry_at (historyIndex s1 - 1) s1 = Some e) as He1.
    { unfold entry_at in *. rewrite Hi1, Hh1.
      replace (historyIndex s + 1 - 1) with (historyIndex s) by lia. exact He. }
    rewrite (undo_to s1 e); [|rewrite Hi1; lia | exact He1]. cbn [snd].
    destruct (restored MUndone (h_state e) (historyIndex s1 - 1) s1) as (Hi2 & Hh2 & Hr2 & Hl2).
    rewrite Hi2, Hh2, Hr2, Hl2, Hi1, Hh1, Hl1, <- app_assoc.
    split; [lia|]. split; [reflexivity|]. split; reflexivity.
Qed.

(** ** Moving a field there and back *)








(** ** A successful change of the model *)

Lemma clearReportData_contents (s : State) :
  liveContents (clearReportData s) = ([], [], [], []) /\
  (forall r, valid_refs s r -> contents (clearReportData s) r = contents s r).
Proof.
  split.
  - unfold liveContents, contents, liveRefs, clearReportData,
      new_sorts, new_groups, new_filters, new_selectedFields, alloc.
    cbn. now rewrite !read_alloc_new.
  - intros r (H1 & H2 & H3 & H4).
    unfold contents, clearReportData, new_sorts, new_groups, new_filters,
      new_selectedFields, alloc.
    cbn. now rewrite !read_alloc_old by assumption.
Qed.

Lemma clearReportData_frame (s : State) :
  let s' := clearReportData s in
  selectedModel s' = selectedModel s /\ availableFields s' = availableFields s /\
  reportData s' = JNull /\ reportCount s' = 0 /\ currentStep s' = 1 /\
  loading s' = loading s /\ errors s' = errors s /\ log s' = log s /\
  history s' = history s /\ historyIndex s' = historyIndex s /\
  cachedResults s' = cachedResults s.
Proof. cbv zeta. repeat split. Qed.

(** The steps of [onModelChange] before and after [clearReportData]. *)
Lemma onModelChange_before (result : FieldsResult) (model : Model) (s : State) :
  let s' := set_availableFields (fr_fields result)
              (set_log (log s ++ [EvRpcGetModelFields (m_model model)])
                 (set_selectedModel (Some model) (set_errors [] (set_loading true s)))) in
  selectedModel s' = Some model /\ availableFields s' = fr_fields result /\
  errors s' = [] /\ log s' = log s ++ [EvRpcGetModelFields (m_model model)] /\
  history s' = history s /\ historyIndex s' = historyIndex s /\
  cachedResults s' = cachedResults s /\
  (forall r, valid_refs s r -> valid_refs s' r) /\
  (forall r, contents s' r = contents s r).
Proof.
  cbv zeta. do 7 (split; [reflexivity|]).
  split; intros r; [intros H; exact H | reflexivity].
Qed.

Lemma onModelChange_after (m : option Message) (s : State) :
  let s' := set_loading false (showSuccess m s) in
  selectedModel s' = selectedModel s /\ availableFields s' = availableFields s /\
  reportData s' = reportData s /\ reportCount s' = reportCount s /\
  currentStep s' = currentStep s /\ loading s' = false /\ errors s' = errors s /\
  log s' = log s ++ [success m] /\
  history s' = history s /\ historyIndex s' = historyIndex s /\
  cachedResults s' = cachedResults s /\
  liveContents s' = liveContents s /\ (forall r, contents s' r = contents s r).
Proof. cbv zeta. repeat split. Qed.

Lemma onModelChange_run (modelId : option Z) (result : FieldsResult) (model : Model)
    (s : State) :
  falsy_id modelId = false ->
  find (is_model modelId) (availableModels s) = Some model ->
  fr_success result = true ->
  onModelChange modelId (Resolved result) s =
  set_loading false
    (showSuccess (Some (or_default (fr_message result) MFieldsLoaded))
       (clearReportData
          (set_availableFields (fr_fields result)
             (set_log (log s ++ [EvRpcGetModelFields (m_model model)])
                (set_selectedModel (Some model) (set_errors [] (set_loading true s))))))).
Proof.
  intros Hid Hfind Hok. unfold onModelChange. rewrite Hid.
  change (availableModels (set_errors [] (set_loading true s))) with (availableModels s).
  now rewrite Hfind, Hok.
Qed.

(** X15: a successful change of the model.  The model found in
    [availableModels] is selected, the fields sent by the server are the
    available ones, the four collections are new empty arrays, the report
    data is dropped and the wizard is back at step 1.  One request is
    made and one notification shown.  The history, its cursor and the
    cache are kept, and so are the contents of all arrays of the history:
    [undo] after the change puts the collections of an earlier entry,
    made for the model before, under the new model. *)
Theorem onModelChange_success (modelId : option Z) (result : FieldsResult)
    (model : Model) (s : State) :
  falsy_id modelId = false ->
  find (is_model modelId) (availableModels s) = Some model ->
  fr_success result = true ->
  let s' := onModelChange modelId (Resolved result) s in
  (selectedModel s' = Some model /\ availableFields s' = fr_fields result /\
   liveContents s' = ([], [], [], []) /\
   reportData s' = JNull /\ reportCount s' = 0 /\ currentStep s' = 1 /\
   loading s' = false /\ errors s' = []) /\
  log s' = log s ++ [EvRpcGetModelFields (m_model model);
                     success (Some (or_default (fr_message result) MFieldsLoaded))] /\
  (history s' = history s /\ historyIndex s' = historyIndex s /\
   cachedResults s' = cachedResults s /\
   forall r, valid_refs s r -> contents s' r = contents s r) /\
  (forall e, 0 < historyIndex s -> entry_at (historyIndex s - 1) s = Some e ->
     valid_refs s (h_state e) ->
     selectedModel (snd (undo s')) = Some model /\
     liveContents (snd (undo s')) = contents s (h_state e)).
Proof.
  intros Hid Hfind Hok s'. subst s'. rewrite (onModelChange_run _ _ _ _ Hid Hfind Hok).
  destruct (onModelChange_before result model s)
    as (Bm & Ba & Be & Bl & Bh & Bi & Bc & Bvalid & Bcont).
  set (base := set_availableFields (fr_fields result)
                 (set_log (log s ++ [EvRpcGetModelFields (m_model model)])
                    (set_selectedModel (Some model) (set_errors [] (set_loading true s))))) in *.
  clearbody base.
  destruct (clearReportData_contents base) as [Clive Cold].
  destruct (clearReportData_frame base)
    as (Cm & Ca & Cd & Cn & Cs & _ & Ce & Cl & Ch & Ci & Cc).
  set (cleared := clearReportData base) in *. clearbody cleared.
  destruct (onModelChange_after (Some (or_default (fr_message result) MFieldsLoaded)) cleared)
    as (Am & Aa & Ad & An & As & Ald & Ae & Al & Ah & Ai & Ac & Alive & Acont).
  set (s' := set_loading false
               (showSuccess (Some (or_default (fr_message result) MFieldsLoaded)) cleared)) in *.
  clearbody s'.
  assert (forall r, valid_refs s r -> contents s' r = contents s r) as Hold.
  { intros r Hr. rewrite Acont, Cold, Bcont by (now apply Bvalid). reflexivity. }
  assert (history s' = history s) as Hh by congruence.
  assert (historyIndex s' = historyIndex s) as Hi by congruence.
  split; [|split; [|split]].
  - rewrite Am, Aa, Alive, Ad, An, As, Ald, Ae. rewrite Cm, Ca, Clive, Cd, Cn, Cs, Ce.
    rewrite Bm, Ba, Be. repeat split.
  - rewrite Al, Cl, Bl, <- app_assoc. reflexivity.
  - split; [exact Hh|]. split; [exact Hi|]. split; [congruence | exact Hold].
  - intros e Hpos He Hv.
    assert (entry_at (historyIndex s' - 1) s' = Some e) as He'
        by (unfold entry_at in *; now rewrite Hi, Hh).
    rewrite (undo_to s' e); [|rewrite Hi; exact Hpos | exact He']. cbn [snd].
    destruct (restore_frame MUndone (h_state e) (historyIndex s' - 1) s') as (_ & _ & Hc' & _).
    rewrite Hc'. split; [|now apply Hold].
    change (selectedModel s' = Some model). congruence.
Qed.

(** ** Recommended fields *)

Lemma addField_names (field : FieldDesc) (s : State) :
  (selectedFields s < length (fieldArrays s))%nat ->
  (selectedFields (addField field s) < length (fieldArrays (addField field s)))%nat /\
  selectedModel (addField field s) = selectedModel s /\
  availableFields (addField field s) = availableFields s /\
  (forall n, In n (fieldNames (addField field s)) <->
             In n (fieldNames s) \/ n = fd_name field).
Proof.
  intros Hv. split; [|split; [|split]].
  - unfold addField. destruct (find _ _); [exact Hv|].
    unfold showSuccess, notify, write_selectedFields.
    cbn [selectedFields fieldArrays set_log set_fieldArrays].
    now rewrite length_insert.
  - unfold addField. now destruct (find _ _).
  - unfold addField. now destruct (find _ _).
  - intros n. unfold fieldNames. rewrite (addField_fields field s Hv).
    destruct (is_selected s (fd_name field)) eqn:Es.
    + apply is_selected_spec in Es. unfold fieldNames in Es.
      split; [auto | intros [H | ->]; assumption].
    + rewrite map_app, in_app_iff. cbn. intuition congruence.
Qed.

Lemma acceptRecommendations_names (fields : list FieldDesc) (s : State) :
  (selectedFields s < length (fieldArrays s))%nat ->
  let s' := acceptRecommendations fields s in
  selectedModel s' = selectedModel s /\ availableFields s' = availableFields s /\
  (forall n, In n (fieldNames s') <-> In n (fieldNames s) \/ In n (map fd_name fields)).
Proof.
  unfold acceptRecommendations, forEach. generalize 0%nat.
  revert s. induction fields as [|field fields IH]; intros s index Hv.
  - cbn. intuition.
  - cbn [forEach_from]. destruct (addField_names field s Hv) as (Hv' & Hm & Ha & Hn).
    destruct (IH (addField field s) (S index) Hv') as (Hm' & Ha' & Hn').
    cbv zeta in *. split; [congruence|]. split; [congruence|].
    intros n. rewrite Hn', Hn. cbn. intuition.
Qed.

Lemma getFieldRecommendations_In (modelName : string) (s : State) (f : FieldDesc) :
  In f (getFieldRecommendations modelName s) <->
  In f (availableFields s) /\ In (fd_name f) (commonFields modelName) /\
  ~ In (fd_name f) (fieldNames s).
Proof.
  unfold getFieldRecommendations. rewrite filter_In, andb_true_iff, negb_true_iff.
  rewrite is_selected_false, existsb_exists.
  split.
  - intros (Hin & (n & Hn & E) & Hsel). apply String.eqb_eq in E. subst n. tauto.
  - intros (Hin & Hc & Hsel). split; [exact Hin|]. split; [|exact Hsel].
    exists (fd_name f). split; [exact Hc | apply String.eqb_refl].
Qed.

(** X16: the recommended fields are the available fields whose name is
    in the table of the model and that are not selected yet, in the order
    of the available fields.  When there are some, the dialog is opened
    on them and nothing else happens.  Once all of them are accepted,
    each is selected, nothing is left to recommend, and a second call of
    [smartFieldRecommendation] only tells so. *)
Theorem recommendations_accepted_once (model : Model) (s : State) :
  selectedModel s = Some model ->
  (selectedFields s < length (fieldArrays s))%nat ->
  let recommendations := getFieldRecommendations (m_model model) s in
  let s' := acceptRecommendations recommendations s in
  (forall f, In f recommendations <->
     In f (availableFields s) /\ In (fd_name f) (commonFields (m_model model)) /\
     ~ In (fd_name f) (fieldNames s)) /\
  recommendations `sublist_of` availableFields s /\
  (recommendations <> [] -> smartFieldRecommendation s = (Some recommendations, s)) /\
  (forall f, In f recommendations -> In (fd_name f) (fieldNames s')) /\
  getFieldRecommendations (m_model model) s' = [] /\
  smartFieldRecommendation s' = (None, showInfo MNoRecommendations s').
Proof.
  intros Hm Hv recommendations s'.
  destruct (acceptRecommendations_names recommendations s Hv) as (Hm' & Ha' & Hn').
  fold s' in Hm', Ha', Hn'.
  assert (getFieldRecommendations (m_model model) s' = []) as Hnone.
  { destruct (getFieldRecommendations (m_model model) s') as [|f l] eqn:E; [reflexivity|].
    exfalso. assert (In f (getFieldRecommendations (m_model model) s')) as Hf
        by (rewrite E; now left).
    apply getFieldRecommendations_In in Hf as (Hin & Hc & Hsel).
    rewrite Ha' in Hin. apply Hsel. apply Hn'.
    destruct (is_selected s (fd_name f)) eqn:Es.
    - left. now apply is_selected_spec.
    - right. apply in_map. apply getFieldRecommendations_In.
      apply is_selected_false in Es. tauto. }
  split; [intros f; apply getFieldRecommendations_In|].
  split; [apply filter_sublist|].
  split; [|split; [|split; [exact Hnone|]]].
  - intros Hne. unfold smartFieldRecommendation. rewrite Hm. fold recommendations.
    destruct recommendations; [congruence | reflexivity].
  - intros f Hf. apply Hn'. right. now apply in_map.
  - unfold smartFieldRecommendation. rewrite Hm', Hm, Hnone. reflexivity.
Qed.

(** ** The bulk selection dialog *)

Lemma includes_empty (s : string) : includes "" s = true.
Proof. destruct s; reflexivity. Qed.

(** X17: the selection of the bulk dialog.  Toggling a field that is
    not selected twice leaves the dialog as it was.  "Select all"
    replaces the selection by the fields that match the search term,
    and used a second time empties the selection, whatever was selected
    by hand before.  With an empty search term every field matches. *)
Theorem dialog_selection (toLowerCase : string -> string) (available : list FieldDesc)
    (d : BulkDialog) (field : FieldDesc) :
  (findIndex (fun f => String.eqb (fd_name f) (fd_name field)) (d_selectedFields d) = None ->
   toggleField field (toggleField field d) = d) /\
  (d_selectAll d = false ->
   let d1 := toggleSelectAll toLowerCase available d in
   let d2 := toggleSelectAll toLowerCase available d1 in
   d_selectedFields d1 = filteredFields toLowerCase available d /\
   d_selectedFields d2 = [] /\ d_selectAll d2 = false /\
   d_searchTerm d2 = d_searchTerm d) /\
  (toLowerCase (d_searchTerm d) = "" -> filteredFields toLowerCase available d = available).
Proof.
  split; [|split].
  - intros Hnone. unfold toggleField at 2. rewrite Hnone.
    unfold toggleField. cbn [d_selectedFields d_searchTerm d_selectAll].
    rewrite findIndex_app_new by
      (first [exact (proj1 (findIndex_None _ _) Hnone) | cbn; apply String.eqb_refl]).
    rewrite delete_snoc. now destruct d.
  - intros Hoff. cbv zeta. unfold toggleSelectAll.
    cbn [d_selectedFields d_searchTerm d_selectAll]. rewrite Hoff. cbn. auto.
  - intros Hterm. unfold filteredFields. rewrite Hterm.
    induction available as [|f l IH]; [reflexivity|].
    cbn [List.filter]. rewrite includes_empty. cbn. now rewrite IH.
Qed.

(** ** What the cache key is made of *)

Lemma keyed_key (s s' : State) : keyed s = keyed s' -> generateCacheKey s = generateCacheKey s'.
Proof.
  unfold keyed. intros [= Hm Hn Hf Hs Hg].
  unfold generateCacheKey, cacheKeyObject. rewrite Hf, Hs, Hg.
  rewrite <- !(map_map name JStr), Hn.
  destruct (selectedModel s) as [m|], (selectedModel s') as [m'|];
    cbn in Hm; try discriminate; [|reflexivity].
  injection Hm as ->. reflexivity.
Qed.

(** X18: the cache key is made of the technical name of the model, the
    names of the selected fields in their order, the filters that would
    be sent, and the sorts and groups that have a field.  Settings that
    agree on these have the same key: a result cached for the one is
    served for the other, without a request, also when labels,
    visibility, formats or aggregations of the fields differ. *)
Theorem cache_key_parts (create : Outcome Z) (rpc : Outcome ExecResult)
    (startTime endTime : Z) (s s' : State) (cached : json) :
  keyed s' = keyed s ->
  generateCacheKey s' = generateCacheKey s /\
  (cachedResults s' !! generateCacheKey s = Some cached ->
   let s2 := executeWithCache create rpc startTime endTime s' in
   reportData s2 = cached /\ reportCount s2 = rowCount cached /\
   log s2 = log s' ++ [fromCache]).
Proof.
  intros Hk. pose proof (keyed_key s' s Hk) as Hkey. split; [exact Hkey|].
  intros Hhit. cbv zeta. rewrite <- Hkey in Hhit.
  rewrite (executeWithCache_hit _ _ _ _ _ _ Hhit). repeat split.
Qed.

(** ** Auto refresh *)





Lemma fire_cached (c : Component) (f : Firing) :
  truthy (reportData (state c)) = true ->
  cachedResults (state c) !! generateCacheKey (state c) = Some (reportData (state c)) ->
  let c' := fire c f in
  reportData (state c') = reportData (state c) /\
  log (state c') = log (state c) ++ [fromCache] /\
  cachedResults (state c') = cachedResults (state c) /\
  executionStats (state c') = executionStats (state c) /\
  generateCacheKey (state c') = generateCacheKey (state c).
Proof.
  intros Hdata Hhit. cbv zeta. unfold fire, refreshTick. rewrite Hdata.
  cbn [state set_state]. rewrite (executeWithCache_hit _ _ _ _ _ _ Hhit).
  repeat split.
Qed.

(** X20: what auto refresh does.  A timer that fires before a report
    was executed does nothing.  Once the results shown are in the cache
    under the key of the settings, as they are after [executeWithCache],
    every firing shows these results again from the cache: no request
    reaches the server, however often the timer fires. *)
Theorem auto_refresh_serves_cache (l : list Firing) (c : Component) :
  (truthy (reportData (state c)) = false -> firings l c = c) /\
  (truthy (reportData (state c)) = true ->
   cachedResults (state c) !! generateCacheKey (state c) = Some (reportData (state c)) ->
   let c' := firings l c in
   reportData (state c') = reportData (state c) /\
   log (state c') = log (state c) ++ repeat fromCache (length l) /\
   cachedResults (state c') = cachedResults (state c) /\
   executionStats (state c') = executionStats (state c)).
Proof.
  split.
  - intros Hno. unfold firings. induction l as [|f l IH]; [reflexivity|].
    cbn [fold_left]. unfold fire at 2, refreshTick. rewrite Hno. exact IH.
  - revert c. induction l as [|f l IH]; intros c Hdata Hhit; cbv zeta.
    + cbn. rewrite app_nil_r. auto.
    + destruct (fire_cached c f Hdata Hhit) as (Hd & Hl & Hc & He & Hk).
      unfold firings. cbn [fold_left]. fold (firings l (fire c f)).
      destruct (IH (fire c f)) as (Hd' & Hl' & Hc' & He').
      * now rewrite Hd.
      * now rewrite Hk, Hc, Hd.
      * rewrite Hd', Hl', Hc', He', Hd, Hl, Hc, He, <- app_assoc. auto.
Qed.

(** ** The settings file *)

Lemma onModelChange_history (modelId : option Z) (rpc : Outcome FieldsResult) (s : State) :
  history (onModelChange modelId rpc s) = history s /\
  historyIndex (onModelChange modelId rpc s) = historyIndex s.
Proof.
  unfold onModelChange, clearModelData. destruct (falsy_id modelId); [now split|].
  change (availableModels (set_errors [] (set_loading true s))) with (availableModels s).
  destruct (find _ _); [|now split].
  destruct rpc as [result|error]; [|now split].
  destruct (fr_success result); now split.
Qed.

Lemma onModelChange_selects (modelId : option Z) (result : FieldsResult) (model : Model)
    (s : State) :
  falsy_id modelId = false ->
  find (is_model modelId) (availableModels s) = Some model ->
  fr_success result = true ->
  selectedModel (onModelChange modelId (Resolved result) s) = Some model /\
  availableFields (onModelChange modelId (Resolved result) s) = fr_fields result.
Proof.
  intros Hid Hfind Hok. rewrite (onModelChange_run _ _ _ _ Hid Hfind Hok).
  destruct (onModelChange_before result model s) as (Bm & Ba & _).
  set (base := set_availableFields _ _) in *. clearbody base.
  destruct (clearReportData_frame base) as (Cm & Ca & _).
  set (cleared := clearReportData base) in *. clearbody cleared.
  destruct (onModelChange_after (Some (or_default (fr_message result) MFieldsLoaded)) cleared)
    as (Am & Aa & _).
  rewrite Am, Aa, Cm, Ca. now split.
Qed.

Lemma onModelChange_not_found (modelId : option Z) (rpc : Outcome FieldsResult) (s : State) :
  falsy_id modelId = false ->
  find (is_model modelId) (availableModels s) = None ->
  selectedModel (onModelChange modelId rpc s) = selectedModel s /\
  availableFields (onModelChange modelId rpc s) = availableFields s /\
  log (onModelChange modelId rpc s) = log s ++ [failure (Some MModelNotFound)].
Proof.
  intros Hid Hfind. unfold onModelChange. rewrite Hid.
  change (availableModels (set_errors [] (set_loading true s))) with (availableModels s).
  rewrite Hfind. repeat split.
Qed.

(** Four new arrays assigned to the state. *)
Lemma new_collections (a1 : list FieldSpec) (a2 : list FilterSpec) (a3 : list GroupSpec)
    (a4 : list SortSpec) (s : State) :
  let s' := new_sorts a4 (new_groups a3 (new_filters a2 (new_selectedFields a1 s))) in
  liveContents s' = (a1, a2, a3, a4) /\ valid_refs s' (liveRefs s') /\
  history s' = history s /\ historyIndex s' = historyIndex s /\
  selectedModel s' = selectedModel s /\ availableFields s' = availableFields s /\
  log s' = log s.
Proof.
  cbv zeta. split; [|split].
  - unfold liveContents, contents, liveRefs, new_sorts, new_groups, new_filters,
      new_selectedFields, alloc.
    cbn. now rewrite !read_alloc_new.
  - unfold valid_refs, liveRefs, new_sorts, new_groups, new_filters,
      new_selectedFields, alloc.
    cbn. rewrite !length_app. cbn. lia.
  - repeat split.
Qed.

(** What [importSettings] does with a document that has a model and
    fields. *)
Lemma importSettings_accepted (file : File) (settings : Settings) (model : Model)
    (fields : list FieldSpec) (rpc : Outcome FieldsResult) (now : Z) (c : Component) :
  file_parsed file = Document settings ->
  doc_model settings = Some model -> doc_fields settings = Some fields ->
  cursor_ok (state c) ->
  let s1 := onModelChange (Some (m_id model)) rpc (state c) in
  let c' := importSettings (Some file) rpc now c in
  liveContents (state c') = imported fields settings /\
  (exists e, last (history (state c')) = Some e /\ call_of e = importCall file now /\
             contents (state c') (h_state e) = imported fields settings) /\
  notices c' = notices c ++ [(Success, TSettingsImported)] /\
  selectedModel (state c') = selectedModel s1 /\
  availableFields (state c') = availableFields s1 /\ log (state c') = log s1.
Proof.
  intros Hp Hm Hf Hok. cbv zeta.
  destruct (onModelChange_history (Some (m_id model)) rpc (state c)) as [Hh1 Hi1].
  assert (importSettings (Some file) rpc now c =
          notice Success TSettingsImported
            (set_state
               (addCall
                  (new_sorts (default [] (doc_sorts settings))
                     (new_groups (default [] (doc_groups settings))
                        (new_filters (default [] (doc_filters settings))
                           (new_selectedFields fields
                              (onModelChange (Some (m_id model)) rpc (state c))))))
                  (importCall file now)) c)) as ->.
  { unfold importSettings. rewrite Hp, Hm, Hf. rewrite addToHistory_as_call. reflexivity. }
  set (s1 := onModelChange (Some (m_id model)) rpc (state c)) in *. clearbody s1.
  destruct (new_collections fields (default [] (doc_filters settings))
              (default [] (doc_groups settings)) (default [] (doc_sorts settings)) s1)
    as (Nlive & Nvalid & Nh & Ni & Nm & Na & Nl).
  set (s5 := new_sorts _ _) in *. clearbody s5.
  assert (cursor_ok s5) as Hok5 by (unfold cursor_ok in *; now rewrite Nh, Ni, Hh1, Hi1).
  pose proof (liveContents_addCall s5 (importCall file now) Nvalid) as Hlive.
  pose proof (contents_new_entry s5 (importCall file now)) as Hentry.
  destruct (addCall_entries s5 (importCall file now) Hok5) as [Hlast _].
  destruct (addCall_frame s5 (importCall file now)) as (_ & _ & _ & _ & _ & Hlog & Hrest).
  destruct Hrest as (Rm & _ & Ra & _).
  set (s6 := addCall s5 (importCall file now)) in *. clearbody s6.
  change (state (notice Success TSettingsImported (set_state s6 c))) with s6.
  split; [now rewrite Hlive, Nlive|]. split.
  - exists (entry_of (importCall file now) s5). split; [exact Hlast|].
    split; [apply call_of_entry_of | now rewrite Hentry, Nlive].
  - split; [reflexivity|]. split; [congruence|]. split; congruence.
Qed.

(** X21: [importSettings].  Without a file nothing happens; a file that
    cannot be parsed, or whose document has no model or no fields, only
    gives an error notification.  Otherwise the four collections of the
    state are those of the document (an absent one counts as empty),
    whatever [onModelChange] did, the import is the last entry of the
    history with a snapshot of the imported collections, and success is
    reported.  When the model of the document is not among the available
    models, the model selected before and its available fields stay,
    under the imported collections, and the error of [onModelChange] is
    shown besides the success. *)
Theorem importSettings_spec (file : File) (rpc : Outcome FieldsResult) (now : Z)
    (c : Component) :
  importSettings None rpc now c = c /\
  (forall message, file_parsed file = ParseError message ->
     importSettings (Some file) rpc now c = notice Danger (TEngine message) c) /\
  (forall settings, file_parsed file = Document settings ->
     (doc_model settings = None \/ doc_fields settings = None ->
      importSettings (Some file) rpc now c = notice Danger TBadSettingsFile c) /\
     (forall model fields,
        doc_model settings = Some model -> doc_fields settings = Some fields ->
        cursor_ok (state c) ->
        let c' := importSettings (Some file) rpc now c in
        liveContents (state c') = imported fields settings /\
        (exists e, last (history (state c')) = Some e /\
                   call_of e = importCall file now /\
                   contents (state c') (h_state e) = imported fields settings) /\
        notices c' = notices c ++ [(Success, TSettingsImported)] /\
        (m_id model <> 0 ->
         find (is_model (Some (m_id model))) (availableModels (state c)) = None ->
         selectedModel (state c') = selectedModel (state c) /\
         availableFields (state c') = availableFields (state c) /\
         log (state c') = log (state c) ++ [failure (Some MModelNotFound)]))).
Proof.
  split; [reflexivity|]. split.
  - intros message Hp. unfold importSettings. now rewrite Hp.
  - intros settings Hp. split.
    + intros Hmissing. unfold importSettings. rewrite Hp.
      destruct Hmissing as [-> | ->]; [reflexivity|].
      now destruct (doc_model settings).
    + intros model fields Hm Hf Hok.
      destruct (importSettings_accepted file settings model fields rpc now c Hp Hm Hf Hok)
        as (Hlive & Hentry & Hnotices & Hsel & Hav & Hlog).
      cbv zeta. split; [exact Hlive|]. split; [exact Hentry|]. split; [exact Hnotices|].
      intros Hid Hfind.
      destruct (onModelChange_not_found (Some (m_id model)) rpc (state c))
        as (Hm1 & Ha1 & Hl1); [now apply Z.eqb_neq | exact Hfind |].
      rewrite Hsel, Hav, Hlog. auto.
Qed.

(** X22: a settings file written by [exportSettings] and read by
    [importSettings].  The four collections after the import are those
    of the exporting component.  When the exported model is among the
    available models and the server sends its fields, the model selected
    is the available one with the exported id.  A file exported with no
    model selected is refused. *)
Theorem export_import_roundtrip (exported_at name : string) (rpc : Outcome FieldsResult)
    (now : Z) (source c : Component) :
  cursor_ok (state c) ->
  let file := {| file_name := name;
                 file_parsed := Document (fst (exportSettings exported_at source)) |} in
  let c' := importSettings (Some file) rpc now c in
  (selectedModel (state source) = None -> c' = notice Danger TBadSettingsFile c) /\
  (forall exported, selectedModel (state source) = Some exported ->
     liveContents (state c') = liveContents (state source) /\
     (forall model result,
        m_id exported <> 0 ->
        find (is_model (Some (m_id exported))) (availableModels (state c)) = Some model ->
        rpc = Resolved result -> fr_success result = true ->
        selectedModel (state c') = Some model /\
        availableFields (state c') = fr_fields result)).
Proof.
  intros Hok file c'. split.
  - intros Hnone. subst c' file. unfold importSettings, exportSettings.
    cbn [file_parsed fst doc_model doc_fields]. now rewrite Hnone.
  - intros exported Hm.
    destruct (importSettings_accepted file (fst (exportSettings exported_at source))
                exported (liveFields (state source)) rpc now c)
      as (Hlive & _ & _ & Hsel & Hav & _); [reflexivity | exact Hm | reflexivity | exact Hok |].
    fold c' in Hlive, Hsel, Hav. split; [exact Hlive|].
    intros model result Hid Hfind -> Hsucc.
    destruct (onModelChange_selects (Some (m_id exported)) result model (state c))
      as [Hs Ha]; [now apply Z.eqb_neq | exact Hfind | exact Hsucc |].
    rewrite Hsel, Hav. auto.
Qed.

(** ** What is logged in the history *)

Lemma keeps_log_forEach {A} (f : A -> nat -> State -> State) (l : list A) :
  (forall x i, keeps_log (f x i)) -> keeps_log (forEach f l).
Proof.
  intros Hf s. unfold forEach. generalize 0%nat. revert s.
  induction l as [|x l IH]; intros s index; [now split|].
  cbn [forEach_from]. destruct (IH (f x index s) (S index)) as [-> ->]. apply Hf.
Qed.

Lemma keeps_log_addField (field : FieldDesc) : keeps_log (addField field).
Proof. intros s. unfold addField. destruct (find _ _); now split. Qed.

(** X23: what is not logged.  Adding, removing and moving a field,
    every change of a filter, a sort or a group, accepting
    recommendations, changing the model, executing the report and
    clearing the cache leave the log and its cursor as they are. *)
Theorem plain_edits_are_not_logged :
  (forall field, keeps_log (addField field)) /\
  (forall fieldName, keeps_log (removeField fieldName)) /\
  (forall fieldName direction, keeps_log (moveField fieldName direction)) /\
  (forall now, keeps_log (addFilter now)) /\
  (forall filterId, keeps_log (removeFilter filterId)) /\
  (forall filterId u, keeps_log (updateFilter filterId u)) /\
  (forall now, keeps_log (addSort now)) /\
  (forall sortId, keeps_log (removeSort sortId)) /\
  (forall now, keeps_log (addGroup now)) /\
  (forall groupId, keeps_log (removeGroup groupId)) /\
  (forall fields, keeps_log (acceptRecommendations fields)) /\
  (forall modelId rpc, keeps_log (onModelChange modelId rpc)) /\
  (forall create rpc, keeps_log (executeReport create rpc)) /\
  (forall create rpc startTime endTime,
     keeps_log (executeWithCache create rpc startTime endTime)) /\
  keeps_log clearCache.
Proof.
  assert (forall create rpc, keeps_log (executeReport create rpc)) as Hexec.
  { intros create rpc s.
    destruct (executeReport_frame create rpc s) as (_ & _ & _ & _ & (Hh & _) & Hi & _).
    now split. }
  repeat match goal with |- _ /\ _ => split end.
  - apply keeps_log_addField.
  - intros n s. unfold removeField. destruct (findIndex _ _); [|now split].
    destruct (_ !! _); now split.
  - intros n d s. unfold moveField. destruct (findIndex _ _); [|now split].
    destruct (_ && _); now split.
  - intros now s. now split.
  - intros i s. unfold removeFilter. destruct (findIndex _ _); now split.
  - intros i u s. unfold updateFilter. destruct (findIndex _ _); [|now split].
    destruct (_ !! _); now split.
  - intros now s. now split.
  - intros i s. unfold removeSort. destruct (findIndex _ _); now split.
  - intros now s. now split.
  - intros i s. unfold removeGroup. destruct (findIndex _ _); now split.
  - intros fields. unfold acceptRecommendations. apply keeps_log_forEach.
    intros x i. apply keeps_log_addField.
  - intros modelId rpc s. apply onModelChange_history.
  - exact Hexec.
  - intros create rpc t0 t1 s. unfold executeWithCache.
    destruct (_ !! _); [now split|].
    destruct (Hexec create rpc s) as [Hh Hi].
    set (s1 := executeReport create rpc s) in *. clearbody s1.
    destruct (truthy (reportData s1)); now split.
  - intros s. now split.
Qed.

(** ** A duplicate and its original *)

(** X24: after [duplicateField] the copy is the last field; it has the
    name of the original.  [removeField] with that name then removes the
    original, not the copy: the copy stays as the last field, and the
    label shown as removed is the original's.  A name no field has makes
    [duplicateField] do nothing. *)
Theorem duplicate_then_remove (fieldName : string) (now : Z) (s : State) :
  ((forall f, In f (liveFields s) -> name f <> fieldName) ->
   duplicateField fieldName now s = s) /\
  (forall i f, findIndex (has_name fieldName) (liveFields s) = Some i ->
     liveFields s !! i = Some f ->
     let copy := copyOf f (length (liveFields s)) in
     let s1 := duplicateField fieldName now s in
     liveFields s1 = liveFields s ++ [copy] /\
     liveFields (removeField fieldName s1) = delete i (liveFields s) ++ [copy] /\
     log (removeField fieldName s1) = log s1 ++ [info (MFieldRemoved (label f))]).
Proof.
  split.
  - intros Habs. unfold duplicateField.
    destruct (find (has_name fieldName) (liveFields s)) as [f|] eqn:E; [|reflexivity].
    apply find_some in E as [Hin Hn]. apply String.eqb_eq in Hn.
    now destruct (Habs f Hin).
  - intros i f Hi Hf copy s1.
    assert (find (has_name fieldName) (liveFields s) = Some f) as Hfind
        by (rewrite find_findIndex, Hi; exact Hf).
    pose proof (duplicateField_fields fieldName now s f Hfind) as Hdup.
    fold (copyOf f (length (liveFields s))) in Hdup. fold copy s1 in Hdup.
    clearbody s1.
    assert (findIndex (has_name fieldName) (liveFields s1) = Some i) as Hi1
        by (rewrite Hdup; now apply findIndex_app_old).
    destruct (removeField_at fieldName s1 i Hi1) as (x & Hx & _ & E & Hl).
    assert (x = f) as ->.
    { rewrite Hdup, lookup_app_l in Hx by exact (findIndex_lt _ _ _ Hi). congruence. }
    split; [exact Hdup|]. split.
    + rewrite Hl, Hdup. apply delete_app_old. exact (findIndex_lt _ _ _ Hi).
    + rewrite E. reflexivity.
Qed.

(** ** Clearing the cache *)

(** X25: [clearCache] empties the cache and tells so; the results shown
    stay.  The next [executeWithCache] is carried out, not served from
    the cache, and counted; when it leaves results, they are the only
    entry of the cache afterwards. *)
Theorem clearCache_then_execute (create : Outcome Z) (rpc : Outcome ExecResult)
    (startTime endTime : Z) (s : State) :
  let s0 := clearCache s in
  let s1 := executeWithCache create rpc startTime endTime s0 in
  (cachedResults s0 = ∅ /\ reportData s0 = reportData s /\
   log s0 = log s ++ [info MCacheCleared]) /\
  reportData s1 = reportData (executeReport create rpc s0) /\
  (truthy (reportData s1) = true ->
   cachedResults s1 = {[ generateCacheKey s := reportData s1 ]}) /\
  totalExecutions (executionStats s1) = totalExecutions (executionStats s) + 1.
Proof.
  cbv zeta.
  assert (cachedResults (clearCache s) = ∅ /\ reportData (clearCache s) = reportData s /\
          log (clearCache s) = log s ++ [info MCacheCleared] /\
          executionStats (clearCache s) = executionStats s /\
          selectedModel (clearCache s) = selectedModel s /\
          liveContents (clearCache s) = liveContents s) as (Hc & Hd & Hl & He & Hm & Hlive)
      by (repeat split).
  pose proof (generateCacheKey_frame s (clearCache s) Hm Hlive) as Hkey.
  set (s0 := clearCache s) in *. clearbody s0.
  assert (cachedResults s0 !! generateCacheKey s0 = None) as Hmiss
      by (rewrite Hc; apply lookup_empty).
  destruct (miss_caches create rpc startTime endTime s0 Hmiss)
    as (Hdata & _ & Hstore & _ & Hstats).
  split; [auto|]. split; [exact Hdata|]. split.
  - intros Ht. destruct (Hstore Ht) as [-> _]. rewrite Hc, Hkey.
    first [reflexivity | apply insert_empty].
  - rewrite Hstats, He. reflexivity.
Qed.

(** ** Undo and redo after two logged actions *)

(** The loop of the confirmation writes the array of the selected
    fields and nothing else. *)
Lemma forEach_pushChosen_store (chosen : list FieldDesc) (index : nat) (s : State) :
  let m := forEach_from pushChosen chosen index s in
  history m = history s /\ historyIndex m = historyIndex s /\ liveRefs m = liveRefs s /\
  log m = log s /\
  filterArrays m = filterArrays s /\ groupArrays m = groupArrays s /\
  sortArrays m = sortArrays s /\ length (fieldArrays m) = length (fieldArrays s) /\
  (forall l, l <> selectedFields s -> fieldArrays m !!! l = fieldArrays s !!! l).
Proof.
  revert index s. induction chosen as [|field chosen IH]; intros index s; cbv zeta.
  - cbn. repeat split.
  - cbn [forEach_from].
    destruct (IH (S index) (pushChosen field index s))
      as (Hh & Hi & Hr & Hl & Hq & Hg & Hs & Hn & Hf). cbv zeta in *.
    rewrite Hh, Hi, Hr, Hl, Hq, Hg, Hs, Hn.
    do 7 (split; [reflexivity|]). split.
    + unfold pushChosen, write_selectedFields. cbn [fieldArrays set_fieldArrays].
      apply length_insert.
    + intros l Hne. rewrite Hf by exact Hne.
      unfold pushChosen, write_selectedFields. cbn [fieldArrays set_fieldArrays].
      apply read_write_ne. congruence.
Qed.

Lemma bulkAddConfirm_run (chosen : list FieldDesc) (now : Z) (s : State) :
  bulkAddConfirm chosen now s =
  showSuccess (Some (MFieldsAdded (Z.of_nat (length chosen))))
    (addCall (forEach pushChosen chosen s) (bulkCall chosen now)).
Proof. unfold bulkAddConfirm. rewrite addToHistory_as_call. reflexivity. Qed.

(** The state a logged action leaves. *)
Lemma tracked_intro (m s : State) (c : Call) (e : HistoryEntry) :
  valid_refs m (liveRefs m) -> inv s ->
  historyIndex s = Z.of_nat (length (history s)) - 1 ->
  last (history s) = Some e ->
  contents s (h_state e) = liveContents m -> liveContents s = liveContents m ->
  fieldArrays s = fieldArrays m ++ [liveFields m] ->
  filterArrays s = filterArrays m ++ [liveFilters m] ->
  groupArrays s = groupArrays m ++ [liveGroups m] ->
  sortArrays s = sortArrays m ++ [liveSorts m] ->
  liveRefs s = liveRefs m ->
  h_state e = {| snap_selectedFields := length (fieldArrays m);
                 snap_filters := length (filterArrays m);
                 snap_groups := length (groupArrays m);
                 snap_sorts := length (sortArrays m) |} ->
  tracked s e.
Proof.
  intros Hvalid Hinv Hcur Hlast Hentry Hlive Hf Hq Hg Hs Hrefs Hsnap.
  split; [exact Hinv|]. split; [|split; [|split]].
  - unfold entry_at. rewrite Hcur. rewrite last_lookup in Hlast.
    destruct (length (history s)) as [|n] eqn:En.
    + destruct (history s); discriminate.
    + destruct (Z.ltb_spec (Z.of_nat (S n) - 1) 0); [lia|].
      replace (Z.to_nat (Z.of_nat (S n) - 1)) with (pred (S n)) by lia. exact Hlast.
  - now rewrite Hentry, Hlive.
  - rewrite Hsnap. cbn [snap_selectedFields].
    assert (selectedFields s = selectedFields m) as ->
        by (apply (f_equal snap_selectedFields) in Hrefs; exact Hrefs).
    destruct Hvalid as (Hv & _). cbn in Hv. lia.
  - rewrite Hsnap. unfold valid_refs. cbn. rewrite Hf, Hq, Hg, Hs, !length_app. cbn. lia.
Qed.

Lemma tracked_addCall (m : State) (c : Call) :
  inv m -> tracked (addCall m c) (entry_of c m).
Proof.
  intros [Hok Hwf].
  destruct (addCall_entries m c Hok) as [Hlast _].
  destruct (addCall_frame m c) as (Hf & Hq & Hg & Hs & Hrefs & _).
  destruct (snapshot_spec m) as (Hcopy & _).
  apply (tracked_intro m (addCall m c) c (entry_of c m)).
  - apply Hwf.
  - split; [|now apply wf_addCall].
    unfold cursor_ok. rewrite addCall_cursor_last.
    generalize (length (history (addCall m c))). intros n. lia.
  - apply addCall_cursor_last.
  - exact Hlast.
  - apply contents_new_entry.
  - apply liveContents_addCall, Hwf.
  - exact Hf.
  - exact Hq.
  - exact Hg.
  - exact Hs.
  - exact Hrefs.
  - exact Hcopy.
Qed.

Lemma tracked_notify (m : option Message) (t : Severity) (sticky : bool) (s : State)
    (e : HistoryEntry) :
  tracked s e -> tracked (notify m t sticky s) e.
Proof. intros H. exact H. Qed.

(** The second action: the loop of the confirmation and the call of
    [addToHistory]. *)
Lemma two_entries_intro (s m x : State) (e enew : HistoryEntry) :
  tracked s e ->
  history m = history s -> historyIndex m = historyIndex s -> liveRefs m = liveRefs s ->
  filterArrays m = filterArrays s -> groupArrays m = groupArrays s ->
  sortArrays m = sortArrays s -> length (fieldArrays m) = length (fieldArrays s) ->
  (forall l, l <> selectedFields s -> fieldArrays m !!! l = fieldArrays s !!! l) ->
  (0 < historyIndex x /\ entry_at (historyIndex x) x = Some enew /\
   entry_at (historyIndex x - 1) x = Some e) ->
  historyIndex x = Z.of_nat (length (history x)) - 1 ->
  contents x (h_state e) = contents m (h_state e) ->
  contents x (h_state enew) = liveContents m -> liveContents x = liveContents m ->
  two_entries x e enew (liveContents s).
Proof.
  intros (Hinv & He & Htracks & Hne & Hve) Hh Hi Hr Hq Hg Hs Hn Hf
    (Hpos & Hnew & Hprev) Hcur Hold Hcopy Hlive.
  split; [exact Hpos|]. split; [exact Hcur|]. split; [exact Hnew|].
  split; [exact Hprev|]. split; [|now rewrite Hcopy, Hlive].
  rewrite Hold, <- Htracks. unfold contents. rewrite Hq, Hg, Hs.
  now rewrite Hf by exact Hne.
Qed.

Lemma two_entries_bulk (chosen : list FieldDesc) (now : Z) (s : State) (e : HistoryEntry) :
  tracked s e ->
  let m := forEach pushChosen chosen s in
  two_entries (addCall m (bulkCall chosen now)) e (entry_of (bulkCall chosen now) m)
    (liveContents s).
Proof.
  intros Ht. cbv zeta. pose proof Ht as (Hinv & He & Htracks & Hne & Hve).
  destruct (forEach_pushChosen_store chosen 0 s)
    as (Hh & Hi & Hr & _ & Hq & Hg & Hs & Hn & Hf).
  fold (forEach pushChosen chosen s) in *.
  assert (inv (forEach pushChosen chosen s)) as Hinvm.
  { apply inv_forEach_from; [|exact Hinv]. intros x i s' H'. unfold pushChosen.
    now apply inv_write_selectedFields. }
  assert (entry_at (historyIndex (forEach pushChosen chosen s)) (forEach pushChosen chosen s)
          = Some e) as Hem by (unfold entry_at in *; now rewrite Hi, Hh).
  assert (valid_refs (forEach pushChosen chosen s) (h_state e)) as Hvm.
  { destruct Hve as (V1 & V2 & V3 & V4). unfold valid_refs. now rewrite Hn, Hq, Hg, Hs. }
  apply (two_entries_intro s (forEach pushChosen chosen s)); try assumption.
  - apply addCall_last_two; [apply Hinvm | exact Hem].
  - apply addCall_cursor_last.
  - now apply contents_addCall.
  - apply contents_new_entry.
  - apply liveContents_addCall, Hinvm.
Qed.

Lemma two_entries_notify (m : option Message) (t : Severity) (sticky : bool) (s : State)
    (eprev enew : HistoryEntry)
    (before : list FieldSpec * list FilterSpec * list GroupSpec * list SortSpec) :
  two_entries s eprev enew before -> two_entries (notify m t sticky s) eprev enew before.
Proof. intros H. exact H. Qed.

(** [undo] and [redo] from the last of two entries. *)
Lemma two_entries_roundtrip (after : State) (eprev enew : HistoryEntry)
    (before : list FieldSpec * list FilterSpec * list GroupSpec * list SortSpec) :
  two_entries after eprev enew before ->
  fst (undo after) = Normal /\ liveContents (snd (undo after)) = before /\
  fst (redo (snd (undo after))) = Normal /\
  liveContents (snd (redo (snd (undo after)))) = liveContents after.
Proof.
  intros (Hpos & Hcur & Hnew & Hprev & Hold & Hcopy).
  rewrite (undo_to _ _ Hpos Hprev). cbn [fst snd].
  destruct (restore_frame MUndone (h_state eprev) (historyIndex after - 1) after)
    as (Hiu & Hhu & Hlu & Hcu).
  generalize dependent (showInfo MUndone
    (restoreState (h_state eprev) (set_historyIndex (historyIndex after - 1) after))).
  intros undone Hiu Hhu Hlu Hcu.
  assert (entry_at (historyIndex undone + 1) undone = Some enew) as Hnext.
  { unfold entry_at in *. rewrite Hiu, Hhu.
    replace (historyIndex after - 1 + 1) with (historyIndex after) by lia.
    exact Hnew. }
  rewrite (redo_to undone enew); [|rewrite Hiu, Hhu; lia | exact Hnext]. cbn [fst snd].
  destruct (restore_frame MRedone (h_state enew) (historyIndex undone + 1) undone)
    as (_ & _ & Hlr & _).
  split; [reflexivity|]. split; [now rewrite Hlu|]. split; [reflexivity|].
  now rewrite Hlr, Hcu.
Qed.

(** X26: two logged actions in a row.  After two confirmed bulk-adds,
    in any state the component reaches, [undo] puts the four collections
    back to their values between the two actions, and [redo] to their
    values after the second; neither throws. *)
Theorem undo_redo_after_two_actions (chosen1 chosen2 : list FieldDesc) (now1 now2 : Z)
    (s : State) :
  reachable s ->
  let between := bulkAddConfirm chosen1 now1 s in
  let after := bulkAddConfirm chosen2 now2 between in
  fst (undo after) = Normal /\ liveContents (snd (undo after)) = liveContents between /\
  fst (redo (snd (undo after))) = Normal /\
  liveContents (snd (redo (snd (undo after)))) = liveContents after.
Proof.
  intros Hr. cbv zeta. apply reachable_inv in Hr.
  assert (inv (forEach pushChosen chosen1 s)) as Hinv1.
  { apply inv_forEach_from; [|exact Hr]. intros x i s' H'. unfold pushChosen.
    now apply inv_write_selectedFields. }
  pose proof (tracked_addCall _ (bulkCall chosen1 now1) Hinv1) as Ht.
  apply (tracked_notify (Some (MFieldsAdded (Z.of_nat (length chosen1)))) Success false) in Ht.
  fold (showSuccess (Some (MFieldsAdded (Z.of_nat (length chosen1))))
          (addCall (forEach pushChosen chosen1 s) (bulkCall chosen1 now1))) in Ht.
  rewrite <- bulkAddConfirm_run in Ht.
  generalize dependent (bulkAddConfirm chosen1 now1 s). intros between Ht.
  pose proof (two_entries_bulk chosen2 now2 between _ Ht) as H2. cbv zeta in H2.
  apply (two_entries_notify (Some (MFieldsAdded (Z.of_nat (length chosen2)))) Success false)
    in H2.
  fold (showSuccess (Some (MFieldsAdded (Z.of_nat (length chosen2))))
          (addCall (forEach pushChosen chosen2 between) (bulkCall chosen2 now2))) in H2.
  rewrite <- bulkAddConfirm_run in H2.
  exact (two_entries_roundtrip _ _ _ _ H2).
Qed.

(** ** The whole bulk-add *)


(** ** Export of the report and saving as a template *)





(** X29: [saveAsTemplate].  With settings that validation refuses,
    nothing is created and no name is asked for; the errors are recorded
    and shown as by [validateReportSettings].  With valid settings and a
    cancelled or empty name nothing is created and nothing shown.  With
    a name, one record is sent: the name, the id of the selected model,
    the template flag, and the field and filter lines a temporary report
    of the same settings has; success or the error is shown. *)
Theorem saveAsTemplate_spec (templateName : option string) (create : Outcome Z)
    (c : Component) :
  let r := saveAsTemplate templateName create c in
  state (snd r) = snd (validateReportSettings (state c)) /\
  (fst (validateReportSettings (state c)) = false ->
   fst r = None /\ notices (snd r) = notices c) /\
  (fst (validateReportSettings (state c)) = true ->
   (templateName = None \/ templateName = Some "" ->
    fst r = None /\ notices (snd r) = notices c /\ log (state (snd r)) = log (state c)) /\
   (forall n, templateName = Some n -> n <> "" ->
      exists m, selectedModel (state c) = Some m /\
        fst r = Some {| tpl_name := n; tpl_model_id := m_id m; tpl_is_template := true;
                        tpl_field_ids := r_field_ids (tempReport m (state c));
                        tpl_filter_ids := r_filter_ids (tempReport m (state c)) |} /\
        log (state (snd r)) = log (state c) /\
        notices (snd r) = notices c ++
          [match create with
           | Resolved _ => (Success, TTemplateSaved)
           | Rejected error => (Danger, shownText TTemplateError error)
           end])).
Proof.
  cbv zeta. unfold saveAsTemplate.
  destruct (fst (validateReportSettings (state c))) eqn:Hok.
  - destruct (validate_true _ Hok) as (_ & Hs0 & m & Hm).
    destruct (validateReportSettings (state c)) as [ok s0]. cbn [fst snd] in *. subst ok s0.
    cbn [negb]. cbn [selectedModel set_errors]. rewrite Hm.
    split; [|split; [discriminate|intros _; split]].
    + destruct templateName as [n|]; [|reflexivity].
      destruct (String.eqb n ""); [reflexivity|]. destruct create; reflexivity.
    + intros [-> | ->]; repeat split.
    + intros n -> Hn. apply String.eqb_neq in Hn. rewrite Hn.
      exists m. split; [reflexivity|]. destruct create; repeat split.
  - destruct (validateReportSettings (state c)) as [ok s0]. cbn [fst snd] in *. subst ok.
    cbn [negb]. split; [reflexivity|]. split; [intros _; split; reflexivity | discriminate].
Qed.

(** ** Instances of the further properties at concrete inputs *)

Lemma no_phone_field : forall f, In f (liveFields twoFields) -> name f <> "phone".
Proof.
  assert (map name (liveFields twoFields) = ["name"; "email"]) as E
      by (vm_compute; reflexivity).
  intros f Hf Hn. apply (in_map name) in Hf.
  rewrite E, Hn in Hf. destruct Hf as [Hf | [Hf | []]]; discriminate.
Defined.

(** [email], the second of two fields, is removed; [phone] is not selected. *)
Lemma removeField_spec_witness :
  findIndex (has_name "email") (liveFields twoFields) = Some 1%nat /\
  (exists removed,
     liveFields twoFields !! 1%nat = Some removed /\
     liveFields (removeField "email" twoFields)
       = take 1 (liveFields twoFields) ++ drop 2 (liveFields twoFields)) /\
  removeField "phone" twoFields = twoFields.
Proof.
  assert (findIndex (has_name "email") (liveFields twoFields) = Some 1%nat) as Hi
      by (vm_compute; reflexivity).
  destruct (removeField_spec "email" twoFields) as [_ Hfound].
  destruct (Hfound 1%nat Hi) as (removed & Hr & _ & Hl & _).
  destruct (removeField_spec "phone" twoFields) as [Habsent _].
  split; [exact Hi|]. split; [exists removed; split; [exact Hr | exact Hl]|].
  exact (Habsent no_phone_field).
Defined.

(** The field [amount_total] is added to the two fields and removed
    again; [email] is selected already. *)
Lemma addField_then_removeField_witness :
  (selectedFields twoFields < length (fieldArrays twoFields))%nat /\
  liveFields (removeField (fd_name totalField) (addField totalField twoFields))
    = liveFields twoFields /\
  liveFields (removeField (fd_name emailField) (addField emailField twoFields))
    = delete 1%nat (liveFields twoFields).
Proof.
  assert (selectedFields twoFields < length (fieldArrays twoFields))%nat as Hv
      by (vm_compute; lia).
  assert (fieldNames twoFields = ["name"; "email"]) as E by (vm_compute; reflexivity).
  assert (findIndex (has_name (fd_name emailField)) (liveFields twoFields) = Some 1%nat) as Hi
      by (vm_compute; reflexivity).
  destruct (addField_then_removeField totalField twoFields Hv) as [Hnew _].
  destruct (addField_then_removeField emailField twoFields Hv) as [_ Hold].
  split; [exact Hv|]. split; [|exact (Hold 1%nat Hi)].
  apply Hnew. rewrite E. intros [H | [H | []]]; discriminate.
Defined.

(** The two fields, and the same fields with their order of sequence
    numbers written anew by a move up and down. *)
Lemma prepareFields_by_position_witness :
  map (set_sequence 0) (liveFields twoFields)
    = map (set_sequence 0) (liveFields (moveField "email" "down" (moveField "email" "up" twoFields))) /\
  map fl_sequence (prepareFields twoFields) = map Z.of_nat (seq 1 (length (liveFields twoFields))) /\
  prepareFields twoFields
    = prepareFields (moveField "email" "down" (moveField "email" "up" twoFields)).
Proof.
  assert (map (set_sequence 0) (liveFields twoFields)
          = map (set_sequence 0)
              (liveFields (moveField "email" "down" (moveField "email" "up" twoFields)))) as E
      by (vm_compute; reflexivity).
  destruct (prepareFields_by_position twoFields) as (Hseq & _ & Hsame).
  split; [exact E|]. split; [exact Hseq | exact (Hsame _ E)].
Defined.

(** The contact state with one field: a run that succeeds, and a state
    without a model, which validation refuses. *)
Lemma executeReport_outcomes_witness :
  fst (validateReportSettings partnerState) = true /\
  fst (validateReportSettings initialState) = false /\
  (let s' := executeReport (Resolved 7) (Resolved annResult) partnerState in
   loading s' = false /\ errors s' = []) /\
  (let s' := executeReport (Resolved 7) (Resolved annResult) initialState in
   report_untouched initialState s' /\ errors s' = collectErrors initialState).
Proof.
  assert (fst (validateReportSettings partnerState) = true) as Hok
      by (vm_compute; reflexivity).
  assert (fst (validateReportSettings initialState) = false) as Hbad
      by (vm_compute; reflexivity).
  pose proof (executeReport_outcomes (Resolved 7) (Resolved annResult) partnerState) as H1.
  pose proof (executeReport_outcomes (Resolved 7) (Resolved annResult) initialState) as H2.
  cbv zeta in H1, H2.
  destruct H1 as (_ & _ & Hrun). destruct (Hrun Hok) as (Hl & He & _).
  destruct H2 as (_ & Hrefused & _). destruct (Hrefused Hbad) as (_ & Hu & Herr & _).
  cbv zeta. split; [exact Hok|]. split; [exact Hbad|].
  split; [split; [exact Hl | exact He] | split; [exact Hu | exact Herr]].
Defined.

(** A first cached run on the contact state, then a second call whose
    server calls would fail. *)
Lemma executeWithCache_miss_then_hit_witness :
  cachedResults partnerState !! generateCacheKey partnerState = None /\
  (let s1 := executeWithCache (Resolved 7) (Resolved annResult) 100 130 partnerState in
   let s2 := executeWithCache (Rejected ENull) (Rejected ENull) 200 230 s1 in
   truthy (reportData s1) = true /\
   lastExecutionTime (executionStats s1) = 130 - 100 /\
   reportData s2 = reportData s1 /\ log s2 = log s1 ++ [fromCache]).
Proof.
  assert (cachedResults partnerState !! generateCacheKey partnerState = None) as Hmiss
      by (vm_compute; reflexivity).
  assert (truthy (reportData (executeWithCache (Resolved 7) (Resolved annResult) 100 130
                                partnerState)) = true) as Hdata
      by (vm_compute; reflexivity).
  pose proof (executeWithCache_miss_then_hit (Resolved 7) (Rejected ENull)
                (Resolved annResult) (Rejected ENull) 100 130 200 230 partnerState Hmiss) as H.
  cbv zeta in H. destruct H as (_ & Ht & Hhit).
  destruct (Hhit Hdata) as (_ & Hd & _ & Hl & _).
  cbv zeta. split; [exact Hmiss|]. split; [exact Hdata|]. split; [exact Ht|].
  split; [exact Hd | exact Hl].
Defined.

(** After the cached run a field is added, so the key is new; the
    execution fails, and the old rows are stored under the new key. *)
Lemma failed_execution_caches_earlier_results_witness :
  cachedResults (addField emailField cachedState)
    !! generateCacheKey (addField emailField cachedState) = None /\
  truthy (reportData (addField emailField cachedState)) = true /\
  (let s := addField emailField cachedState in
   let s1 := executeWithCache (Rejected ENull) (Rejected ENull) 200 230 s in
   let s2 := executeWithCache (Rejected ENull) (Rejected ENull) 300 330 s1 in
   reportData s1 = reportData s /\
   cachedResults s1 !! generateCacheKey s = Some (reportData s) /\
   reportData s2 = reportData s /\ log s2 = log s1 ++ [fromCache]).
Proof.
  assert (cachedResults (addField emailField cachedState)
            !! generateCacheKey (addField emailField cachedState) = None) as Hmiss
      by (vm_compute; reflexivity).
  assert (truthy (reportData (addField emailField cachedState)) = true) as Hdata
      by (vm_compute; reflexivity).
  pose proof (failed_execution_caches_earlier_results (Rejected ENull) (Rejected ENull)
                (Rejected ENull) (Rejected ENull) 200 230 300 330
                (addField emailField cachedState) Hmiss Hdata
                (or_intror (or_introl (ex_intro _ ENull eq_refl)))) as H.
  split; [exact Hmiss|]. split; [exact Hdata | exact H].
Defined.

(** The filter with id 5 is removed; no sort and no group has that id. *)
Lemma remove_by_id_witness :
  findIndex (fun f => f_id f =? 5) (liveFilters arrangedState) = Some 0%nat /\
  findIndex (fun x => s_id x =? 5) (liveSorts arrangedState) = None /\
  liveFilters (removeFilter 5 arrangedState)
    = take 0 (liveFilters arrangedState) ++ drop 1 (liveFilters arrangedState) /\
  removeSort 5 arrangedState = arrangedState.
Proof.
  assert (findIndex (fun f => f_id f =? 5) (liveFilters arrangedState) = Some 0%nat) as Hf
      by (vm_compute; reflexivity).
  assert (findIndex (fun x => s_id x =? 5) (liveSorts arrangedState) = None) as Hs
      by (vm_compute; reflexivity).
  destruct (remove_by_id 5 arrangedState) as ((_ & Hfilter) & (Hsort & _) & _).
  split; [exact Hf|]. split; [exact Hs|].
  split; [exact (Hfilter 0%nat Hf) | exact (Hsort Hs)].
Defined.

(** A filter created at time 5 and removed: with no filter before, and
    with a filter of the same millisecond before. *)
Lemma addFilter_then_removeFilter_witness :
  (filters twoFields < length (filterArrays twoFields))%nat /\
  liveFilters (removeFilter 5 (addFilter 5 twoFields)) = liveFilters twoFields /\
  liveFilters (removeFilter 5 (addFilter 5 filterState))
    = delete 0%nat (liveFilters filterState) ++ [newFilter 5].
Proof.
  assert (filters twoFields < length (filterArrays twoFields))%nat as Hv
      by (vm_compute; lia).
  assert (filters filterState < length (filterArrays filterState))%nat as Hv'
      by (vm_compute; lia).
  assert (findIndex (fun f => f_id f =? 5) (liveFilters twoFields) = None) as Hnone
      by (vm_compute; reflexivity).
  assert (findIndex (fun f => f_id f =? 5) (liveFilters filterState) = Some 0%nat) as Hold
      by (vm_compute; reflexivity).
  destruct (addFilter_then_removeFilter 5 twoFields Hv) as [Hfresh _].
  destruct (addFilter_then_removeFilter 5 filterState Hv') as [_ Hclash].
  split; [exact Hv|]. split; [exact (Hfresh Hnone) | exact (Hclash 0%nat Hold)].
Defined.

(** The filter on [email] is put on [amount_total], a monetary field,
    and is given the id 99; no filter has the id 9. *)
Lemma updateFilter_spec_witness :
  findIndex (fun f => f_id f =? 5) (liveFilters filterState) = Some 0%nat /\
  (exists f f',
     liveFilters filterState !! 0%nat = Some f /\
     liveFilters (updateFilter 5 (UField "amount_total") filterState)
       = <[0%nat := f']> (liveFilters filterState) /\
     f_id f' = f_id f /\ f_field f' = "amount_total" /\
     f_field_type f' =
       match find (fun d => String.eqb (fd_name d) "amount_total")
               (availableFields filterState) with
       | Some d => fd_type d
       | None => f_field_type f
       end) /\
  (exists f f',
     liveFilters filterState !! 0%nat = Some f /\
     liveFilters (updateFilter 5 (UId 99) filterState)
       = <[0%nat := f']> (liveFilters filterState) /\
     f_id f' = 99 /\ f_field f' = f_field f) /\
  updateFilter 9 (UValue "x") filterState = filterState.
Proof.
  assert (findIndex (fun f => f_id f =? 5) (liveFilters filterState) = Some 0%nat) as Hi
      by (vm_compute; reflexivity).
  assert (findIndex (fun f => f_id f =? 9) (liveFilters filterState) = None) as Hnone
      by (vm_compute; reflexivity).
  destruct (updateFilter_spec 5 (UField "amount_total") filterState) as [_ Hfound].
  destruct (Hfound 0%nat Hi) as (f & f' & Hf & _ & Hl & Hid & Hfield & Htype & _).
  destruct (updateFilter_spec 5 (UId 99) filterState) as [_ Hfound'].
  destruct (Hfound' 0%nat Hi) as (g & g' & Hg & _ & Hl' & Hid' & Hfield' & _).
  destruct (updateFilter_spec 9 (UValue "x") filterState) as [Habsent _].
  split; [exact Hi|]. split; [|split; [|exact (Habsent Hnone)]].
  - exists f, f'. split; [exact Hf|]. split; [exact Hl|]. split; [exact Hid|].
    split; [exact Hfield | exact Htype].
  - exists g, g'. split; [exact Hg|]. split; [exact Hl'|]. split; [exact Hid' | exact Hfield'].
Defined.

(** The filter on [email] with ['!='] and no value: accepted, not sent,
    saved. *)
Lemma filters_sent_and_saved_witness :
  In emailFilter (liveFilters filterState) /\
  invalid_filter emailFilter = false /\
  ~ In (preparedOf emailFilter) (prepareFilters filterState) /\
  exists line, In line (prepareFiltersForSave filterState) /\
    ql_field_name line = f_field emailFilter /\ ql_operator line = "!=" /\
    ql_value line = "" /\ ql_active line = true.
Proof.
  assert (liveFilters filterState = [emailFilter]) as E by (vm_compute; reflexivity).
  assert (In emailFilter (liveFilters filterState)) as Hin by (rewrite E; now left).
  destruct (filters_sent_and_saved filterState) as [_ Hempty].
  assert (f_field emailFilter <> "") as Hfield by discriminate.
  destruct (Hempty emailFilter Hin eq_refl Hfield eq_refl eq_refl) as (Hvalid & Hsent & Hsaved).
  split; [exact Hin|]. split; [exact Hvalid|]. split; [exact Hsent | exact Hsaved].
Defined.



(** A third action logged after one undo: the undone entry is
    discarded and there is nothing to redo. *)
Lemma action_discards_undone_entries_witness :
  cursor_ok undoneState /\
  (let s' := addToHistory "bulk_add_fields" JNull 30 undoneState in
   historyIndex s' = Z.of_nat (length (history s')) - 1 /\
   redo s' = (Normal, showWarning MNothingToRedo s')).
Proof.
  assert (cursor_ok undoneState) as Hok
      by (unfold cursor_ok; vm_compute; intuition discriminate).
  pose proof (action_discards_undone_entries "bulk_add_fields" JNull 30 undoneState Hok) as H.
  cbv zeta in H. destruct H as (_ & Hcur & _ & Hredo).
  cbv zeta. split; [exact Hok|]. split; [exact Hcur | exact Hredo].
Defined.

(** [redo] and [undo] with the cursor on the first of two entries. *)
Lemma undo_redo_compose_witness :
  cursor_ok undoneState /\ 0 <= historyIndex undoneState /\
  historyIndex undoneState < Z.of_nat (length (history undoneState)) - 1 /\
  exists e, entry_at (historyIndex undoneState) undoneState = Some e /\
    (let s' := snd (undo (snd (redo undoneState))) in
     historyIndex s' = historyIndex undoneState /\ history s' = history undoneState /\
     liveRefs s' = h_state e /\
     log s' = log undoneState ++ [info MRedone; info MUndone]).
Proof.
  assert (cursor_ok undoneState) as Hok
      by (unfold cursor_ok; vm_compute; intuition discriminate).
  assert (0 <= historyIndex undoneState) as Hpos by (vm_compute; discriminate).
  assert (historyIndex undoneState < Z.of_nat (length (history undoneState)) - 1) as Hlt
      by (vm_compute; reflexivity).
  destruct (undo_redo_compose undoneState Hok Hpos) as (e & He & _ & Hback).
  split; [exact Hok|]. split; [exact Hpos|]. split; [exact Hlt|].
  exists e. split; [exact He | exact (Hback Hlt)].
Defined.


(** The sales order model is chosen after two logged actions on the
    contact model; [undo] then shows the contact's fields under it. *)
Lemma onModelChange_success_witness :
  find (is_model (Some 2)) (availableModels twoLogged) = Some orderModel /\
  0 < historyIndex twoLogged /\
  entry_at (historyIndex twoLogged - 1) twoLogged = Some firstEntry /\
  (let s' := onModelChange (Some 2) (Resolved orderFields) twoLogged in
   selectedModel s' = Some orderModel /\ liveContents s' = ([], [], [], []) /\
   history s' = history twoLogged /\
   selectedModel (snd (undo s')) = Some orderModel /\
   liveContents (snd (undo s')) = contents twoLogged (h_state firstEntry)).
Proof.
  assert (find (is_model (Some 2)) (availableModels twoLogged) = Some orderModel) as Hfind
      by (vm_compute; reflexivity).
  assert (0 < historyIndex twoLogged) as Hpos by (vm_compute; reflexivity).
  assert (entry_at (historyIndex twoLogged - 1) twoLogged = Some firstEntry) as He
      by (vm_compute; reflexivity).
  assert (valid_refs twoLogged (h_state firstEntry)) as Hv by (vm_compute; lia).
  pose proof (onModelChange_success (Some 2) orderFields orderModel twoLogged
                eq_refl Hfind eq_refl) as H.
  cbv zeta in H. destruct H as ((Hm & _ & Hlive & _) & _ & (Hh & _) & Hundo).
  destruct (Hundo firstEntry Hpos He Hv) as [Hm' Hold].
  cbv zeta. split; [exact Hfind|]. split; [exact Hpos|]. split; [exact He|].
  split; [exact Hm|]. split; [exact Hlive|]. split; [exact Hh|].
  split; [exact Hm' | exact Hold].
Defined.

(** The contact model with nothing selected: [name] and [email] are
    recommended. *)
Lemma recommendations_accepted_once_witness :
  selectedModel loadedState = Some partnerModel /\
  (selectedFields loadedState < length (fieldArrays loadedState))%nat /\
  getFieldRecommendations (m_model partnerModel) loadedState = [nameField; emailField] /\
  (let s' := acceptRecommendations
               (getFieldRecommendations (m_model partnerModel) loadedState) loadedState in
   getFieldRecommendations (m_model partnerModel) s' = [] /\
   smartFieldRecommendation s' = (None, showInfo MNoRecommendations s')).
Proof.
  assert (selectedModel loadedState = Some partnerModel) as Hm by (vm_compute; reflexivity).
  assert (selectedFields loadedState < length (fieldArrays loadedState))%nat as Hv
      by (vm_compute; lia).
  assert (getFieldRecommendations (m_model partnerModel) loadedState
          = [nameField; emailField]) as Hrec by (vm_compute; reflexivity).
  pose proof (recommendations_accepted_once partnerModel loadedState Hm Hv) as H.
  cbv zeta in H. destruct H as (_ & _ & _ & _ & Hnone & Hsmart).
  cbv zeta. split; [exact Hm|]. split; [exact Hv|]. split; [exact Hrec|].
  split; [exact Hnone | exact Hsmart].
Defined.

(** The dialog as opened on two fields, with a search that keeps the
    case of its term. *)
Lemma dialog_selection_witness :
  toggleField nameField (toggleField nameField bulkDialogSetup) = bulkDialogSetup /\
  (let d1 := toggleSelectAll (fun x => x) [nameField; emailField] bulkDialogSetup in
   let d2 := toggleSelectAll (fun x => x) [nameField; emailField] d1 in
   d_selectedFields d1 = filteredFields (fun x => x) [nameField; emailField] bulkDialogSetup /\
   d_selectedFields d2 = [] /\ d_selectAll d2 = false /\
   d_searchTerm d2 = d_searchTerm bulkDialogSetup) /\
  filteredFields (fun x => x) [nameField; emailField] bulkDialogSetup
    = [nameField; emailField].
Proof.
  destruct (dialog_selection (fun x => x) [nameField; emailField] bulkDialogSetup nameField)
    as (Htwice & Hall & Hsearch).
  split; [exact (Htwice eq_refl)|]. split; [exact (Hall eq_refl) | exact (Hsearch eq_refl)].
Defined.

(** The cached state and the same with other options of its field: the
    field lines of the request differ, the key does not. *)
Lemma cache_key_parts_witness :
  keyed relabelled = keyed cachedState /\
  prepareFields relabelled <> prepareFields cachedState /\
  cachedResults relabelled !! generateCacheKey cachedState = Some annRows /\
  generateCacheKey relabelled = generateCacheKey cachedState /\
  (let s2 := executeWithCache (Rejected ENull) (Rejected ENull) 200 230 relabelled in
   reportData s2 = annRows /\ reportCount s2 = rowCount annRows /\
   log s2 = log relabelled ++ [fromCache]).
Proof.
  assert (keyed relabelled = keyed cachedState) as Hk by (vm_compute; reflexivity).
  assert (prepareFields relabelled <> prepareFields cachedState) as Hlines
      by (vm_compute; discriminate).
  assert (cachedResults relabelled !! generateCacheKey cachedState = Some annRows) as Hhit
      by (vm_compute; reflexivity).
  destruct (cache_key_parts (Rejected ENull) (Rejected ENull) 200 230 cachedState relabelled
              annRows Hk) as [Hkey Hrun].
  split; [exact Hk|]. split; [exact Hlines|]. split; [exact Hhit|].
  split; [exact Hkey | exact (Hrun Hhit)].
Defined.



(** The timer fires twice while the cached results are shown; the
    server calls would fail. *)
Lemma auto_refresh_serves_cache_witness :
  truthy (reportData (state showingCached)) = true /\
  cachedResults (state showingCached) !! generateCacheKey (state showingCached)
    = Some (reportData (state showingCached)) /\
  (let c' := firings [failingFiring; failingFiring] showingCached in
   reportData (state c') = reportData (state showingCached) /\
   log (state c') = log (state showingCached)
                    ++ repeat fromCache (length [failingFiring; failingFiring])) /\
  firings [failingFiring; failingFiring] initialComponent = initialComponent.
Proof.
  assert (truthy (reportData (state showingCached)) = true) as Hdata
      by (vm_compute; reflexivity).
  assert (cachedResults (state showingCached) !! generateCacheKey (state showingCached)
          = Some (reportData (state showingCached))) as Hhit by (vm_compute; reflexivity).
  destruct (auto_refresh_serves_cache [failingFiring; failingFiring] showingCached)
    as [_ Hserved].
  pose proof (Hserved Hdata Hhit) as H. cbv zeta in H. destruct H as (Hd & Hl & _).
  destruct (auto_refresh_serves_cache [failingFiring; failingFiring] initialComponent)
    as [Hidle _].
  cbv zeta. split; [exact Hdata|]. split; [exact Hhit|].
  split; [split; [exact Hd | exact Hl] | exact (Hidle eq_refl)].
Defined.

(** The settings of the two-field state are imported into a component
    that has loaded no models. *)
Lemma importSettings_spec_witness :
  cursor_ok (state initialComponent) /\
  find (is_model (Some (m_id partnerModel))) (availableModels (state initialComponent)) = None /\
  (let c' := importSettings (Some settingsFile) (Rejected ENull) 40 initialComponent in
   liveContents (state c') = liveContents twoFields /\
   notices c' = notices initialComponent ++ [(Success, TSettingsImported)] /\
   selectedModel (state c') = selectedModel (state initialComponent) /\
   log (state c') = log (state initialComponent) ++ [failure (Some MModelNotFound)]).
Proof.
  assert (cursor_ok (state initialComponent)) as Hok
      by (unfold cursor_ok; vm_compute; intuition discriminate).
  assert (find (is_model (Some (m_id partnerModel)))
            (availableModels (state initialComponent)) = None) as Hfind
      by (vm_compute; reflexivity).
  assert (doc_model (fst (exportSettings "2026-01-01T00:00:00.000Z" twoFieldsComponent))
          = Some partnerModel) as Hm by (vm_compute; reflexivity).
  assert (m_id partnerModel <> 0) as Hid by discriminate.
  destruct (importSettings_spec settingsFile (Rejected ENull) 40 initialComponent)
    as (_ & _ & Hdoc).
  destruct (Hdoc _ eq_refl) as [_ Haccepted].
  pose proof (Haccepted partnerModel (liveFields twoFields) Hm eq_refl Hok) as H.
  cbv zeta in H. destruct H as (Hlive & _ & Hnotices & Hmissing).
  destruct (Hmissing Hid Hfind) as (Hsel & _ & Hlog).
  cbv zeta. split; [exact Hok|]. split; [exact Hfind|].
  split; [exact Hlive|]. split; [exact Hnotices|]. split; [exact Hsel | exact Hlog].
Defined.

(** The same file imported where the models are loaded and the server
    sends the contact's fields. *)
Lemma export_import_roundtrip_witness :
  cursor_ok (state modelsLoaded) /\
  selectedModel (state twoFieldsComponent) = Some partnerModel /\
  find (is_model (Some (m_id partnerModel))) (availableModels (state modelsLoaded))
    = Some partnerModel /\
  (let file := {| file_name := "report_settings.json";
                  file_parsed :=
                    Document (fst (exportSettings "2026-01-01T00:00:00.000Z"
                                     twoFieldsComponent)) |} in
   let c' := importSettings (Some file) (Resolved contactFields) 40 modelsLoaded in
   liveContents (state c') = liveContents (state twoFieldsComponent) /\
   selectedModel (state c') = Some partnerModel /\
   availableFields (state c') = fr_fields contactFields).
Proof.
  assert (cursor_ok (state modelsLoaded)) as Hok
      by (unfold cursor_ok; vm_compute; intuition discriminate).
  assert (selectedModel (state twoFieldsComponent) = Some partnerModel) as Hm
      by (vm_compute; reflexivity).
  assert (find (is_model (Some (m_id partnerModel))) (availableModels (state modelsLoaded))
          = Some partnerModel) as Hfind by (vm_compute; reflexivity).
  assert (m_id partnerModel <> 0) as Hid by discriminate.
  pose proof (export_import_roundtrip "2026-01-01T00:00:00.000Z" "report_settings.json"
                (Resolved contactFields) 40 twoFieldsComponent modelsLoaded Hok) as H.
  cbv zeta in H. destruct H as [_ Hround].
  destruct (Hround partnerModel Hm) as [Hlive Hmodel].
  destruct (Hmodel partnerModel contactFields Hid Hfind eq_refl eq_refl) as [Hsel Hav].
  cbv zeta. split; [exact Hok|]. split; [exact Hm|]. split; [exact Hfind|].
  split; [exact Hlive|]. split; [exact Hsel | exact Hav].
Defined.

(** [name], the first of two fields, is duplicated and then removed by
    its name. *)
Lemma duplicate_then_remove_witness :
  findIndex (has_name "name") (liveFields twoFields) = Some 0%nat /\
  liveFields twoFields !! 0%nat = Some nameSpec /\
  (let copy := copyOf nameSpec (length (liveFields twoFields)) in
   let s1 := duplicateField "name" 20 twoFields in
   liveFields s1 = liveFields twoFields ++ [copy] /\
   liveFields (removeField "name" s1) = delete 0%nat (liveFields twoFields) ++ [copy] /\
   log (removeField "name" s1) = log s1 ++ [info (MFieldRemoved (label nameSpec))]) /\
  duplicateField "phone" 20 twoFields = twoFields.
Proof.
  assert (findIndex (has_name "name") (liveFields twoFields) = Some 0%nat) as Hi
      by (vm_compute; reflexivity).
  assert (liveFields twoFields !! 0%nat = Some nameSpec) as Hf by (vm_compute; reflexivity).
  destruct (duplicate_then_remove "name" 20 twoFields) as [_ Hfound].
  destruct (duplicate_then_remove "phone" 20 twoFields) as [Habsent _].
  split; [exact Hi|]. split; [exact Hf|].
  split; [exact (Hfound 0%nat nameSpec Hi Hf) | exact (Habsent no_phone_field)].
Defined.

(** The cache of the cached state is cleared and the report executed
    again. *)
Lemma clearCache_then_execute_witness :
  (let s0 := clearCache cachedState in
   let s1 := executeWithCache (Resolved 8) (Resolved annResult) 200 230 s0 in
   truthy (reportData s1) = true /\
   cachedResults s1 = {[ generateCacheKey cachedState := reportData s1 ]} /\
   totalExecutions (executionStats s1) = totalExecutions (executionStats cachedState) + 1).
Proof.
  assert (truthy (reportData (executeWithCache (Resolved 8) (Resolved annResult) 200 230
                                (clearCache cachedState))) = true) as Hdata
      by (vm_compute; reflexivity).
  pose proof (clearCache_then_execute (Resolved 8) (Resolved annResult) 200 230 cachedState)
    as H.
  cbv zeta in H. destruct H as (_ & _ & Honly & Hcount).
  cbv zeta. split; [exact Hdata|]. split; [exact (Honly Hdata) | exact Hcount].
Defined.

Lemma reachable_loadedState : reachable loadedState.
Proof.
  unfold loadedState. apply reach_onModelChange, reach_loadInitialData, reach_initial.
Defined.

(** [name] is bulk-added, then [email]. *)
Lemma undo_redo_after_two_actions_witness :
  reachable loadedState /\
  (let between := bulkAddConfirm [nameField] 10 loadedState in
   let after := bulkAddConfirm [emailField] 20 between in
   fst (undo after) = Normal /\ liveContents (snd (undo after)) = liveContents between /\
   fst (redo (snd (undo after))) = Normal /\
   liveContents (snd (redo (snd (undo after)))) = liveContents after).
Proof.
  split; [exact reachable_loadedState|].
  exact (undo_redo_after_two_actions [nameField] [emailField] 10 20 loadedState
           reachable_loadedState).
Defined.



(** The contact settings are saved as a template; the settings of the
    component as set up are refused. *)
Lemma saveAsTemplate_spec_witness :
  fst (validateReportSettings (state partnerComponent)) = true /\
  fst (validateReportSettings (state initialComponent)) = false /\
  (exists m, selectedModel (state partnerComponent) = Some m /\
     fst (saveAsTemplate (Some "Contacts") (Resolved 11) partnerComponent)
       = Some {| tpl_name := "Contacts"; tpl_model_id := m_id m; tpl_is_template := true;
                 tpl_field_ids := r_field_ids (tempReport m (state partnerComponent));
                 tpl_filter_ids := r_filter_ids (tempReport m (state partnerComponent)) |}) /\
  fst (saveAsTemplate None (Resolved 11) partnerComponent) = None /\
  fst (saveAsTemplate (Some "Contacts") (Resolved 11) initialComponent) = None.
Proof.
  assert (fst (validateReportSettings (state partnerComponent)) = true) as Hok
      by (vm_compute; reflexivity).
  assert (fst (validateReportSettings (state initialComponent)) = false) as Hbad
      by (vm_compute; reflexivity).
  assert ("Contacts" <> "") as Hname by discriminate.
  pose proof (saveAsTemplate_spec (Some "Contacts") (Resolved 11) partnerComponent) as H1.
  pose proof (saveAsTemplate_spec None (Resolved 11) partnerComponent) as H2.
  pose proof (saveAsTemplate_spec (Some "Contacts") (Resolved 11) initialComponent) as H3.
  cbv zeta in H1, H2, H3.
  destruct H1 as (_ & _ & Hvalid). destruct (Hvalid Hok) as [_ Hnamed].
  destruct (Hnamed "Contacts" eq_refl Hname) as (m & Hm & Hrec & _).
  destruct H2 as (_ & _ & Hvalid2). destruct (Hvalid2 Hok) as [Hcancel _].
  destruct (Hcancel (or_introl eq_refl)) as (Hnone & _).
  destruct H3 as (_ & Hrefused & _). destruct (Hrefused Hbad) as (Hnone' & _).
  split; [exact Hok|]. split; [exact Hbad|].
  split; [exists m; split; [exact Hm | exact Hrec]|]. split; [exact Hnone | exact Hnone'].
Defined.
